(** * Asset manager: statement parsing, target import, matching, rebalancing

    A shallow embedding of the core of the asset-manager repository:

    - [services/rebalancing.ts]      [calculateRebalancing];
    - [routes/rebalancing.ts]        the plan of [GET /], after the database
                                     reads;
    - [services/holdingMatcher.ts]   [matchHoldingsToTargets];
    - [parsers/targetExcelParser.ts] [parseTargetExcel], from the rows of the
                                     first worksheet on;
    - the CSV target parser          [parseTargetCsv], [parseCsvLine];
    - [parsers/ibStatementParser.ts] [parseOpenPositions], both layouts;
                                     [parseIBStatementCSV];
                                     [parseHoldingsFromText] and the holdings
                                     of [parseIBStatement];
    - [services/holdingMatcher.ts]   [updateHoldingsWithTargetTypes], the
                                     statements it runs;
    - [services/currencyLookup.ts]   [getCurrencyForSymbol];
    - [services/tickerLookup.ts]     [getBestTicker], [getAllTickers];
    - [services/targetValidator.ts]  [validateTarget], [validateTargets];
    - [routes/statements.ts]         the allocations of a snapshot.

    Conventions of the embedding.

    - A JavaScript number is a value of [num]: a rational, one of the two
      infinities, or NaN.  Arithmetic is exact on rationals (the rounding of
      binary64 is not modelled), zero is unsigned, and a division by zero
      gives an infinity or NaN as in JavaScript.  A sum or a product of
      rationals therefore never overflows to an infinity nor underflows to
      0, and [parseFloat] gives the exact value of the decimal text.  The
      numeric fields of the records read from the database are finite,
      hence of type [Q].
    - A JavaScript string is a [string]; the characters that matter to the
      code are ASCII, and [toUpperCase], [toLowerCase], [trim] and the
      regular-expression classes act on the ASCII letters, digits and
      white space, leaving every other character alone.
    - A [Map] that is only looked up is a [gmap]; a [Map] that is iterated is
      an association list in insertion order.
    - [Array.prototype.sort] is a stable insertion sort driven by the
      comparator of the source; a NaN comparator result counts as 0.
    - A loop of the source that is not bounded by its input takes a number
      of passes ([fuel]) and answers [None] when they do not suffice; an
      exception is [None] as well. *)

From Stdlib Require Import QArith Qabs Qround Lqa Lia.
From Stdlib Require Import Ascii String Sorting.Permutation Sorting.Sorted.
From Stdlib Require Import Decimal DecimalString DecimalNat.
From stdpp Require Import gmap strings list.

Local Open Scope string_scope.

(* ===================================================================== *)
(** ** JavaScript numbers *)
(* ===================================================================== *)

Module Js.

Inductive num : Type :=
| Fin (q : Q)
| PInf
| NInf
| NaN.

Definition Qltb (a b : Q) : bool :=
  match Qcompare a b with Lt => true | _ => false end.

Definition inf_of_sign (c : comparison) : num :=
  match c with Gt => PInf | Lt => NInf | Eq => NaN end.

Definition add (x y : num) : num :=
  match x, y with
  | NaN, _ | _, NaN => NaN
  | Fin a, Fin b => Fin (a + b)
  | PInf, NInf | NInf, PInf => NaN
  | PInf, _ | _, PInf => PInf
  | NInf, _ | _, NInf => NInf
  end.

Definition opp (x : num) : num :=
  match x with
  | Fin a => Fin (- a)
  | PInf => NInf
  | NInf => PInf
  | NaN => NaN
  end.

Definition sub (x y : num) : num := add x (opp y).

Definition mul (x y : num) : num :=
  match x, y with
  | NaN, _ | _, NaN => NaN
  | Fin a, Fin b => Fin (a * b)
  | Fin a, PInf | PInf, Fin a => inf_of_sign (Qcompare a 0)
  | Fin a, NInf | NInf, Fin a => inf_of_sign (Qcompare 0 a)
  | PInf, PInf | NInf, NInf => PInf
  | PInf, NInf | NInf, PInf => NInf
  end.

Definition div (x y : num) : num :=
  match x, y with
  | NaN, _ | _, NaN => NaN
  | Fin a, Fin b =>
      if Qeq_bool b 0 then inf_of_sign (Qcompare a 0) else Fin (a / b)
  | Fin _, PInf | Fin _, NInf => Fin 0
  | PInf, Fin b => if Qltb b 0 then NInf else PInf
  | NInf, Fin b => if Qltb b 0 then PInf else NInf
  | PInf, PInf | PInf, NInf | NInf, PInf | NInf, NInf => NaN
  end.

(** [Math.abs] *)
Definition abs (x : num) : num :=
  match x with
  | Fin a => Fin (Qabs a)
  | PInf | NInf => PInf
  | NaN => NaN
  end.

(** [x < y], [x <= y], [x > y], [x >= y], [x === y]: false on NaN. *)
Definition ltb (x y : num) : bool :=
  match x, y with
  | NaN, _ | _, NaN => false
  | Fin a, Fin b => Qltb a b
  | NInf, NInf => false
  | NInf, _ => true
  | _, NInf => false
  | PInf, _ => false
  | Fin _, PInf => true
  end.

Definition leb (x y : num) : bool :=
  match x, y with
  | NaN, _ | _, NaN => false
  | Fin a, Fin b => Qle_bool a b
  | NInf, _ => true
  | _, PInf => true
  | PInf, _ => false
  | Fin _, NInf => false
  end.

Definition gtb (x y : num) : bool := ltb y x.
Definition geb (x y : num) : bool := leb y x.

Definition eqb (x y : num) : bool :=
  match x, y with
  | Fin a, Fin b => Qeq_bool a b
  | PInf, PInf | NInf, NInf => true
  | _, _ => false
  end.

Definition isNaN (x : num) : bool :=
  match x with NaN => true | _ => false end.

(** Truthiness of a number: neither 0 nor NaN. *)
Definition truthy (x : num) : bool :=
  match x with
  | NaN => false
  | Fin a => negb (Qeq_bool a 0)
  | _ => true
  end.

(** [x || y] on numbers. *)
Definition or (x y : num) : num := if truthy x then x else y.

End Js.

Import Js.

Declare Scope num_scope.
Delimit Scope num_scope with num.
Bind Scope num_scope with num.
Infix "+" := Js.add : num_scope.
Infix "-" := Js.sub : num_scope.
Infix "*" := Js.mul : num_scope.
Infix "/" := Js.div : num_scope.
Infix "<?" := Js.ltb : num_scope.
Infix "<=?" := Js.leb : num_scope.
Infix ">?" := Js.gtb : num_scope.
Infix ">=?" := Js.geb : num_scope.
Infix "=?" := Js.eqb : num_scope.

Coercion Fin : Q >-> num.

(* ===================================================================== *)
(** ** JavaScript strings *)
(* ===================================================================== *)

Definition isUpperAZ (c : ascii) : bool :=
  let n := nat_of_ascii c in (65 <=? n)%nat && (n <=? 90)%nat.

Definition isLowerAZ (c : ascii) : bool :=
  let n := nat_of_ascii c in (97 <=? n)%nat && (n <=? 122)%nat.

Definition isDigit (c : ascii) : bool :=
  let n := nat_of_ascii c in (48 <=? n)%nat && (n <=? 57)%nat.

Definition upperChar (c : ascii) : ascii :=
  if isLowerAZ c then ascii_of_nat (nat_of_ascii c - 32) else c.

Definition lowerChar (c : ascii) : ascii :=
  if isUpperAZ c then ascii_of_nat (nat_of_ascii c + 32) else c.

Fixpoint mapStr (f : ascii -> ascii) (s : string) : string :=
  match s with
  | EmptyString => EmptyString
  | String c s' => String (f c) (mapStr f s')
  end.

Definition toUpperCase : string -> string := mapStr upperChar.
Definition toLowerCase : string -> string := mapStr lowerChar.

(** Truthiness of a string: non-empty. *)
Definition nonEmpty (s : string) : bool :=
  match s with EmptyString => false | _ => true end.

(** Truthiness of an optional string: defined and non-empty. *)
Definition truthyStr (o : option string) : bool :=
  match o with Some s => nonEmpty s | None => false end.

(** [o || d] for an optional string [o]. *)
Definition orStr (o : option string) (d : string) : string :=
  match o with
  | Some s => if nonEmpty s then s else d
  | None => d
  end.

(** [o || undefined] *)
Definition orUndefined (o : option string) : option string :=
  if truthyStr o then o else None.

(* ===================================================================== *)
(** ** String helpers *)
(* ===================================================================== *)

(** White space of [trim] and of the regular-expression class [\s]. *)
Definition isSpace (c : ascii) : bool :=
  let n := nat_of_ascii c in
  ((9 <=? n)%nat && (n <=? 13)%nat) || (n =? 32)%nat.

(** [\w] *)
Definition isWord (c : ascii) : bool :=
  isUpperAZ c || isLowerAZ c || isDigit c || Ascii.eqb c "_"%char.

(** [[A-Z0-9]] *)
Definition isUpperAlnum (c : ascii) : bool := isUpperAZ c || isDigit c.

Fixpoint forallb_str (p : ascii -> bool) (s : string) : bool :=
  match s with
  | EmptyString => true
  | String c s' => p c && forallb_str p s'
  end.

Fixpoint existsb_str (p : ascii -> bool) (s : string) : bool :=
  match s with
  | EmptyString => false
  | String c s' => p c || existsb_str p s'
  end.

Fixpoint trimStart (s : string) : string :=
  match s with
  | EmptyString => EmptyString
  | String c s' => if isSpace c then trimStart s' else s
  end.

(** Removes trailing white space: a white-space character is kept only when
    something that is not white space follows it. *)
Fixpoint trimEnd (s : string) : string :=
  match s with
  | EmptyString => EmptyString
  | String c s' =>
      match trimEnd s' with
      | EmptyString => if isSpace c then EmptyString else String c EmptyString
      | t => String c t
      end
  end.

Definition trim (s : string) : string := trimEnd (trimStart s).

(** [s.replace(/c/g, '')] for a single character [c]. *)
Fixpoint removeChar (c : ascii) (s : string) : string :=
  match s with
  | EmptyString => EmptyString
  | String d s' =>
      if Ascii.eqb c d then removeChar c s' else String d (removeChar c s')
  end.

(** [s.split(sep)] for a separator that is one character of the class [p];
    the result is never empty. *)
Fixpoint splitOn (p : ascii -> bool) (s : string) : list string :=
  match s with
  | EmptyString => [EmptyString]
  | String c s' =>
      if p c then EmptyString :: splitOn p s'
      else
        match splitOn p s' with
        | [] => [String c EmptyString]
        | w :: ws => String c w :: ws
        end
  end.

Definition splitLines : string -> list string :=
  splitOn (fun c => Ascii.eqb c "010"%char).

Definition endsWith (s suffix : string) : bool :=
  let n := String.length s in
  let k := String.length suffix in
  (k <=? n)%nat && String.eqb (String.substring (n - k) k s) suffix.

(** The last [k] characters of [s], when [s] has that many. *)
Definition lastChars (k : nat) (s : string) : option string :=
  let n := String.length s in
  if (k <=? n)%nat then Some (String.substring (n - k) k s) else None.

(** Template-literal rendering of a non-negative integer. *)
Definition natToString (n : nat) : string :=
  NilEmpty.string_of_uint (Nat.to_uint n).

(** *** [parseFloat] *)

Fixpoint spanDigits (s : string) : string * string :=
  match s with
  | EmptyString => (EmptyString, EmptyString)
  | String c s' =>
      if isDigit c then
        let '(ds, rest) := spanDigits s' in (String c ds, rest)
      else (EmptyString, s)
  end.

(** Value of a string of decimal digits, most significant first. *)
Definition digitsValue (ds : string) : Z :=
  let fix go (acc : Z) (s : string) : Z :=
    match s with
    | EmptyString => acc
    | String c s' => go (10 * acc + Z.of_nat (nat_of_ascii c - 48))%Z s'
    end in
  go 0%Z ds.

(** [ExponentPart]: [e] or [E], an optional sign, at least one digit;
    0 when the text does not start with a complete exponent part. *)
Definition exponentOf (s : string) : Z :=
  match s with
  | String c s' =>
      if Ascii.eqb c "e"%char || Ascii.eqb c "E"%char then
        match s' with
        | String sg s'' =>
            if Ascii.eqb sg "-"%char then
              let '(ds, _) := spanDigits s'' in
              if nonEmpty ds then (- digitsValue ds)%Z else 0%Z
            else if Ascii.eqb sg "+"%char then
              let '(ds, _) := spanDigits s'' in
              if nonEmpty ds then digitsValue ds else 0%Z
            else
              let '(ds, _) := spanDigits s' in
              if nonEmpty ds then digitsValue ds else 0%Z
        | EmptyString => 0%Z
        end
      else 0%Z
  | EmptyString => 0%Z
  end.

(** The value of the longest prefix of the text, after leading white space,
    that is a [StrDecimalLiteral]; NaN when there is none. *)
Definition parseFloat (s : string) : num :=
  let s0 := trimStart s in
  let '(negative, s1) :=
    match s0 with
    | String c r =>
        if Ascii.eqb c "-"%char then (true, r)
        else if Ascii.eqb c "+"%char then (false, r)
        else (false, s0)
    | EmptyString => (false, s0)
    end in
  if String.prefix "Infinity" s1 then (if negative then NInf else PInf)
  else
    let '(ip, s2) := spanDigits s1 in
    let '(fp, s3) :=
      match s2 with
      | String c r =>
          if Ascii.eqb c "."%char then spanDigits r else (EmptyString, s2)
      | EmptyString => (EmptyString, s2)
      end in
    if negb (nonEmpty ip) && negb (nonEmpty fp) then NaN
    else
      let e := exponentOf s3 in
      let mantissa := digitsValue (ip ++ fp) in
      let q :=
        (inject_Z mantissa
         * Qpower (inject_Z 10) (e - Z.of_nat (String.length fp)))%Q in
      Fin (if negative then (- q)%Q else q).

(** *** [Number.prototype.toFixed(2)] (below 10^21) *)

Definition toFixed2 (x : num) : string :=
  match x with
  | NaN => "NaN"
  | PInf => "Infinity"
  | NInf => "-Infinity"
  | Fin q =>
      let negative := Qltb q 0 in
      let a := Qabs q in
      let n := Qfloor (a * inject_Z 100 + (1 # 2))%Q in
      let intPart := natToString (Z.to_nat (n / 100)) in
      let frac := Z.to_nat (n mod 100) in
      let fracPart :=
        if (frac <? 10)%nat then "0" ++ natToString frac
        else natToString frac in
      (if negative then "-" else EmptyString) ++ intPart ++ "." ++ fracPart
  end.

(** [s.includes(sub)] *)
Fixpoint includes (s sub : string) : bool :=
  String.prefix sub s ||
  match s with
  | EmptyString => false
  | String _ s' => includes s' sub
  end.


(* ===================================================================== *)
(** ** Data model (db/schema.ts) *)
(* ===================================================================== *)

(** The fields of a holding that the matcher and the rebalancing engine
    read; the matcher copies the others along unchanged. *)
Record Holding : Type := mkHolding {
  h_id : Z;
  h_symbol : string;
  h_isin : option string;
  h_asset_type : string;
  h_asset_category : option string;
  h_quantity : Q;
  h_price : Q;
  h_value_usd : Q
}.

(** [alternative_tickers] is declared [string[]], but the rows read from the
    database carry it as JSON text; both forms are handled by the code. *)
Inductive AltTickers : Type :=
| AltUndefined
| AltString (s : string)
| AltArray (l : list string).

Record TargetAllocation : Type := mkTarget {
  t_id : Z;
  t_asset_type : string;
  t_asset_category : option string;
  t_symbol : option string;
  t_alternative_tickers : AltTickers;
  t_isin : option string;
  t_target_percentage : Q
}.

(** [`${asset_type}|${asset_category || ''}`] *)
Definition categoryKey (asset_type : string) (asset_category : option string)
  : string :=
  asset_type ++ "|" ++ orStr asset_category EmptyString.

Section WithJson.

(** [JSON.parse] restricted to what the code expects of the stored text: an
    array of strings.  [None] stands for the exception of a malformed text. *)
Variable JSON_parse : string -> option (list string).

(** The block that both the matcher and the rebalancing engine run on every
    target to obtain [alternativeTickers]. *)
Definition alternativeTickersOf (t : TargetAllocation) : list string :=
  match t_alternative_tickers t with
  | AltUndefined => []
  | AltString s =>
      if nonEmpty s then
        match JSON_parse s with
        | Some l => l
        | None => [s]
        end
      else []
  | AltArray l => l
  end.

(* ===================================================================== *)
(** ** Rebalancing engine (services/rebalancing.ts) *)
(* ===================================================================== *)

Inductive ActionKind : Type := BUY | SELL | OK.
Inductive Status : Type := needs_buy | needs_sell | balanced.

Record RebalancingAction : Type := mkAction {
  a_symbol : string;
  a_action : ActionKind;
  a_quantity : num;
  a_amount : num;
  a_currentAllocation : num;
  a_targetAllocation : num;
  a_deviation : num;
  a_status : Status
}.

Record AssetStatus : Type := mkAsset {
  s_symbol : string;
  s_currentAllocation : num;
  s_targetAllocation : num;
  s_deviation : num;
  s_status : Status;
  s_currentValue : num;
  s_targetValue : num;
  s_adjustmentNeeded : num;
  s_mappedTargetSymbol : option string;
  s_assetType : string
}.

Record RebalancingPlan : Type := mkPlan {
  actions : list RebalancingAction;
  allAssets : list AssetStatus;
  totalValue : num;
  totalBuy : num;
  totalSell : num;
  netCashNeeded : num
}.

(** *** Step 1: the two target maps *)

Definition setAltTickers (pct : Q) (alts : list string) (m : gmap string Q)
  : gmap string Q :=
  fold_left
    (fun m altTicker =>
       if nonEmpty altTicker then <[toUpperCase altTicker := pct]> m else m)
    alts m.

Definition targetMapsStep (maps : gmap string Q * gmap string Q)
    (target : TargetAllocation) : gmap string Q * gmap string Q :=
  let '(tickerTargetMap, categoryTargetMap) := maps in
  match t_symbol target with
  | Some sym =>
      if nonEmpty sym then
        (setAltTickers (t_target_percentage target)
           (alternativeTickersOf target)
           (<[toUpperCase sym := t_target_percentage target]> tickerTargetMap),
         categoryTargetMap)
      else
        (tickerTargetMap,
         <[categoryKey (t_asset_type target) (t_asset_category target)
             := t_target_percentage target]> categoryTargetMap)
  | None =>
      (tickerTargetMap,
       <[categoryKey (t_asset_type target) (t_asset_category target)
           := t_target_percentage target]> categoryTargetMap)
  end.

Definition buildTargetMaps (targets : list TargetAllocation)
  : gmap string Q * gmap string Q :=
  fold_left targetMapsStep targets (∅, ∅).

(** *** Step 2: current allocation per effective symbol *)

Record AllocEntry : Type := mkEntry {
  e_holding : Holding;
  e_allocation : num;
  e_mappedSymbol : option string
}.

(** [tickerAllocations]: a [Map] in insertion order. *)
Definition AllocMap : Type := list (string * AllocEntry).

Fixpoint allocGet (key : string) (m : AllocMap) : option AllocEntry :=
  match m with
  | [] => None
  | (k, e) :: m' => if String.eqb k key then Some e else allocGet key m'
  end.

(** [existing.allocation += allocation] on the entry stored under [key]. *)
Fixpoint allocBump (key : string) (allocation : num) (m : AllocMap)
  : AllocMap :=
  match m with
  | [] => []
  | (k, e) :: m' =>
      if String.eqb k key then
        (k, mkEntry (e_holding e) (e_allocation e + allocation)%num
              (e_mappedSymbol e)) :: m'
      else (k, e) :: allocBump key allocation m'
  end.

Definition isCash (holding : Holding) : bool :=
  String.eqb (toUpperCase (h_symbol holding)) "CASH".

Definition holdingAllocation (totalValue : Q) (holding : Holding) : num :=
  (Fin (h_value_usd holding) / Fin totalValue * Fin 100)%num.

Definition mappedSymbolOf (symbolMappings : gmap string string)
    (holding : Holding) : option string :=
  symbolMappings !! toUpperCase (h_symbol holding).

Definition keySymbolOf (symbolMappings : gmap string string)
    (holding : Holding) : string :=
  orStr (mappedSymbolOf symbolMappings holding)
        (toUpperCase (h_symbol holding)).

Definition allocStep (totalValue : Q) (symbolMappings : gmap string string)
    (tickerAllocations : AllocMap) (holding : Holding) : AllocMap :=
  if isCash holding then tickerAllocations
  else
    let allocation := holdingAllocation totalValue holding in
    let mappedSymbol := mappedSymbolOf symbolMappings holding in
    let keySymbol := keySymbolOf symbolMappings holding in
    match allocGet keySymbol tickerAllocations with
    | Some _ => allocBump keySymbol allocation tickerAllocations
    | None =>
        (tickerAllocations ++
          [(keySymbol, mkEntry holding allocation (orUndefined mappedSymbol))])%list
    end.

Definition buildAllocations (holdings : list Holding) (totalValue : Q)
    (symbolMappings : gmap string string) : AllocMap :=
  fold_left (allocStep totalValue symbolMappings) holdings [].

(** *** Steps 3 to 5: target resolution, status, action *)

(** The target percentage found for an entry and the [hasAnyTarget] flag. *)
Definition resolveTarget (tickerTargetMap categoryTargetMap : gmap string Q)
    (symbol : string) (e : AllocEntry) : Q * bool :=
  let holding := e_holding e in
  let targetSymbol := orStr (e_mappedSymbol e) symbol in
  match tickerTargetMap !! targetSymbol with
  | Some targetPct => (targetPct, true)
  | None =>
      match tickerTargetMap !! toUpperCase (h_symbol holding) with
      | Some targetPct => (targetPct, true)
      | None =>
          match categoryTargetMap !!
                  categoryKey (h_asset_type holding) (h_asset_category holding)
          with
          | Some targetPct => (targetPct, true)
          | None => (0%Q, false)
          end
      end
  end.

(** [!hasAnyTarget && targetPct === 0 && currentPct > 0] *)
Definition trulyUnmapped (hasAnyTarget : bool) (targetPct currentPct : num)
  : bool :=
  negb hasAnyTarget && (targetPct =? Fin 0)%num && (currentPct >? Fin 0)%num.

Definition classify (hasAnyTarget : bool) (targetPct currentPct deviation
    tolerance : num) : Status :=
  if trulyUnmapped hasAnyTarget targetPct currentPct then needs_sell
  else if (targetPct =? Fin 0)%num && (currentPct =? Fin 0)%num then balanced
  else if (abs deviation <=? tolerance)%num then balanced
  else if (deviation <? Fin 0)%num then needs_buy
  else needs_sell.

Record LoopState : Type := mkLoop {
  l_actions : list RebalancingAction;
  l_allAssets : list AssetStatus;
  l_totalBuy : num;
  l_totalSell : num
}.

(** The action pushed for one entry, if any. *)
Definition actionFor (holding : Holding) (hasAnyTarget : bool)
    (targetPct currentPct deviation adjustmentNeeded currentValue
       tolerance : num) : option RebalancingAction :=
  if ((targetPct >? Fin 0)%num && (abs deviation >? tolerance)%num)
     || trulyUnmapped hasAnyTarget targetPct currentPct
  then
    if trulyUnmapped hasAnyTarget targetPct currentPct then
      let sellAmount := currentValue in
      Some (mkAction (h_symbol holding) SELL
              (sellAmount / Fin (h_price holding))%num sellAmount
              currentPct targetPct currentPct needs_sell)
    else if (adjustmentNeeded >? Fin 0)%num then
      Some (mkAction (h_symbol holding) BUY
              (adjustmentNeeded / Fin (h_price holding))%num adjustmentNeeded
              currentPct targetPct (opp deviation) needs_buy)
    else
      let sellAmount := abs adjustmentNeeded in
      Some (mkAction (h_symbol holding) SELL
              (sellAmount / Fin (h_price holding))%num sellAmount
              currentPct targetPct deviation needs_sell)
  else None.

Definition assetFor (totalValue : Q) (tolerance : num)
    (tickerTargetMap categoryTargetMap : gmap string Q)
    (symbol : string) (e : AllocEntry) : AssetStatus :=
  let holding := e_holding e in
  let currentPct := e_allocation e in
  let '(targetPctQ, hasAnyTarget) :=
    resolveTarget tickerTargetMap categoryTargetMap symbol e in
  let targetPct := Fin targetPctQ in
  let currentValue := Fin (h_value_usd holding) in
  let targetValue := (targetPct / Fin 100 * Fin totalValue)%num in
  let deviation := (currentPct - targetPct)%num in
  let adjustmentNeeded := (targetValue - currentValue)%num in
  mkAsset (h_symbol holding) currentPct targetPct deviation
    (classify hasAnyTarget targetPct currentPct deviation tolerance)
    currentValue targetValue adjustmentNeeded
    (e_mappedSymbol e) (h_asset_type holding).

Definition entryAction (totalValue : Q) (tolerance : num)
    (tickerTargetMap categoryTargetMap : gmap string Q)
    (symbol : string) (e : AllocEntry) : option RebalancingAction :=
  let holding := e_holding e in
  let currentPct := e_allocation e in
  let '(targetPctQ, hasAnyTarget) :=
    resolveTarget tickerTargetMap categoryTargetMap symbol e in
  let targetPct := Fin targetPctQ in
  let currentValue := Fin (h_value_usd holding) in
  let targetValue := (targetPct / Fin 100 * Fin totalValue)%num in
  let deviation := (currentPct - targetPct)%num in
  let adjustmentNeeded := (targetValue - currentValue)%num in
  actionFor holding hasAnyTarget targetPct currentPct deviation
    adjustmentNeeded currentValue tolerance.

(** One iteration of the loop over [tickerAllocations]. *)
Definition planStep (totalValue : Q) (tolerance : num)
    (tickerTargetMap categoryTargetMap : gmap string Q)
    (st : LoopState) (kv : string * AllocEntry) : LoopState :=
  let '(symbol, e) := kv in
  let asset :=
    assetFor totalValue tolerance tickerTargetMap categoryTargetMap symbol e in
  match
    entryAction totalValue tolerance tickerTargetMap categoryTargetMap symbol e
  with
  | Some act =>
      match a_action act with
      | BUY =>
          mkLoop (l_actions st ++ [act])%list (l_allAssets st ++ [asset])%list
            (l_totalBuy st + a_amount act)%num (l_totalSell st)
      | _ =>
          mkLoop (l_actions st ++ [act])%list (l_allAssets st ++ [asset])%list
            (l_totalBuy st) (l_totalSell st + a_amount act)%num
      end
  | None =>
      mkLoop (l_actions st) (l_allAssets st ++ [asset])%list
        (l_totalBuy st) (l_totalSell st)
  end.

(** *** Output ordering *)

Section Sort.
Context {A : Type}.
(** [compareFn a b]; negative: [a] first, positive: [b] first. *)
Variable compareFn : A -> A -> num.

(** [x], which came before every element of [l] in the array, moves behind
    the elements that must come first ([compareFn x y > 0]); a result that
    is 0 or NaN leaves [x] in front of [y]. *)
Fixpoint sortInsert (x : A) (l : list A) : list A :=
  match l with
  | [] => [x]
  | y :: l' =>
      if (compareFn x y >? Fin 0)%num then y :: sortInsert x l'
      else x :: y :: l'
  end.

(** Elements are inserted from the last to the first, so that elements that
    compare equal keep the order of the array (the sort is stable). *)
Definition jsSort (l : list A) : list A := foldr sortInsert [] l.
End Sort.

Definition compareActions (a b : RebalancingAction) : num :=
  (abs (a_deviation b) - abs (a_deviation a))%num.

Definition statusOrder (s : Status) : num :=
  match s with
  | needs_buy => Fin 0
  | needs_sell => Fin 1
  | balanced => Fin 2
  end.

Definition compareAssets (a b : AssetStatus) : num :=
  if negb (statusOrder (s_status a) =? statusOrder (s_status b))%num then
    (statusOrder (s_status a) - statusOrder (s_status b))%num
  else (abs (s_deviation b) - abs (s_deviation a))%num.

Definition calculateRebalancing (holdings : list Holding)
    (targets : list TargetAllocation) (totalValue : Q) (tolerance : num)
    (symbolMappings : gmap string string) : RebalancingPlan :=
  let '(tickerTargetMap, categoryTargetMap) := buildTargetMaps targets in
  let tickerAllocations := buildAllocations holdings totalValue symbolMappings in
  let st :=
    fold_left (planStep totalValue tolerance tickerTargetMap categoryTargetMap)
      tickerAllocations (mkLoop [] [] (Fin 0) (Fin 0)) in
  mkPlan (jsSort compareActions (l_actions st))
         (jsSort compareAssets (l_allAssets st))
         (Fin totalValue)
         (l_totalBuy st)
         (l_totalSell st)
         (l_totalBuy st - l_totalSell st)%num.

(** *** The route (routes/rebalancing.ts), after the database reads *)

(** The default of the [tolerance] parameter:
    [tolerance: number = 0.01, // 1% tolerance]. *)
Definition defaultTolerance : num := Fin 0.01.

(** [tolerance ? parseFloat(tolerance as string) : 0.01] *)
Definition routeTolerance (tolerance : option string) : num :=
  match tolerance with
  | Some s => if nonEmpty s then parseFloat s else Fin 0.01
  | None => Fin 0.01
  end.

(** The map filled from the rows [(holding_symbol, target_symbol)] of the
    mappings query. *)
Definition routeSymbolMappings (mappings : list (string * option string))
  : gmap string string :=
  fold_left
    (fun m mapping =>
       match mapping.2 with
       | Some target_symbol =>
           if nonEmpty target_symbol
           then <[toUpperCase mapping.1 := toUpperCase target_symbol]> m
           else m
       | None => m
       end)
    mappings ∅.

(** [holdings.reduce((sum, h) => sum + h.value_usd, 0)] *)
Definition routeTotalValue (holdings : list Holding) : Q :=
  fold_left (fun sum h => (sum + h_value_usd h)%Q) holdings 0%Q.

(** The plan sent back by [GET /]; without targets it is the empty plan
    (its [message] field is left out). *)
Definition routePlan (holdings : list Holding)
    (targets : list TargetAllocation)
    (mappings : list (string * option string)) (tolerance : option string)
  : RebalancingPlan :=
  match targets with
  | [] => mkPlan [] [] (Fin 0) (Fin 0) (Fin 0) (Fin 0)
  | _ =>
      calculateRebalancing holdings targets (routeTotalValue holdings)
        (routeTolerance tolerance) (routeSymbolMappings mappings)
  end.


(* ===================================================================== *)
(** ** Holding matcher (services/holdingMatcher.ts) *)
(* ===================================================================== *)

Inductive MatchType : Type := exact_symbol | exact_isin | category | none.

(** [{...holding, asset_type, asset_category, matchedTargetId, matchType}] *)
Record MatchedHolding : Type := mkMatched {
  m_holding : Holding;
  m_matchedTargetId : Z;
  m_matchType : MatchType
}.

Record Suggestion : Type := mkSuggestion {
  sg_target : TargetAllocation;
  sg_matchScore : Q;
  sg_matchReason : string
}.

Record UnmatchedHolding : Type := mkUnmatched {
  u_holding : Holding;
  u_suggestedMatches : list Suggestion;
  u_suggestedAssetType : string
}.

Record TargetLookups : Type := mkLookups {
  targetsBySymbol : gmap string TargetAllocation;
  targetsByIsin : gmap string TargetAllocation;
  targetsByCategory : gmap string (list TargetAllocation)
}.

Definition lookupsStep (lk : TargetLookups) (target : TargetAllocation)
  : TargetLookups :=
  let alternativeTickers := alternativeTickersOf target in
  let bySymbol1 :=
    match t_symbol target with
    | Some sym =>
        if nonEmpty sym then <[toUpperCase sym := target]> (targetsBySymbol lk)
        else targetsBySymbol lk
    | None => targetsBySymbol lk
    end in
  let bySymbol2 :=
    fold_left
      (fun m altTicker =>
         if nonEmpty altTicker then <[toUpperCase altTicker := target]> m
         else m)
      alternativeTickers bySymbol1 in
  let byIsin :=
    match t_isin target with
    | Some isin =>
        if nonEmpty isin then <[toUpperCase isin := target]> (targetsByIsin lk)
        else targetsByIsin lk
    | None => targetsByIsin lk
    end in
  let byCategory :=
    if negb (truthyStr (t_symbol target))
       && (length alternativeTickers =? 0)%nat
    then
      let key := categoryKey (t_asset_type target) (t_asset_category target) in
      <[key := (default [] (targetsByCategory lk !! key) ++ [target])%list]>
        (targetsByCategory lk)
    else targetsByCategory lk in
  mkLookups bySymbol2 byIsin byCategory.

Definition buildLookups (targets : list TargetAllocation) : TargetLookups :=
  fold_left lookupsStep targets (mkLookups ∅ ∅ ∅).

(** The three attempts, in the order of the source. *)
Definition findMatch (lk : TargetLookups) (holding : Holding)
  : option (TargetAllocation * MatchType) :=
  let bySymbol :=
    if nonEmpty (h_symbol holding)
    then targetsBySymbol lk !! toUpperCase (h_symbol holding)
    else None in
  match bySymbol with
  | Some matchedTarget => Some (matchedTarget, exact_symbol)
  | None =>
      let byIsin :=
        match h_isin holding with
        | Some isin =>
            if nonEmpty isin then targetsByIsin lk !! toUpperCase isin
            else None
        | None => None
        end in
      match byIsin with
      | Some matchedTarget => Some (matchedTarget, exact_isin)
      | None =>
          match targetsByCategory lk !!
                  categoryKey (h_asset_type holding) (h_asset_category holding)
          with
          | Some (matchedTarget :: _) => Some (matchedTarget, category)
          | _ => None
          end
      end
  end.

Definition retag (holding : Holding) (matchedTarget : TargetAllocation)
  : Holding :=
  mkHolding (h_id holding) (h_symbol holding) (h_isin holding)
    (t_asset_type matchedTarget)
    (if truthyStr (t_asset_category matchedTarget)
     then t_asset_category matchedTarget
     else h_asset_category holding)
    (h_quantity holding) (h_price holding) (h_value_usd holding).

Definition suggestionFor (holding : Holding) (target : TargetAllocation)
  : option Suggestion :=
  let '(score1, reason1) :=
    match t_symbol target with
    | Some tsym =>
        if nonEmpty (h_symbol holding) && nonEmpty tsym then
          let holdingSym := toUpperCase (h_symbol holding) in
          let targetSym := toUpperCase tsym in
          if String.eqb holdingSym targetSym
          then (100%Q, "Exact symbol match")
          else if includes holdingSym targetSym || includes targetSym holdingSym
          then (50%Q, "Partial symbol match")
          else (0%Q, EmptyString)
        else (0%Q, EmptyString)
    | None => (0%Q, EmptyString)
    end in
  let '(score2, reason2) :=
    match h_isin holding, t_isin target with
    | Some hisin, Some tisin =>
        if nonEmpty hisin && nonEmpty tisin
           && String.eqb (toUpperCase hisin) (toUpperCase tisin)
        then ((score1 + 100)%Q, "Exact ISIN match")
        else (score1, reason1)
    | _, _ => (score1, reason1)
    end in
  let '(score3, reason3) :=
    match h_asset_category holding, t_asset_category target with
    | Some hcat, Some tcat =>
        if nonEmpty hcat && nonEmpty tcat
           && String.eqb (toLowerCase hcat) (toLowerCase tcat)
        then ((score2 + 30)%Q,
              if nonEmpty reason2 then reason2 ++ ", category match"
              else "Category match")
        else (score2, reason2)
    | _, _ => (score2, reason2)
    end in
  if Qltb 0 score3 then Some (mkSuggestion target score3 reason3) else None.

Definition compareSuggestions (a b : Suggestion) : num :=
  (Fin (sg_matchScore b) - Fin (sg_matchScore a))%num.

Definition findSuggestedMatches (holding : Holding)
    (targets : list TargetAllocation) : list Suggestion :=
  take 5 (jsSort compareSuggestions (omap (suggestionFor holding) targets)).

Definition inferAssetType (holding : Holding) : string :=
  let symbol := toUpperCase (h_symbol holding) in
  let category := toLowerCase (orStr (h_asset_category holding) EmptyString) in
  if includes symbol "BTC" || includes symbol "ETH"
     || String.eqb symbol "COIN" || String.eqb symbol "GBTC"
  then "Crypto"
  else if includes symbol "BND" || includes symbol "TIP"
          || includes symbol "AGG" || includes category "bond"
  then "Bond"
  else if includes symbol "REIT" || includes symbol "VNQ"
          || includes symbol "REET" || includes category "reit"
          || includes category "real estate"
  then "REIT"
  else if includes symbol "GLD" || includes symbol "SLV"
          || includes symbol "USAG" || includes category "commodity"
          || includes category "gold" || includes category "silver"
  then "Commodity"
  else if includes category "cash" || includes category "money market"
          || includes symbol "SGOV" || includes symbol "CSH"
  then "Cash"
  else "Stock".

Record MatchResult : Type := mkMatchResult {
  matched : list MatchedHolding;
  unmatched : list UnmatchedHolding
}.

Definition matchStep (lk : TargetLookups) (targets : list TargetAllocation)
    (acc : MatchResult) (holding : Holding) : MatchResult :=
  match findMatch lk holding with
  | Some (matchedTarget, matchType) =>
      mkMatchResult
        (matched acc ++
           [mkMatched (retag holding matchedTarget) (t_id matchedTarget)
              matchType])%list
        (unmatched acc)
  | None =>
      mkMatchResult (matched acc)
        (unmatched acc ++
           [mkUnmatched holding (findSuggestedMatches holding targets)
              (inferAssetType holding)])%list
  end.

Definition matchHoldingsToTargets (holdings : list Holding)
    (targets : list TargetAllocation) : MatchResult :=
  let lk := buildLookups targets in
  fold_left (matchStep lk targets) holdings (mkMatchResult [] []).

End WithJson.

(* ===================================================================== *)
(** ** Target-file parsers *)
(* ===================================================================== *)

(** [normalizeAssetType], defined identically in both parser files. *)
Definition normalizeAssetType (assetType : string) : string :=
  let normalized := trim assetType in
  let lower := toLowerCase normalized in
  if includes lower "share" || includes lower "stock" then "Stock"
  else if includes lower "bond" then "Bond"
  else if includes lower "money market" || includes lower "cash" then "Cash"
  else if includes lower "commodit" then "Commodity"
  else if includes lower "reit" || includes lower "real estate" then "REIT"
  else if includes lower "crypto" then "Crypto"
  else normalized.

(** The lines both parsers run on the parsed percentage: a value strictly
    between 0 and 1 is a fraction and is multiplied by 100. *)
Definition normalizePercentage (percentage : num) : num :=
  if negb (isNaN percentage) && (percentage >? Fin 0)%num
     && (percentage <? Fin 1)%num
  then (percentage * Fin 100)%num
  else percentage.

(** [isNaN(percentage) || percentage < 0 || percentage > 100] *)
Definition invalidPercentage (percentage : num) : bool :=
  isNaN percentage || (percentage <? Fin 0)%num || (percentage >? Fin 100)%num.

Definition totalWarning (totalPercentage : num) : string :=
  "Total target allocation is " ++ toFixed2 totalPercentage ++ "%, not 100%. "
  ++ "This may be intentional if some categories are excluded.".

(** [Math.abs(totalPercentage - 100) > 0.01] *)
Definition totalOff (totalPercentage : num) : bool :=
  (abs (totalPercentage - Fin 100) >? Fin 0.01)%num.

Definition missingAssetTypeError (i : nat) : string :=
  "Row " ++ natToString (i + 1) ++ ": Missing Asset Type".

Definition invalidPercentageError (i : nat) (shown : string) : string :=
  "Row " ++ natToString (i + 1) ++ ": Invalid percentage (" ++ shown ++ ")".

(** *** parsers/targetCsvParser.ts *)

Record CsvTargetRow : Type := mkCsvTarget {
  c_assetType : string;
  c_assetCategory : option string;
  c_instrument : option string;
  c_isin : option string;
  c_mainTicker : option string;
  c_otherTickers : option (list string);
  c_targetPercentage : num
}.

Record ParsedCsvTargetsResult : Type := mkCsvResult {
  csv_targets : list CsvTargetRow;
  csv_warnings : list string;
  csv_errors : list string
}.

Definition quoteChar : ascii := "034"%char.

(** [parseCsvLine]: [current], [inQuotes] and [result] are the loop state. *)
Fixpoint parseCsvLineFrom (line current : string) (inQuotes : bool)
    (result : list string) : list string :=
  match line with
  | EmptyString => (result ++ [current])%list
  | String char rest =>
      if Ascii.eqb char quoteChar then
        match rest with
        | String next rest' =>
            if inQuotes && Ascii.eqb next quoteChar then
              parseCsvLineFrom rest' (current ++ String quoteChar EmptyString)
                inQuotes result
            else parseCsvLineFrom rest current (negb inQuotes) result
        | EmptyString => parseCsvLineFrom rest current (negb inQuotes) result
        end
      else if Ascii.eqb char ","%char && negb inQuotes then
        parseCsvLineFrom rest EmptyString inQuotes (result ++ [current])%list
      else
        parseCsvLineFrom rest (current ++ String char EmptyString) inQuotes
          result
  end.

Definition parseCsvLine (line : string) : list string :=
  parseCsvLineFrom line EmptyString false [].

(** [headerMap]: a missing key is [undefined]. *)
Record CsvHeaderMap : Type := mkCsvHeaderMap {
  hc_assetType : option nat;
  hc_assetCategory : option nat;
  hc_instrument : option nat;
  hc_isin : option nat;
  hc_mainTicker : option nat;
  hc_percentage : option nat;
  hc_otherTickers : option nat
}.

Definition csvHeaderStep (hm : CsvHeaderMap) (header : string) (index : nat)
  : CsvHeaderMap :=
  let normalized := trim (toLowerCase header) in
  if includes normalized "asset type" || String.eqb normalized "asset type"
  then mkCsvHeaderMap (Some index) (hc_assetCategory hm) (hc_instrument hm)
         (hc_isin hm) (hc_mainTicker hm) (hc_percentage hm) (hc_otherTickers hm)
  else if includes normalized "asset category"
          || String.eqb normalized "asset category"
  then mkCsvHeaderMap (hc_assetType hm) (Some index) (hc_instrument hm)
         (hc_isin hm) (hc_mainTicker hm) (hc_percentage hm) (hc_otherTickers hm)
  else if includes normalized "instrument"
  then mkCsvHeaderMap (hc_assetType hm) (hc_assetCategory hm) (Some index)
         (hc_isin hm) (hc_mainTicker hm) (hc_percentage hm) (hc_otherTickers hm)
  else if includes normalized "isin"
  then mkCsvHeaderMap (hc_assetType hm) (hc_assetCategory hm) (hc_instrument hm)
         (Some index) (hc_mainTicker hm) (hc_percentage hm) (hc_otherTickers hm)
  else if includes normalized "main ticker"
          || String.eqb normalized "main ticker"
  then mkCsvHeaderMap (hc_assetType hm) (hc_assetCategory hm) (hc_instrument hm)
         (hc_isin hm) (Some index) (hc_percentage hm) (hc_otherTickers hm)
  else if includes normalized "ticker" && negb (includes normalized "other")
          && negb (includes normalized "main")
  then
    match hc_mainTicker hm with
    | None =>
        mkCsvHeaderMap (hc_assetType hm) (hc_assetCategory hm)
          (hc_instrument hm) (hc_isin hm) (Some index) (hc_percentage hm)
          (hc_otherTickers hm)
    | Some _ => hm
    end
  else if includes normalized "%" || includes normalized "percent"
          || String.eqb normalized "%"
  then mkCsvHeaderMap (hc_assetType hm) (hc_assetCategory hm) (hc_instrument hm)
         (hc_isin hm) (hc_mainTicker hm) (Some index) (hc_otherTickers hm)
  else if includes normalized "other ticker"
          || String.eqb normalized "other tickers"
  then mkCsvHeaderMap (hc_assetType hm) (hc_assetCategory hm) (hc_instrument hm)
         (hc_isin hm) (hc_mainTicker hm) (hc_percentage hm) (Some index)
  else hm.

Fixpoint csvHeaderMapFrom (hm : CsvHeaderMap) (index : nat)
    (headers : list string) : CsvHeaderMap :=
  match headers with
  | [] => hm
  | header :: rest =>
      csvHeaderMapFrom (csvHeaderStep hm header index) (S index) rest
  end.

Definition csvHeaderMap (headers : list string) : CsvHeaderMap :=
  csvHeaderMapFrom (mkCsvHeaderMap None None None None None None None) 0
    headers.

(** [row[headerMap[key]]]: [undefined] when the key or the cell is missing. *)
Definition csvCell (row : list string) (idx : option nat) : option string :=
  match idx with
  | Some k => nth_error row k
  | None => None
  end.

(** [row[idx]?.trim() || undefined] *)
Definition csvField (row : list string) (idx : option nat) : option string :=
  orUndefined (option_map trim (csvCell row idx)).

Definition csvAssetType (hm : CsvHeaderMap) (row : list string) : string :=
  orStr (option_map trim (csvCell row (hc_assetType hm))) EmptyString.

Definition csvRawPercentage (hm : CsvHeaderMap) (row : list string) : string :=
  orStr (option_map (fun c => trim (removeChar "%"%char c))
           (csvCell row (hc_percentage hm))) "0".

Definition csvPercentage (hm : CsvHeaderMap) (row : list string) : num :=
  normalizePercentage (parseFloat (csvRawPercentage hm row)).

Definition csvOtherTickers (hm : CsvHeaderMap) (row : list string)
  : list string :=
  match hc_otherTickers hm with
  | Some _ =>
      let otherTickersStr :=
        orStr (option_map trim (csvCell row (hc_otherTickers hm)))
          EmptyString in
      if nonEmpty otherTickersStr then
        filter (fun t => (0 < String.length t)%nat)
          (map trim
             (splitOn (fun c => Ascii.eqb c "|"%char || Ascii.eqb c ","%char)
                otherTickersStr))
      else []
  | None => []
  end.

(** [`${row[headerMap['percentage']]}`] *)
Definition csvShown (hm : CsvHeaderMap) (row : list string) : string :=
  default "undefined" (csvCell row (hc_percentage hm)).

(** One iteration of the loop over the data lines; [i] is the loop index. *)
Definition csvRowStep (hm : CsvHeaderMap) (i : nat) (line : string)
    (acc : ParsedCsvTargetsResult) : ParsedCsvTargetsResult :=
  if negb (nonEmpty (trim line)) then acc
  else
    let row := parseCsvLine line in
    let assetType := csvAssetType hm row in
    let percentage := csvPercentage hm row in
    let otherTickers := csvOtherTickers hm row in
    if negb (nonEmpty assetType) then
      mkCsvResult (csv_targets acc) (csv_warnings acc)
        (csv_errors acc ++ [missingAssetTypeError i])%list
    else if invalidPercentage percentage then
      mkCsvResult (csv_targets acc) (csv_warnings acc)
        (csv_errors acc ++ [invalidPercentageError i (csvShown hm row)])%list
    else if (percentage =? Fin 0)%num then acc
    else
      mkCsvResult
        (csv_targets acc ++
           [mkCsvTarget (normalizeAssetType assetType)
              (match hc_assetCategory hm with
               | Some _ => csvField row (hc_assetCategory hm)
               | None => None
               end)
              (match hc_instrument hm with
               | Some _ => csvField row (hc_instrument hm)
               | None => None
               end)
              (match hc_isin hm with
               | Some _ => csvField row (hc_isin hm)
               | None => None
               end)
              (match hc_mainTicker hm with
               | Some _ => csvField row (hc_mainTicker hm)
               | None => None
               end)
              (if (0 <? length otherTickers)%nat then Some otherTickers
               else None)
              percentage])%list
        (csv_warnings acc) (csv_errors acc).

Fixpoint csvRows (hm : CsvHeaderMap) (i : nat) (lines : list string)
    (acc : ParsedCsvTargetsResult) : ParsedCsvTargetsResult :=
  match lines with
  | [] => acc
  | line :: rest => csvRows hm (S i) rest (csvRowStep hm i line acc)
  end.

(** [targets.reduce((sum, t) => sum + t.targetPercentage, 0)] *)
Definition csvTotalPercentage (targets : list CsvTargetRow) : num :=
  fold_left (fun sum t => (sum + c_targetPercentage t)%num) targets (Fin 0).

Definition csvFinish (acc : ParsedCsvTargetsResult) : ParsedCsvTargetsResult :=
  let totalPercentage := csvTotalPercentage (csv_targets acc) in
  if totalOff totalPercentage then
    mkCsvResult (csv_targets acc)
      (csv_warnings acc ++ [totalWarning totalPercentage])%list
      (csv_errors acc)
  else acc.

Definition parseTargetCsv (csvText : string) : ParsedCsvTargetsResult :=
  let lines := filter (fun l => nonEmpty l = true)
                 (map trim (splitLines csvText)) in
  if (length lines <? 2)%nat then
    mkCsvResult [] []
      ["CSV file must have at least a header row and one data row"]
  else
    match lines with
    | [] => mkCsvResult [] [] []
    | headerLine :: dataLines =>
        let hm := csvHeaderMap (parseCsvLine headerLine) in
        match hc_assetType hm, hc_percentage hm with
        | Some _, Some _ =>
            csvFinish (csvRows hm 1 dataLines (mkCsvResult [] [] []))
        | _, _ =>
            mkCsvResult [] []
              [String.append "CSV file must contain "
                 (String quoteChar
                    (String.append "Asset Type"
                       (String quoteChar
                          (String.append " and "
                             (String quoteChar
                                (String.append "%"
                                   (String quoteChar " columns")))))))]
        end
    end.

(** *** parsers/targetExcelParser.ts *)

(** A cell of the sheet as [XLSX.utils.sheet_to_json] returns it.  A numeric
    cell is represented by the text that [String] gives for it; its value is
    [parseFloat] of that text (printing a number and reading it back is the
    identity). *)
Inductive Cell : Type :=
| CStr (s : string)
| CNum (text : string)
| CBool (b : bool).

(** [String(cell)] *)
Definition cellString (c : Cell) : string :=
  match c with
  | CStr s => s
  | CNum text => text
  | CBool b => if b then "true" else "false"
  end.

Definition cellTruthy (c : Cell) : bool :=
  match c with
  | CStr s => nonEmpty s
  | CNum text => truthy (parseFloat text)
  | CBool b => b
  end.

(** [String(cell || d)] for a cell that may be [undefined]. *)
Definition cellOr (c : option Cell) (d : string) : string :=
  match c with
  | Some c' => if cellTruthy c' then cellString c' else d
  | None => d
  end.

Definition VALID_CATEGORIES : list (string * list string) :=
  [ ("Shares",
     ["US Stock market"; "World stock market (no US)"; "EU";
      "Global World Market"; "Emerging Markets"]);
    ("Money Markets Funds",
     ["Money Markets Funds"; "Money Markets Funds / Short terms bond";
      "Short Term Bonds"]);
    ("Bonds",
     ["Medium Term Government Bonds (ETF)"; "Corporate Bonds";
      "Long Term Government Bonds"; "Inflation Linked Bonds"]);
    ("Commodities", ["Gold"; "Silver"; "Crypto"; "Other Commodities"]);
    ("REIT", ["REIT (US)"; "REIT (Global)"; "REIT (EU)"]);
    ("Stock",
     ["US Stock market"; "World stock market (no US)"; "EU";
      "Global World Market"; "Emerging Markets"]);
    ("Cash", ["Money Markets Funds"; "Short Term Bonds"]);
    ("Crypto", ["Crypto"]) ].

Fixpoint ownCategories (table : list (string * list string)) (key : string)
  : option (list string) :=
  match table with
  | [] => None
  | (k, v) :: rest => if String.eqb k key then Some v else ownCategories rest key
  end.

(** The names of the properties that every object inherits from
    [Object.prototype].  [VALID_CATEGORIES] is an object literal, so for
    these keys [VALID_CATEGORIES[key]] is a function (or, for [__proto__],
    an object), not [undefined]. *)
Definition objectPrototypeKeys : list string :=
  ["constructor"; "__proto__"; "hasOwnProperty"; "isPrototypeOf";
   "propertyIsEnumerable"; "toLocaleString"; "toString"; "valueOf";
   "__defineGetter__"; "__defineSetter__"; "__lookupGetter__";
   "__lookupSetter__"].

(** [VALID_CATEGORIES[key] || []]: the array of the key, [[]] for a key the
    object does not have, and [None] for an inherited key, for which the
    value is not an array and the call [validCategories.some(...)] that
    follows throws a TypeError. *)
Definition validCategoriesOf (key : string) : option (list string) :=
  match ownCategories VALID_CATEGORIES key with
  | Some v => Some v
  | None =>
      if existsb (String.eqb key) objectPrototypeKeys then None else Some []
  end.

(** [list.join(', ')] *)
Fixpoint joinComma (l : list string) : string :=
  match l with
  | [] => EmptyString
  | [x] => x
  | x :: rest => x ++ ", " ++ joinComma rest
  end.

Record ExcelTargetRow : Type := mkExcelTarget {
  x_assetType : string;
  x_assetCategory : option string;
  x_instrument : string;
  x_isin : option string;
  x_ticker : option string;
  x_targetPercentage : num
}.

Record ParsedTargetsResult : Type := mkExcelResult {
  xl_targets : list ExcelTargetRow;
  xl_warnings : list string;
  xl_errors : list string
}.

(** [headerMap]; [findIndex] returning -1 is [None]. *)
Record ExcelHeaderMap : Type := mkExcelHeaderMap {
  hx_assetType : nat;
  hx_assetCategory : option nat;
  hx_instrument : option nat;
  hx_isin : option nat;
  hx_ticker : option nat;
  hx_percentage : nat
}.

(** [row.findIndex(p)] *)
Fixpoint findIndexFrom {A : Type} (p : A -> bool) (k : nat) (l : list A)
  : option nat :=
  match l with
  | [] => None
  | x :: rest => if p x then Some k else findIndexFrom p (S k) rest
  end.

Definition findIndex {A : Type} (p : A -> bool) (l : list A) : option nat :=
  findIndexFrom p 0 l.

(** The header row as the detection loop sees it. *)
Definition headerCells (row : list Cell) : list string :=
  map (fun cell => trim (toLowerCase (cellOr (Some cell) EmptyString))) row.

Definition detectHeader (row : list Cell) : option ExcelHeaderMap :=
  let cells := headerCells row in
  let assetTypeIdx :=
    findIndex (fun cell => includes cell "asset type"
                 || includes cell "assettype" || String.eqb cell "asset type")
      cells in
  let assetCategoryIdx :=
    findIndex (fun cell => includes cell "asset category"
                 || includes cell "assetcategory"
                 || String.eqb cell "asset category")
      cells in
  let percentageIdx :=
    findIndex (fun cell => includes cell "%" || includes cell "percent"
                 || includes cell "target" || includes cell "target holding"
                 || String.eqb cell "% target holding")
      cells in
  match assetTypeIdx, percentageIdx with
  | Some a, Some p =>
      Some (mkExcelHeaderMap a assetCategoryIdx
              (findIndex (fun cell => includes cell "instrument"
                            || includes cell "fund"
                            || String.eqb cell "instrument") cells)
              (findIndex (fun cell => includes cell "isin"
                            || String.eqb cell "isin") cells)
              (findIndex (fun cell => includes cell "ticker"
                            || includes cell "symbol"
                            || String.eqb cell "ticker") cells)
              p)
  | _, _ => None
  end.

(** The loop over the first [Math.min(5, data.length)] rows: the index of the
    header row and its map. *)
Fixpoint findHeaderFrom (i : nat) (fuel : nat) (rows : list (list Cell))
  : option (nat * ExcelHeaderMap) :=
  match fuel, rows with
  | S fuel', row :: rest =>
      match detectHeader row with
      | Some hm => Some (i, hm)
      | None => findHeaderFrom (S i) fuel' rest
      end
  | _, _ => None
  end.

Definition findHeader (data : list (list Cell))
  : option (nat * ExcelHeaderMap) :=
  findHeaderFrom 0 (Nat.min 5 (length data)) data.

(** [row.every(cell => !cell || String(cell).trim() === '')] *)
Definition excelBlankRow (row : list Cell) : bool :=
  forallb
    (fun cell => negb (cellTruthy cell)
                 || negb (nonEmpty (trim (cellString cell))))
    row.

Definition excelAssetType (hm : ExcelHeaderMap) (row : list Cell) : string :=
  trim (cellOr (nth_error row (hx_assetType hm)) EmptyString).

Definition excelOptText (row : list Cell) (idx : option nat) : string :=
  match idx with
  | Some k => trim (cellOr (nth_error row k) EmptyString)
  | None => EmptyString
  end.

Definition excelRawPercentage (hm : ExcelHeaderMap) (row : list Cell)
  : string :=
  trim (removeChar "%"%char (cellOr (nth_error row (hx_percentage hm)) "0")).

Definition excelPercentage (hm : ExcelHeaderMap) (row : list Cell) : num :=
  normalizePercentage (parseFloat (excelRawPercentage hm row)).

(** [`${row[headerMap['percentage']]}`] *)
Definition excelShown (hm : ExcelHeaderMap) (row : list Cell) : string :=
  match nth_error row (hx_percentage hm) with
  | Some c => cellString c
  | None => "undefined"
  end.

Definition strOpt (s : string) : option string :=
  if nonEmpty s then Some s else None.

Definition categoryWarning (i : nat) (assetCategory assetType : string)
    (validCategories : list string) : string :=
  "Row " ++ natToString (i + 1) ++ ": Asset category "
  ++ String quoteChar assetCategory ++ String quoteChar " for "
  ++ String quoteChar assetType
  ++ String quoteChar " may not match common categories. "
  ++ "Expected: " ++ joinComma validCategories.

(** The category check of an accepted row: the warning it pushes, if any;
    [None] when it throws. *)
Definition excelCategoryWarning (i : nat) (assetType assetCategory : string)
  : option (list string) :=
  let normalizedAssetType := normalizeAssetType assetType in
  if nonEmpty assetCategory then
    match validCategoriesOf normalizedAssetType with
    | Some validCategories =>
        let normalizedCategory := trim (toLowerCase assetCategory) in
        let isValid :=
          existsb
            (fun cat => String.eqb (trim (toLowerCase cat)) normalizedCategory)
            validCategories in
        if negb isValid && (0 <? length validCategories)%nat
        then Some [categoryWarning i assetCategory assetType validCategories]
        else Some []
    | None => None
    end
  else Some [].

(** One iteration of the loop over the data rows; [i] is the loop index.
    [None] when the iteration throws. *)
Definition excelRowStep (hm : ExcelHeaderMap) (i : nat) (row : list Cell)
    (acc : ParsedTargetsResult) : option ParsedTargetsResult :=
  if excelBlankRow row then Some acc
  else
    let assetType := excelAssetType hm row in
    let assetCategory := excelOptText row (hx_assetCategory hm) in
    let percentage := excelPercentage hm row in
    if negb (nonEmpty assetType) then
      Some (mkExcelResult (xl_targets acc) (xl_warnings acc)
              (xl_errors acc ++ [missingAssetTypeError i])%list)
    else if invalidPercentage percentage then
      Some (mkExcelResult (xl_targets acc) (xl_warnings acc)
              (xl_errors acc
               ++ [invalidPercentageError i (excelShown hm row)])%list)
    else if (percentage =? Fin 0)%num then Some acc
    else
      match excelCategoryWarning i assetType assetCategory with
      | Some warning =>
          Some (mkExcelResult
                  (xl_targets acc ++
                     [mkExcelTarget (normalizeAssetType assetType)
                        (strOpt assetCategory)
                        (excelOptText row (hx_instrument hm))
                        (strOpt (excelOptText row (hx_isin hm)))
                        (strOpt (excelOptText row (hx_ticker hm)))
                        percentage])%list
                  (xl_warnings acc ++ warning)%list
                  (xl_errors acc))
      | None => None
      end.

Fixpoint excelRows (hm : ExcelHeaderMap) (i : nat) (rows : list (list Cell))
    (acc : ParsedTargetsResult) : option ParsedTargetsResult :=
  match rows with
  | [] => Some acc
  | row :: rest =>
      match excelRowStep hm i row acc with
      | Some acc' => excelRows hm (S i) rest acc'
      | None => None
      end
  end.

Definition excelTotalPercentage (targets : list ExcelTargetRow) : num :=
  fold_left (fun sum t => (sum + x_targetPercentage t)%num) targets (Fin 0).

Definition excelFinish (acc : ParsedTargetsResult) : ParsedTargetsResult :=
  let totalPercentage := excelTotalPercentage (xl_targets acc) in
  if totalOff totalPercentage then
    mkExcelResult (xl_targets acc)
      (xl_warnings acc ++ [totalWarning totalPercentage])%list
      (xl_errors acc)
  else acc.

(** [error.message] of the TypeError of the category check (the text is
    the JavaScript engine's, here V8's). *)
Definition notAFunctionMessage : string :=
  "validCategories.some is not a function".

(** [parseTargetExcel] from the rows of the first worksheet on; reading the
    workbook is the XLSX library's.  An exception of the row loop is caught
    by the [try] around the whole function. *)
Definition parseTargetExcel (data : list (list Cell)) : ParsedTargetsResult :=
  if (length data <? 2)%nat then
    mkExcelResult [] []
      ["Excel file must have at least a header row and one data row"]
  else
    match findHeader data with
    | None =>
        mkExcelResult [] []
          ["Could not find header row with required columns (Asset Type, %)"]
    | Some (headerRowIndex, hm) =>
        match
          excelRows hm (headerRowIndex + 1) (drop (headerRowIndex + 1) data)
            (mkExcelResult [] [] [])
        with
        | Some acc => excelFinish acc
        | None =>
            mkExcelResult [] []
              ["Failed to read Excel file: " ++ notAFunctionMessage]
        end
    end.

(* ===================================================================== *)
(** ** Statement parser: [parseOpenPositions] (parsers/ibStatementParser.ts) *)
(* ===================================================================== *)

Record ParsedHolding : Type := mkParsed {
  p_symbol : string;
  p_quantity : num;
  p_price : num;
  p_value : num;
  p_currency : option string
}.

(** [s.substring(from)] *)
Definition dropStr (from : nat) (s : string) : string :=
  String.substring from (String.length s - from) s.

Fixpoint indexOfAux (sub s : string) (pos : nat) : option nat :=
  if String.prefix sub s then Some pos
  else
    match s with
    | EmptyString => None
    | String _ s' => indexOfAux sub s' (S pos)
    end.

(** [s.indexOf(sub, from)]; [None] is -1. *)
Definition indexOf (s sub : string) (from : nat) : option nat :=
  indexOfAux sub (dropStr from s) from.

Definition startsWith (s pre : string) : bool := String.prefix pre s.

(** *** The regular expressions of the vertical layout *)

(** [/^(w1|w2|...)$/i] *)
Definition isWordCI (words : list string) (line : string) : bool :=
  existsb (String.eqb (toLowerCase line)) words.

(** [/[\d,]/] *)
Definition hasDigitOrComma (line : string) : bool :=
  existsb_str (fun c => isDigit c || Ascii.eqb c ","%char) line.

(** [/^Total\s+/i]: what follows the white space, when the line matches. *)
Definition afterTotalSpaces (line : string) : option string :=
  if String.prefix "total" (toLowerCase line) then
    let rest := dropStr 5 line in
    match rest with
    | String c _ => if isSpace c then Some (trimStart rest) else None
    | EmptyString => None
    end
  else None.

(** [/^Total\s+(in|Stocks)/i] *)
Definition isTotalInOrStocks (line : string) : bool :=
  match afterTotalSpaces line with
  | Some rest =>
      String.prefix "in" (toLowerCase rest)
      || String.prefix "stocks" (toLowerCase rest)
  | None => false
  end.

(** The condition of the inner [while]: a line to step over. *)
Definition isFiller (line : string) (next : option string) : bool :=
  String.eqb (trim line) EmptyString
  || (isWordCI ["total"; "stocks"; "usd"; "eur"; "gbp"; "jpy"] line
      && negb (hasDigitOrComma line))
  || isTotalInOrStocks line
  || (isWordCI ["total"] line
      && match next with
         | Some l => String.eqb (trim l) EmptyString
         | None => false
         end).

(** The inner [while]: [rest] is [lines.slice(i)]. *)
Fixpoint skipFiller (rest : list string) (i : nat) : nat :=
  match rest with
  | [] => i
  | line :: rest' =>
      if isFiller line (hd_error rest') then skipFiller rest' (S i) else i
  end.

(** [/[A-Z]{2,6}$/]: the line ends with two upper-case letters. *)
Definition endsWithUpper2 (s : string) : bool :=
  match lastChars 2 s with
  | Some t => forallb_str isUpperAZ t
  | None => false
  end.

(** The first test on [symbolLine]: clearly not a symbol line. *)
Definition notSymbolLine (symbolLine : string) : bool :=
  match symbolLine with
  | String c _ => isDigit c || Ascii.eqb c "-"%char
  | EmptyString => false
  end
  || (includes symbolLine "." && negb (endsWithUpper2 symbolLine))
  || (includes symbolLine "," && negb (endsWithUpper2 symbolLine))
  || (20 <? String.length symbolLine)%nat.

(** The second test: pure section headers and common codes. *)
Definition isSectionHeader (symbolLine : string) : bool :=
  isWordCI ["stocks"; "total"; "usd"; "eur"; "gbp"; "jpy"; "code"] symbolLine
  || match afterTotalSpaces symbolLine with Some _ => true | None => false end
  || String.eqb symbolLine "SY".

Definition sectionPrefixes : list (string * option string) :=
  [ ("StocksEUR", Some "EUR"); ("Stocks", None); ("USD", Some "USD");
    ("EUR", Some "EUR"); ("GBP", Some "GBP"); ("JPY", Some "JPY") ].

(** Strips the first prefix of the table that the line starts with; the
    currency of that prefix, if it has one. *)
Fixpoint stripPrefix (table : list (string * option string))
    (cleanedLine : string) : string * option string :=
  match table with
  | [] => (cleanedLine, None)
  | (pre, currency) :: rest =>
      if startsWith cleanedLine pre
      then (dropStr (String.length pre) cleanedLine, currency)
      else stripPrefix rest cleanedLine
  end.

(** [([A-Z0-9]{len})$] with a letter in the match. *)
Definition suffixSymbol (len : nat) (cleanedLine : string) : option string :=
  match lastChars len cleanedLine with
  | Some t =>
      if forallb_str isUpperAlnum t && existsb_str isUpperAZ t
      then Some t else None
  | None => None
  end.

(** [for (let len = 5; len >= 1; len--)], then the whole-line fallback. *)
Definition extractSymbol (cleanedLine : string) : option string :=
  let fix try (lens : list nat) : option string :=
    match lens with
    | [] => None
    | len :: rest =>
        match suffixSymbol len cleanedLine with
        | Some t => Some t
        | None => try rest
        end
    end in
  match try [5; 4; 3; 2; 1]%nat with
  | Some t => Some t
  | None =>
      let n := String.length cleanedLine in
      if (1 <=? n)%nat && (n <=? 6)%nat
         && forallb_str isUpperAlnum cleanedLine
      then Some cleanedLine else None
  end.

(** [/^[\d,]+\.?\d*$/] *)
Fixpoint isPureNumberTail (s : string) : bool :=
  match s with
  | EmptyString => true
  | String c s' =>
      if isDigit c || Ascii.eqb c ","%char then isPureNumberTail s'
      else if Ascii.eqb c "."%char then forallb_str isDigit s'
      else false
  end.

Definition isPureNumber (s : string) : bool :=
  match s with
  | String c _ => (isDigit c || Ascii.eqb c ","%char) && isPureNumberTail s
  | EmptyString => false
  end.

(** The test on [potentialCode]: the Code line looks like the next symbol. *)
Definition looksLikeSymbol (potentialCode : string) : bool :=
  nonEmpty potentialCode
  && ((1 <=? String.length potentialCode)%nat
      && (String.length potentialCode <=? 6)%nat
      && forallb_str isUpperAlnum potentialCode)
  && negb (String.eqb potentialCode "SY")
  && negb (String.eqb potentialCode "Code")
  && negb (isPureNumber potentialCode).

(** [/^[A-Z]{2,6}$/.test(line) && !line.match(/\d/)] *)
Definition isBareSymbol (line : string) : bool :=
  ((2 <=? String.length line)%nat && (String.length line <=? 6)%nat
   && forallb_str isUpperAZ line)
  && negb (existsb_str isDigit line).

(** The text handed to [parseFloat] for a data line. *)
Definition cleanNumber (line : string) : string :=
  let cleaned := removeChar ","%char line in
  if startsWith cleaned "(" && endsWith cleaned ")"
  then "-" ++ String.substring 1 (String.length cleaned - 2) cleaned
  else cleaned.

(** The loop over [rowLines] that fills [values]. *)
Fixpoint rowValues (rowLines : list string) : list num :=
  match rowLines with
  | [] => []
  | line :: rest =>
      if isBareSymbol line then []
      else
        let num := parseFloat (cleanNumber line) in
        if negb (isNaN num) then num :: rowValues rest else rowValues rest
  end.

(** [values[k] || d] *)
Definition valueOr (values : list num) (k : nat) (d : num) : num :=
  match nth_error values k with
  | Some v => Js.or v d
  | None => d
  end.

Definition numDataFields : nat := 8.
Definition rowSize : nat := numDataFields + 1.

(** [lines.slice(from, to)] *)
Definition slice {A : Type} (from to : nat) (l : list A) : list A :=
  take (to - from) (drop from l).

(** [dataEndIndex] of the row that starts at line [i]: one past the Code
    line, or the Code line itself when it looks like the next symbol. *)
Definition dataEndIndexOf (lines : list string) (i : nat) : nat :=
  let codeIndex := (i + 1 + numDataFields - 1)%nat in
  match nth_error lines codeIndex with
  | Some l =>
      if looksLikeSymbol (trim l) then codeIndex
      else (i + 1 + numDataFields)%nat
  | None => (i + 1 + numDataFields)%nat
  end.

(** What one pass through the body of the outer [while] does. *)
Inductive Iteration : Type :=
| Break
| Next (i : nat) (holdings : list ParsedHolding).

(** The body of [while (i < lines.length)], entered with [i < lines.length]. *)
Definition verticalBody (lines : list string) (i0 : nat)
    (holdings : list ParsedHolding) : Iteration :=
  let i := skipFiller (drop i0 lines) i0 in
  if (length lines <=? i)%nat then Break
  else
    let symbolLine := trim (default EmptyString (nth_error lines i)) in
    if notSymbolLine symbolLine then Next (i + 1) holdings
    else if isSectionHeader symbolLine then Next (i + 1) holdings
    else if (length lines <? i + rowSize)%nat then Break
    else
      let '(cleanedLine, extractedCurrency) :=
        stripPrefix sectionPrefixes symbolLine in
      match extractSymbol cleanedLine with
      | None => Next (i + 1) holdings
      | Some symbol =>
          let dataEndIndex := dataEndIndexOf lines i in
          let rowLines := slice (i + 1) dataEndIndex lines in
          let values := rowValues rowLines in
          let codeWasMissing := (dataEndIndex <? i + 1 + numDataFields)%nat in
          let actualRowSize :=
            if codeWasMissing then (rowSize - 1)%nat else rowSize in
          if (length values <? 6)%nat then Next (i + actualRowSize) holdings
          else
            let quantity := valueOr values 0 (Fin 0) in
            let price := valueOr values 4 (Fin 0) in
            let value := valueOr values 5 (quantity * price)%num in
            if (quantity <=? Fin 0)%num || (price <=? Fin 0)%num
            then Next i holdings
            else
              Next (i + actualRowSize)
                (holdings ++
                   [mkParsed symbol quantity price
                      (Js.or value (quantity * price)%num)
                      extractedCurrency])%list
      end.

(** The outer [while]; [None] when [fuel] iterations did not end the loop. *)
Fixpoint verticalLoop (fuel : nat) (lines : list string) (i : nat)
    (holdings : list ParsedHolding) : option (list ParsedHolding) :=
  match fuel with
  | O => None
  | S fuel' =>
      if (i <? length lines)%nat then
        match verticalBody lines i holdings with
        | Break => Some holdings
        | Next i' holdings' => verticalLoop fuel' lines i' holdings'
        end
      else Some holdings
  end.

(** *** Section, header and layout detection *)

Definition headerKeywords : list string :=
  ["symbol"; "quantity"; "mult"; "cost price"; "cost basis"; "close price";
   "value"; "unrealized"; "code"].

(** The search for the header among the first [Math.min(15, lines.length)]
    lines; [rest] is [lines.slice(i)]. *)
Fixpoint findHeaderLine (rest : list string) (i fuel : nat) : option nat :=
  match fuel, rest with
  | S fuel', line0 :: rest' =>
      let line := toLowerCase line0 in
      if String.eqb line "symbol" || includes line "symbol" then
        if includes line "quantity" || includes line "qty" then Some i
        else
          match rest' with
          | next :: _ =>
              if String.eqb (toLowerCase next) "quantity"
                 || includes (toLowerCase next) "quantity"
              then Some i
              else findHeaderLine rest' (S i) fuel'
          | [] => findHeaderLine rest' (S i) fuel'
          end
      else findHeaderLine rest' (S i) fuel'
  | _, _ => None
  end.

(** The loop that steps over the header lines; [rest] is
    [lines.slice(dataStartIndex)]. *)
Fixpoint headerEnd (rest : list string) (dataStartIndex headerLines : nat)
  : nat :=
  match rest with
  | line0 :: rest' =>
      if (headerLines <? length headerKeywords)%nat
         && existsb (fun keyword => includes (toLowerCase line0) keyword)
              headerKeywords
      then headerEnd rest' (S dataStartIndex) (S headerLines)
      else dataStartIndex
  | [] => dataStartIndex
  end.

Fixpoint spanWhile (p : ascii -> bool) (s : string) : string * string :=
  match s with
  | EmptyString => (EmptyString, EmptyString)
  | String c s' =>
      if p c then let '(a, b) := spanWhile p s' in (String c a, b)
      else (EmptyString, s)
  end.

(** [[\d.,]] *)
Definition isNumChar (c : ascii) : bool :=
  isDigit c || Ascii.eqb c "."%char || Ascii.eqb c ","%char.

(** [/^\s*\w+\s+[\d.,]+\s+[\d.,]+\s+[\d.,]+/]: the classes that follow one
    another are disjoint, so each group is a maximal run. *)
Definition looksHorizontal (line : string) : bool :=
  let s1 := trimStart line in
  let '(w, s2) := spanWhile isWord s1 in
  let '(sp1, s3) := spanWhile isSpace s2 in
  let '(n1, s4) := spanWhile isNumChar s3 in
  let '(sp2, s5) := spanWhile isSpace s4 in
  let '(n2, s6) := spanWhile isNumChar s5 in
  let '(sp3, s7) := spanWhile isSpace s6 in
  let '(n3, _) := spanWhile isNumChar s7 in
  nonEmpty w && nonEmpty sp1 && nonEmpty n1 && nonEmpty sp2 && nonEmpty n2
  && nonEmpty sp3 && nonEmpty n3.

Definition isVerticalFormat (lines : list string) (headerIndex : nat) : bool :=
  match nth_error lines (headerIndex + 1) with
  | Some l => nonEmpty l && negb (includes l ",") && negb (looksHorizontal l)
  | None => false
  end.

(** *** Horizontal layout *)

(** [s.replace(/--/g, '0')] *)
Fixpoint replaceDashes (s : string) : string :=
  match s with
  | EmptyString => EmptyString
  | String c r =>
      match r with
      | String d r' =>
          if Ascii.eqb c "-"%char && Ascii.eqb d "-"%char
          then String "0"%char (replaceDashes r')
          else String c (replaceDashes r)
      | EmptyString => String c EmptyString
      end
  end.

(** [line.split(/\s+/).filter(p => p && p.trim() !== '')] *)
Definition tokens (line : string) : list string :=
  filter (fun p => nonEmpty p = true) (splitOn isSpace line).

Definition horizontalPrefixes : list (string * option string) :=
  [ ("StocksEUR", Some "EUR"); ("Stocks", None); ("USD", Some "USD");
    ("EUR", Some "EUR") ].

Fixpoint horizontalNumbers (parts : list string) : list num :=
  match parts with
  | [] => []
  | part :: rest =>
      let num := parseFloat (replaceDashes (removeChar ","%char part)) in
      if negb (isNaN num) then num :: horizontalNumbers rest
      else horizontalNumbers rest
  end.

(** The body of the [for] over the lines after the header. *)
Definition horizontalRow (line0 : string) (holdings : list ParsedHolding)
  : list ParsedHolding :=
  let line := trim line0 in
  if negb (nonEmpty line) || includes (toLowerCase line) "total"
     || includes line "---" || (String.length line <? 5)%nat
  then holdings
  else
    match tokens line with
    | [] => holdings
    | part0 :: rest =>
        if (length (part0 :: rest) <? 6)%nat then holdings
        else
          let '(symbol, extractedCurrency) :=
            stripPrefix horizontalPrefixes part0 in
          let numbers := horizontalNumbers rest in
          if (length numbers <? 5)%nat then holdings
          else
            let quantity := valueOr numbers 0 (Fin 0) in
            let price := valueOr numbers 4 (Fin 0) in
            let value := valueOr numbers 5 (quantity * price)%num in
            if (quantity <=? Fin 0)%num || (price <=? Fin 0)%num
            then holdings
            else
              (holdings ++
                 [mkParsed symbol quantity price value extractedCurrency])%list
    end.

Definition horizontalRows (rest : list string) : list ParsedHolding :=
  fold_left (fun holdings line => horizontalRow line holdings) rest [].

(** *** [parseOpenPositions] *)

(** [None] when the vertical loop is still running after [fuel] iterations. *)
Definition parseOpenPositions (fuel : nat) (text : string)
  : option (list ParsedHolding) :=
  match indexOf text "Open Positions" 0 with
  | None => Some []
  | Some firstOpenPos =>
      let stopAt (marker : string) : nat :=
        match indexOf text marker firstOpenPos with
        | Some k => if (0 <? k)%nat then k else String.length text
        | None => String.length text
        end in
      let endIndex := Nat.min (stopAt "Forex") (stopAt "Notes") in
      let openPositionsSection :=
        String.substring firstOpenPos (endIndex - firstOpenPos) text in
      let lines := splitLines openPositionsSection in
      match findHeaderLine lines 0 (Nat.min 15 (length lines)) with
      | None => Some []
      | Some headerIndex =>
          let dataStartIndex :=
            headerEnd (drop headerIndex lines) headerIndex 0 in
          if isVerticalFormat lines headerIndex
          then verticalLoop fuel lines dataStartIndex []
          else Some (horizontalRows (drop (headerIndex + 1) lines))
      end
  end.


(* ===================================================================== *)
(** ** CSV statements: [parseIBStatementCSV] (parsers/ibStatementParser.ts) *)
(* ===================================================================== *)

Definition isComma (c : ascii) : bool := Ascii.eqb c ","%char.

Definition isQuote (c : ascii) : bool := Ascii.eqb c quoteChar.

(** A [ParsedHolding] as the CSV parser fills it: with the asset category
    of the row. *)
Record ParsedCsvHolding : Type := mkParsedCsv {
  k_symbol : string;
  k_quantity : num;
  k_price : num;
  k_value : num;
  k_currency : option string;
  k_assetCategory : option string
}.

(** [ParsedStatement] without [statementDate], which the parser takes from
    the clock when the file gives none and which nothing else depends on. *)
Record ParsedStatement : Type := mkStatement {
  ps_accountId : string;
  ps_baseCurrency : string;
  ps_holdings : list ParsedCsvHolding;
  ps_cash : num;
  ps_totalValue : num
}.

(** [parts[k] === text] *)
Definition partIs (parts : list string) (k : nat) (text : string) : bool :=
  match nth_error parts k with
  | Some p => String.eqb p text
  | None => false
  end.

(** [parseFloat(parts[k] || d)] *)
Definition partNumber (parts : list string) (k : nat) (d : string) : num :=
  parseFloat (orStr (nth_error parts k) d).

(** [line.split(',').map(p => p.trim())] *)
Definition statementParts (line : string) : list string :=
  map trim (splitOn isComma line).

(** The holding pushed for an [Open Positions,Data] row, if any. *)
Definition statementCsvHolding (parts : list string)
  : option ParsedCsvHolding :=
  if (12 <=? length parts)%nat then
    let assetCategory := nth_error parts 3 in
    let currency := nth_error parts 4 in
    let symbol := nth_error parts 5 in
    let quantity := partNumber parts 6 "0" in
    let mult := partNumber parts 7 "1" in
    let closePrice := partNumber parts 10 "0" in
    let value := partNumber parts 11 "0" in
    if partIs parts 2 "Summary" && truthyStr symbol
       && negb (partIs parts 5 "Total")
       && (quantity >? Fin 0)%num && (closePrice >? Fin 0)%num
    then
      Some (mkParsedCsv (default EmptyString symbol) (quantity * mult)%num
              closePrice
              (Js.or value (quantity * mult * closePrice)%num)
              (orUndefined currency) (orUndefined assetCategory))
    else None
  else None.

(** One iteration of the loop over the lines.  The branches for the section
    headers and for the statement period set variables that are not read
    ([currentSection], [headerRow], [inOpenPositions]) or the date. *)
Definition statementCsvStep (st : ParsedStatement) (line : string)
  : ParsedStatement :=
  let parts := statementParts line in
  if partIs parts 0 "Statement" && partIs parts 1 "Header" then st
  else if partIs parts 0 "Account Information" && partIs parts 1 "Header"
  then st
  else if partIs parts 0 "Open Positions" && partIs parts 1 "Header" then st
  else if partIs parts 0 "Open Positions" && partIs parts 1 "Data" then
    match statementCsvHolding parts with
    | Some holding =>
        mkStatement (ps_accountId st) (ps_baseCurrency st)
          (ps_holdings st ++ [holding])%list (ps_cash st) (ps_totalValue st)
    | None => st
    end
  else if partIs parts 0 "Account Information" && partIs parts 1 "Data" then
    if partIs parts 2 "Account" && truthyStr (nth_error parts 3) then
      mkStatement (default EmptyString (nth_error parts 3))
        (ps_baseCurrency st) (ps_holdings st) (ps_cash st) (ps_totalValue st)
    else if partIs parts 2 "Base Currency" && truthyStr (nth_error parts 3)
    then
      mkStatement (ps_accountId st) (default EmptyString (nth_error parts 3))
        (ps_holdings st) (ps_cash st) (ps_totalValue st)
    else st
  else if partIs parts 0 "Statement" && partIs parts 1 "Data" then st
  else if partIs parts 0 "Net Asset Value" && partIs parts 1 "Data" then
    if partIs parts 2 "Cash" then
      mkStatement (ps_accountId st) (ps_baseCurrency st) (ps_holdings st)
        (partNumber parts 6 "0") (ps_totalValue st)
    else if partIs parts 2 "Total" then
      mkStatement (ps_accountId st) (ps_baseCurrency st) (ps_holdings st)
        (ps_cash st) (partNumber parts 6 "0")
    else st
  else st.

(** [holdings.reduce((sum, h) => sum + h.value, 0)] *)
Definition statementCsvSum (holdings : list ParsedCsvHolding) : num :=
  fold_left (fun sum h => (sum + k_value h)%num) holdings (Fin 0).

(** [csvText.split('\n').map(line => line.trim()).filter(line => line)] *)
Definition statementLines (csvText : string) : list string :=
  filter (fun l => nonEmpty l = true) (map trim (splitLines csvText)).

Definition parseIBStatementCSV (csvText : string) : ParsedStatement :=
  let st :=
    fold_left statementCsvStep (statementLines csvText)
      (mkStatement "UNKNOWN" "USD" [] (Fin 0) (Fin 0)) in
  if (ps_totalValue st =? Fin 0)%num then
    mkStatement (ps_accountId st) (ps_baseCurrency st) (ps_holdings st)
      (ps_cash st) (statementCsvSum (ps_holdings st) + ps_cash st)%num
  else st.

(* ===================================================================== *)
(** ** PDF statements: the fallback section
       ([parseHoldingsFromText], parsers/ibStatementParser.ts) *)
(* ===================================================================== *)

(** The length of the shortest prefix of the text after which one of the
    markers, given in lower case, or the end of the text follows:
    [[\s\S]*?(?=marker1|marker2|...|$)] under the flag [i]. *)
Fixpoint lazyUntil (markers : list string) (s : string) : nat :=
  if existsb (fun m => String.prefix m (toLowerCase s)) markers then 0%nat
  else
    match s with
    | EmptyString => 0%nat
    | String _ rest => S (lazyUntil markers rest)
    end.

Definition m2mTitle : string := "mark-to-market performance summary".

(** The match of
    [/Mark-to-Market Performance Summary[\s\S]*?(?=Realized|Change in NAV|Notes|$)/i]. *)
Definition m2mSectionOf (text : string) : option string :=
  match indexOf (toLowerCase text) m2mTitle 0 with
  | Some start =>
      let rest := dropStr (start + String.length m2mTitle) text in
      Some (String.substring start
              (String.length m2mTitle
               + lazyUntil ["realized"; "change in nav"; "notes"] rest)
              text)
  | None => None
  end.

(** The index of the header row of the section; [rest] is
    [lines.slice(i)]. *)
Fixpoint m2mHeaderIndex (rest : list string) (i : nat) : option nat :=
  match rest with
  | [] => None
  | line0 :: rest' =>
      let line := toLowerCase line0 in
      if includes line "symbol"
         && (includes line "current quantity" || includes line "quantity")
      then Some i
      else m2mHeaderIndex rest' (S i)
  end.

(** [/^[A-Z]{2,6}$/] *)
Definition isUpperWord (s : string) : bool :=
  (2 <=? String.length s)%nat && (String.length s <=? 6)%nat
  && forallb_str isUpperAZ s.

(** The loop that looks for the symbol: the first part that is an
    upper-case word, and the parts after it. *)
Fixpoint m2mSymbol (parts : list string) : option (string * list string) :=
  match parts with
  | [] => None
  | part :: rest =>
      if isUpperWord part then Some (part, rest) else m2mSymbol rest
  end.

Fixpoint m2mNumbers (parts : list string) : list num :=
  match parts with
  | [] => []
  | part :: rest =>
      let num := parseFloat (removeChar ","%char part) in
      if negb (isNaN num) then num :: m2mNumbers rest else m2mNumbers rest
  end.

(** The body of the [for] over the lines after the header. *)
Definition m2mRow (line0 : string) (holdings : list ParsedHolding)
  : list ParsedHolding :=
  let line := trim line0 in
  if negb (nonEmpty line) || includes (toLowerCase line) "total"
     || includes line "---"
  then holdings
  else
    let parts := tokens line in
    if (length parts <? 6)%nat then holdings
    else
      match m2mSymbol parts with
      | None => holdings
      | Some (symbol, after) =>
          let numbers := m2mNumbers after in
          if (length numbers <? 4)%nat then holdings
          else
            let quantity := valueOr numbers 1 (Fin 0) in
            let price := valueOr numbers 3 (Fin 0) in
            let value := (quantity * price)%num in
            if (quantity <=? Fin 0)%num || (price <=? Fin 0)%num
            then holdings
            else (holdings ++ [mkParsed symbol quantity price value None])%list
      end.

Definition parseHoldingsFromText (text : string) : list ParsedHolding :=
  match m2mSectionOf text with
  | None => []
  | Some m2mSection =>
      let lines := splitLines m2mSection in
      match m2mHeaderIndex lines 0 with
      | None => []
      | Some headerIndex =>
          fold_left (fun holdings line => m2mRow line holdings)
            (drop (headerIndex + 1) lines) []
      end
  end.

(** The holdings of [parseIBStatement], from the text of the PDF on: those
    of the Open Positions section, and those of the Mark-to-Market section
    when there are none. *)
Definition statementHoldings (fuel : nat) (text : string)
  : option (list ParsedHolding) :=
  match parseOpenPositions fuel text with
  | Some [] => Some (parseHoldingsFromText text)
  | Some holdings => Some holdings
  | None => None
  end.

(* ===================================================================== *)
(** ** Trading currencies: [getCurrencyForSymbol]
       (services/currencyLookup.ts) *)
(* ===================================================================== *)

(** [/^[A-Z]{2,4}suffix$/] for a suffix that begins with a dot: the
    upper-case letters are a maximal run, since the dot is not one. *)
Definition exchangeSymbol (suffix : string) (symbol : string) : bool :=
  let '(letters, rest) := spanWhile isUpperAZ symbol in
  (2 <=? String.length letters)%nat && (String.length letters <=? 4)%nat
  && String.eqb rest suffix.

Definition europeanTickers : list string :=
  ["B26A"; "B28A"; "CSH2"; "EGLN"; "ERNX"; "EUHD"; "IB27"; "IEGY"; "WBTC";
   "XEON"; "YCSH"].

(** [/^[A-Z]{1,5}$/] *)
Definition isUsSymbol (symbol : string) : bool :=
  (1 <=? String.length symbol)%nat && (String.length symbol <=? 5)%nat
  && forallb_str isUpperAZ symbol.

Definition CURRENCY_PATTERNS : list ((string -> bool) * string) :=
  [ (exchangeSymbol ".PA", "EUR"); (exchangeSymbol ".DE", "EUR");
    (exchangeSymbol ".AS", "EUR"); (exchangeSymbol ".BR", "EUR");
    (exchangeSymbol ".MI", "EUR"); (exchangeSymbol ".LS", "GBP");
    (exchangeSymbol ".SW", "CHF"); (exchangeSymbol ".VI", "EUR");
    (fun symbol => existsb (String.eqb symbol) europeanTickers, "EUR");
    (isUsSymbol, "USD") ].

(** The loop over the patterns: the currency of the first that matches. *)
Fixpoint patternCurrency (patterns : list ((string -> bool) * string))
    (symbol : string) : option string :=
  match patterns with
  | [] => None
  | (pattern, currency) :: rest =>
      if pattern symbol then Some currency else patternCurrency rest symbol
  end.

Section WithCurrencyService.

(** What [lookupCurrencyOnline] answers for a symbol; [None] is [null]. *)
Variable lookupCurrencyOnline : string -> option string.

(** One call, from the state of [currencyCache] at its start to the state
    at its end, with no other call running in between. *)
Definition getCurrencyForSymbol (currencyCache : gmap string string)
    (symbol : string) (fromStatement : option string)
  : string * gmap string string :=
  if truthyStr fromStatement then
    (default EmptyString fromStatement,
     <[symbol := default EmptyString fromStatement]> currencyCache)
  else
    match currencyCache !! symbol with
    | Some cached => (cached, currencyCache)
    | None =>
        match patternCurrency CURRENCY_PATTERNS symbol with
        | Some currency => (currency, <[symbol := currency]> currencyCache)
        | None =>
            if truthyStr (lookupCurrencyOnline symbol) then
              (default EmptyString (lookupCurrencyOnline symbol),
               <[symbol := default EmptyString (lookupCurrencyOnline symbol)]>
                 currencyCache)
            else ("USD", <[symbol := "USD"]> currencyCache)
        end
    end.

End WithCurrencyService.

(* ===================================================================== *)
(** ** Ticker lookup results: [getBestTicker], [getAllTickers]
       (services/tickerLookup.ts) *)
(* ===================================================================== *)

Inductive Confidence : Type := high | medium | low.

Record TickerLookupResult : Type := mkTicker {
  tl_ticker : string;
  tl_exchange : option string;
  tl_name : option string;
  tl_confidence : Confidence
}.

Record ISINLookupResult : Type := mkIsinLookup {
  il_tickers : list TickerLookupResult;
  il_isin : string;
  il_name : option string;
  il_primaryTicker : option string
}.

Definition isConfidence (c : Confidence) (t : TickerLookupResult) : bool :=
  match c, tl_confidence t with
  | high, high | medium, medium | low, low => true
  | _, _ => false
  end.

(** [t.exchange === 'NYQ' || t.exchange === 'NMS' || t.exchange === 'NAS'] *)
Definition isUsExchange (t : TickerLookupResult) : bool :=
  match tl_exchange t with
  | Some exchange =>
      String.eqb exchange "NYQ" || String.eqb exchange "NMS"
      || String.eqb exchange "NAS"
  | None => false
  end.

(** [null] is [None]. *)
Definition getBestTicker (lookupResult : ISINLookupResult) : option string :=
  match il_tickers lookupResult with
  | [] => None
  | first :: _ =>
      if truthyStr (il_primaryTicker lookupResult)
      then il_primaryTicker lookupResult
      else
        match List.filter (isConfidence high) (il_tickers lookupResult) with
        | (firstHigh :: _) as highConfidence =>
            match List.find isUsExchange highConfidence with
            | Some usTicker => Some (tl_ticker usTicker)
            | None => Some (tl_ticker firstHigh)
            end
        | [] =>
            match
              List.filter (isConfidence medium) (il_tickers lookupResult)
            with
            | firstMedium :: _ => Some (tl_ticker firstMedium)
            | [] => Some (tl_ticker first)
            end
        end
  end.

(** [Array.from(new Set(array))]: the elements in the order of their first
    occurrence. *)
Definition arrayFromSet (array : list string) : list string :=
  fold_left
    (fun set x => if existsb (String.eqb x) set then set else (set ++ [x])%list)
    array [].

Definition getAllTickers (lookupResult : ISINLookupResult) : list string :=
  match il_tickers lookupResult with
  | [] => []
  | _ => arrayFromSet (map tl_ticker (il_tickers lookupResult))
  end.

(* ===================================================================== *)
(** ** [updateHoldingsWithTargetTypes] (services/holdingMatcher.ts) *)
(* ===================================================================== *)

(** A run of one of the two [UPDATE holdings] statements with its
    parameters; [None] is [null]. *)
Inductive HoldingUpdate : Type :=
| SetTypeAndCategory (asset_type : string) (asset_category : option string)
    (accountId : Z) (symbol : string) (statementDate : string)
| SetType (asset_type : string) (accountId : Z) (symbol : string)
    (statementDate : string).

Record UpdateOutcome : Type := mkOutcome {
  o_statements : list HoldingUpdate;
  o_updated : nat;
  o_unmatched : nat
}.

Section WithJsonAgain.
Variable JSON_parse : string -> option (list string).

(** [targets] is what the query on [target_allocations] returns; the
    statements that are run are listed in their order. *)
Definition updateHoldingsWithTargetTypes (targets : list TargetAllocation)
    (holdings : list Holding) (accountId : Z) (statementDate : string)
  : UpdateOutcome :=
  let result := matchHoldingsToTargets JSON_parse holdings targets in
  let matchedUpdates :=
    map (fun m =>
           SetTypeAndCategory (h_asset_type (m_holding m))
             (orUndefined (h_asset_category (m_holding m)))
             accountId (h_symbol (m_holding m)) statementDate)
      (matched result) in
  let unmatchedUpdates :=
    omap (fun u =>
            if nonEmpty (u_suggestedAssetType u)
            then Some (SetType (u_suggestedAssetType u) accountId
                         (h_symbol (u_holding u)) statementDate)
            else None)
      (unmatched result) in
  mkOutcome (matchedUpdates ++ unmatchedUpdates)%list
    (length (matched result)) (length (unmatched result)).

End WithJsonAgain.

(* ===================================================================== *)
(** ** The allocations of a portfolio snapshot (routes/statements.ts) *)
(* ===================================================================== *)

(** An entry of [allocationsByType].  The values added up are those of
    rows of the database, hence finite. *)
Record AllocationData : Type := mkAllocationData {
  d_value : Q;
  d_category : option string
}.

(** [allocationsByType]: a [Map] in insertion order. *)
Definition AllocationsByType : Type := list (string * AllocationData).

Definition allocationHas (key : string) (m : AllocationsByType) : bool :=
  existsb (fun kd => String.eqb kd.1 key) m.

(** [existing.value += value_usd] on the entry stored under [key]. *)
Fixpoint allocationAdd (key : string) (value_usd : Q) (m : AllocationsByType)
  : AllocationsByType :=
  match m with
  | [] => []
  | (k, d) :: m' =>
      if String.eqb k key
      then (k, mkAllocationData (d_value d + value_usd) (d_category d)) :: m'
      else (k, d) :: allocationAdd key value_usd m'
  end.

Definition allocationStep (m : AllocationsByType) (holding : Holding)
  : AllocationsByType :=
  let key := categoryKey (h_asset_type holding) (h_asset_category holding) in
  allocationAdd key (h_value_usd holding)
    (if allocationHas key m then m
     else (m ++ [(key, mkAllocationData 0
                         (orUndefined (h_asset_category holding)))])%list).

(** A row inserted into [snapshot_allocations]; [None] is [null]. *)
Record SnapshotAllocation : Type := mkSnapshotAllocation {
  sa_asset_type : string;
  sa_asset_category : option string;
  sa_percentage : num;
  sa_value_usd : num
}.

(** [latestHoldings.reduce((sum, h) => sum + h.value_usd, 0)] *)
Definition totalValueUsd (latestHoldings : list Holding) : Q :=
  fold_left (fun sum h => (sum + h_value_usd h)%Q) latestHoldings 0%Q.

Definition isBar (c : ascii) : bool := Ascii.eqb c "|"%char.

(** The row of one entry: [const [assetType, assetCategory] = key.split('|')]. *)
Definition snapshotRow (totalValueUsd : Q) (entry : string * AllocationData)
  : SnapshotAllocation :=
  let pieces := splitOn isBar entry.1 in
  mkSnapshotAllocation (default EmptyString (nth_error pieces 0))
    (orUndefined (nth_error pieces 1))
    (Fin (d_value entry.2) / Fin totalValueUsd * Fin 100)%num
    (Fin (d_value entry.2)).

(** The rows inserted for the holdings that the query for the latest
    holdings returns. *)
Definition snapshotAllocations (latestHoldings : list Holding)
  : list SnapshotAllocation :=
  map (snapshotRow (totalValueUsd latestHoldings))
    (fold_left allocationStep latestHoldings []).

(* ===================================================================== *)
(** ** Validation of imported targets (services/targetValidator.ts) *)
(* ===================================================================== *)

Record TargetToValidate : Type := mkToValidate {
  v_assetType : string;
  v_assetCategory : option string;
  v_instrument : option string;
  v_isin : option string;
  v_mainTicker : option string;
  v_otherTickers : option (list string);
  v_targetPercentage : num;
  v_rowNumber : nat
}.

Record ValidationResult : Type := mkValidation {
  r_isValid : bool;
  r_errors : list string;
  r_warnings : list string;
  r_needsAutoDetect : bool;
  r_missingFields : list string
}.

(** What a call of the lookup service gives: a name, [null], or an
    exception. *)
Inductive NameAnswer : Type :=
| NameFound (name : string)
| NameMissing
| LookupFailed.

(** [`Row ${rowNumber}: ${what} "${id}"${rest}`] *)
Definition validationWarning (rowNumber : nat) (what id rest : string)
  : string :=
  "Row " ++ natToString rowNumber ++ ": " ++ what ++ " "
  ++ String quoteChar id ++ String quoteChar rest.

(** The warning of one lookup, if any. *)
Definition lookupWarning (rowNumber : nat) (kind missing : string)
    (id : string) (answer : NameAnswer) : list string :=
  match answer with
  | NameFound name =>
      if nonEmpty name then []
      else [validationWarning rowNumber missing id
              " not found in lookup service"]
  | NameMissing =>
      [validationWarning rowNumber missing id " not found in lookup service"]
  | LookupFailed =>
      [validationWarning rowNumber ("Could not validate " ++ kind) id
         EmptyString]
  end.

Section WithLookupService.

(** The answers of [lookupNameFromTicker] and [lookupNameFromISIN]. *)
Variables lookupNameFromTicker lookupNameFromISIN : string -> NameAnswer.

Definition validateTarget (target : TargetToValidate) : ValidationResult :=
  let errors : list string := [] in
  let missingFields :=
    ((if negb (truthyStr (v_mainTicker target))
         && negb (truthyStr (v_isin target))
      then ["Main Ticker or ISIN"] else [])
     ++ (if negb (truthyStr (v_instrument target))
         then ["Instrument"] else []))%list in
  let tickerWarnings :=
    if truthyStr (v_mainTicker target) then
      let ticker := default EmptyString (v_mainTicker target) in
      lookupWarning (v_rowNumber target) "ticker" "Ticker" ticker
        (lookupNameFromTicker ticker)
    else [] in
  let isinWarnings :=
    if truthyStr (v_isin target) then
      let isin := default EmptyString (v_isin target) in
      lookupWarning (v_rowNumber target) "ISIN" "ISIN" isin
        (lookupNameFromISIN isin)
    else [] in
  let otherWarnings :=
    match v_otherTickers target with
    | Some tickers =>
        concat
          (map (fun ticker =>
                  lookupWarning (v_rowNumber target) "other ticker"
                    "Other ticker" ticker (lookupNameFromTicker ticker))
             tickers)
    | None => []
    end in
  mkValidation ((length errors =? 0)%nat) errors
    (tickerWarnings ++ isinWarnings ++ otherWarnings)%list
    (0 <? length missingFields)%nat missingFields.

Record ValidationSummary : Type := mkSummary {
  sm_total : nat;
  sm_valid : nat;
  sm_complete : nat;
  sm_needsAutoDetect : nat
}.

Record TargetsValidation : Type := mkTargetsValidation {
  tv_allValid : bool;
  tv_allComplete : bool;
  tv_results : list (TargetToValidate * ValidationResult);
  tv_summary : ValidationSummary
}.

Definition validateTargets (targets : list TargetToValidate)
  : TargetsValidation :=
  let results := map (fun target => (target, validateTarget target)) targets in
  let valid := length (List.filter (fun r => r_isValid r.2) results) in
  let complete :=
    length (List.filter (fun r => negb (r_needsAutoDetect r.2)) results) in
  let needsAutoDetect :=
    length (List.filter (fun r => r_needsAutoDetect r.2) results) in
  mkTargetsValidation
    (forallb (fun r => r_isValid r.2) results)
    (forallb (fun r => negb (r_needsAutoDetect r.2)) results)
    results
    (mkSummary (length targets) valid complete needsAutoDetect).

End WithLookupService.

(* ===================================================================== *)
(** * Vocabulary of the statements *)
(* ===================================================================== *)

(** ** Numbers *)

(** A finite, non-negative number. *)
Definition finNonneg (x : num) : Prop :=
  exists q : Q, x = Fin q /\ (0 <= q)%Q.

(** A number other than the infinities and NaN. *)
Definition isFinite (x : num) : bool :=
  match x with Fin _ => true | _ => false end.

(** ** Rebalancing *)

Definition allocKeys (m : AllocMap) : list string := map fst m.

(** The entry after [existing.allocation += allocation]. *)
Definition bumped (allocation : num) (e : AllocEntry) : AllocEntry :=
  mkEntry (e_holding e) (e_allocation e + allocation)%num (e_mappedSymbol e).

Definition assetOf (tv : Q) (tol : num) (tm cm : gmap string Q)
    (kv : string * AllocEntry) : AssetStatus :=
  assetFor tv tol tm cm kv.1 kv.2.

Definition actionOf (tv : Q) (tol : num) (tm cm : gmap string Q)
    (kv : string * AllocEntry) : option RebalancingAction :=
  entryAction tv tol tm cm kv.1 kv.2.

(** The holdings that count toward the effective symbol [k]. *)
Definition contributes (maps : gmap string string) (k : string) (h : Holding)
  : bool :=
  negb (isCash h) && String.eqb (keySymbolOf maps h) k.

Definition contributors (maps : gmap string string) (k : string)
    (holdings : list Holding) : list Holding :=
  List.filter (contributes maps k) holdings.

(** The entry that the source builds from the contributors of a symbol. *)
Definition entryOf (tv : Q) (maps : gmap string string)
    (group : list Holding) : option AllocEntry :=
  match group with
  | [] => None
  | first :: others =>
      Some (mkEntry first
              (fold_left (fun a h => (a + holdingAllocation tv h)%num) others
                 (holdingAllocation tv first))
              (orUndefined (mappedSymbolOf maps first)))
  end.

(** The keys under which a target enters the ticker map. *)
Definition tickerKeys (JSON_parse : string -> option (list string))
    (t : TargetAllocation) : list string :=
  match t_symbol t with
  | Some sym =>
      if nonEmpty sym then
        toUpperCase sym ::
        map toUpperCase
          (List.filter nonEmpty (alternativeTickersOf JSON_parse t))
      else []
  | None => []
  end.

(** Some target is a ticker-level target for the symbol [k]. *)
Definition hasTickerTarget (JSON_parse : string -> option (list string))
    (targets : list TargetAllocation) (k : string) : bool :=
  existsb (fun t => existsb (String.eqb k) (tickerKeys JSON_parse t)) targets.

(** Some target is a category-level target for the key [key]. *)
Definition hasCategoryTarget (targets : list TargetAllocation)
    (key : string) : bool :=
  existsb
    (fun t => negb (truthyStr (t_symbol t))
              && String.eqb key
                   (categoryKey (t_asset_type t) (t_asset_category t)))
    targets.

(** ** Matching *)

(** The keys under which a target enters [targetsBySymbol]: its primary
    symbol and its alternative tickers, upper-cased. *)
Definition symbolKeys (JSON_parse : string -> option (list string))
    (t : TargetAllocation) : list string :=
  (if truthyStr (t_symbol t)
   then [toUpperCase (default EmptyString (t_symbol t))] else [])
  ++ map toUpperCase
       (List.filter nonEmpty (alternativeTickersOf JSON_parse t)).

Definition isinKeys (t : TargetAllocation) : list string :=
  if truthyStr (t_isin t)
  then [toUpperCase (default EmptyString (t_isin t))] else [].

(** The holding's symbol equals, up to case, a primary or alternative
    ticker of some target. *)
Definition hasSymbolMatch (JSON_parse : string -> option (list string))
    (targets : list TargetAllocation) (h : Holding) : bool :=
  nonEmpty (h_symbol h)
  && existsb
       (fun t => existsb (String.eqb (toUpperCase (h_symbol h)))
                   (symbolKeys JSON_parse t))
       targets.

Definition hasIsinMatch (targets : list TargetAllocation) (h : Holding)
  : bool :=
  match h_isin h with
  | Some isin =>
      nonEmpty isin
      && existsb
           (fun t => existsb (String.eqb (toUpperCase isin)) (isinKeys t))
           targets
  | None => false
  end.

(** Some category-level target has the holding's type and category. *)
Definition hasCategoryMatch (JSON_parse : string -> option (list string))
    (targets : list TargetAllocation) (h : Holding) : bool :=
  existsb
    (fun t => negb (truthyStr (t_symbol t))
              && (length (alternativeTickersOf JSON_parse t) =? 0)%nat
              && String.eqb
                   (categoryKey (t_asset_type t) (t_asset_category t))
                   (categoryKey (h_asset_type h) (h_asset_category h)))
    targets.

(** The entry pushed to [matched] for a holding, if any. *)
Definition matchedOf (lk : TargetLookups) (h : Holding)
  : option MatchedHolding :=
  match findMatch lk h with
  | Some (t, mt) => Some (mkMatched (retag h t) (t_id t) mt)
  | None => None
  end.

(** ** Target files *)

Definition csvEmpty : ParsedCsvTargetsResult := mkCsvResult [] [] [].

(** A row the claim calls invalid: no asset type, or a percentage that is
    not a number or lies outside [0, 100]. *)
Definition csvInvalid (hm : CsvHeaderMap) (row : list string) : bool :=
  negb (nonEmpty (csvAssetType hm row))
  || invalidPercentage (parseFloat (csvRawPercentage hm row)).

Definition excelEmpty : ParsedTargetsResult := mkExcelResult [] [] [].

(** The category check of the row throws: the row has a category and its
    normalized asset type names a property inherited from
    [Object.prototype]. *)
Definition excelCategoryThrows (hm : ExcelHeaderMap) (row : list Cell)
  : bool :=
  nonEmpty (excelOptText row (hx_assetCategory hm))
  && match validCategoriesOf (normalizeAssetType (excelAssetType hm row)) with
     | Some _ => false
     | None => true
     end.

(** *** The rows of a target file, in the words of the claims *)

(** The lines that [parseTargetCsv] numbers: the lines of the text, trimmed,
    without the empty ones.  The first is the header, row 1; the data line
    at position [k] of the others is row [k + 2]. *)
Definition csvFileLines (csvText : string) : list string :=
  filter (fun l => nonEmpty l = true) (map trim (splitLines csvText)).

(** What becomes of a row: one error and no target, one target and no
    error, or neither. *)
Inductive RowOutcome : Type :=
| RowError (message : string)
| RowTarget (assetType : string) (percentage : num)
| RowSkipped.

(** The outcome of the row with the number [rowNumber], from its asset-type
    cell, the text of its percentage cell and the number [value] that the
    percentage cell is read as:
    - no asset type: the error [Row n: Missing Asset Type];
    - a value that is NaN or infinite, below 0 or above 100: the error
      [Row n: Invalid percentage (text)];
    - the value 0: nothing;
    - a value strictly between 0 and 1: a target with a hundred times the
      value;
    - a value between 1 and 100: a target with the value. *)
Definition rowOutcome (rowNumber : nat) (assetType shown : string)
    (value : num) : RowOutcome :=
  if negb (nonEmpty assetType) then
    RowError ("Row " ++ natToString rowNumber ++ ": Missing Asset Type")
  else
    match value with
    | Fin p =>
        if Qltb p 0 || Qltb 100 p then
          RowError ("Row " ++ natToString rowNumber
                    ++ ": Invalid percentage (" ++ shown ++ ")")
        else if Qeq_bool p 0 then RowSkipped
        else if Qltb p 1 then
          RowTarget (normalizeAssetType assetType) (value * Fin 100)%num
        else RowTarget (normalizeAssetType assetType) value
    | _ =>
        RowError ("Row " ++ natToString rowNumber
                  ++ ": Invalid percentage (" ++ shown ++ ")")
    end.

Definition outcomeError (o : RowOutcome) : option string :=
  match o with
  | RowError message => Some message
  | _ => None
  end.

Definition outcomeTarget (o : RowOutcome) : option (string * num) :=
  match o with
  | RowTarget assetType percentage => Some (assetType, percentage)
  | _ => None
  end.

(** The outcome of a data line of a CSV file under the header map [hm]. *)
Definition csvRowOutcome (hm : CsvHeaderMap) (rowNumber : nat)
    (line : string) : RowOutcome :=
  let row := parseCsvLine line in
  rowOutcome rowNumber (csvAssetType hm row) (csvShown hm row)
    (parseFloat (csvRawPercentage hm row)).

(** The outcomes of consecutive data lines, the first of which is row
    [rowNumber]. *)
Fixpoint csvOutcomes (hm : CsvHeaderMap) (rowNumber : nat)
    (lines : list string) : list RowOutcome :=
  match lines with
  | [] => []
  | line :: rest =>
      csvRowOutcome hm rowNumber line :: csvOutcomes hm (S rowNumber) rest
  end.

(** The outcome of a row of a sheet: an entirely blank row is passed over. *)
Definition excelRowOutcome (hm : ExcelHeaderMap) (rowNumber : nat)
    (row : list Cell) : RowOutcome :=
  if excelBlankRow row then RowSkipped
  else
    rowOutcome rowNumber (excelAssetType hm row) (excelShown hm row)
      (parseFloat (excelRawPercentage hm row)).

Fixpoint excelOutcomes (hm : ExcelHeaderMap) (rowNumber : nat)
    (rows : list (list Cell)) : list RowOutcome :=
  match rows with
  | [] => []
  | row :: rest =>
      excelRowOutcome hm rowNumber row :: excelOutcomes hm (S rowNumber) rest
  end.

Definition csvTargetPair (t : CsvTargetRow) : string * num :=
  (c_assetType t, c_targetPercentage t).

Definition excelTargetPair (t : ExcelTargetRow) : string * num :=
  (x_assetType t, x_targetPercentage t).

(** A percentage cell that is written plainly: at most fifteen characters,
    none of them the [e] of an exponent.  The binary64 number that
    [parseFloat] gives for such a text lies on the same side of 0, 1 and
    100 as the exact value of its digits, which is what the embedding
    reads; a longer text, or one with an exponent, can be rounded onto one
    of the three, or down to 0. *)
Definition plainNumberText (s : string) : bool :=
  (String.length s <=? 15)%nat
  && forallb_str
       (fun c => negb (Ascii.eqb c "e"%char || Ascii.eqb c "E"%char)) s.

Definition csvPlainRow (hm : CsvHeaderMap) (line : string) : bool :=
  plainNumberText (csvRawPercentage hm (parseCsvLine line)).

Definition excelPlainRow (hm : ExcelHeaderMap) (row : list Cell) : bool :=
  plainNumberText (excelRawPercentage hm row).

(** The percentage that is stored for a row with the asset type
    [assetType] whose percentage cell is read as [value]: a hundred times
    the value when it is strictly between 0 and 1, the value itself when it
    is between 1 and 100.  Nothing is stored for a row without asset type,
    nor for a value that is not a number, is at most 0 or is above 100. *)
Definition storedPercentage (assetType : string) (value : num)
  : option num :=
  if nonEmpty assetType then
    match value with
    | Fin p =>
        if Qltb 0 p && Qltb p 1 then Some (value * Fin 100)%num
        else if Qle_bool 1 p && Qle_bool p 100 then Some value
        else None
    | _ => None
    end
  else None.

Definition csvStored (hm : CsvHeaderMap) (line : string) : option num :=
  let row := parseCsvLine line in
  storedPercentage (csvAssetType hm row)
    (parseFloat (csvRawPercentage hm row)).

Definition excelStored (hm : ExcelHeaderMap) (row : list Cell)
  : option num :=
  if excelBlankRow row then None
  else
    storedPercentage (excelAssetType hm row)
      (parseFloat (excelRawPercentage hm row)).

(** ** Statement parser *)

(** A pass started at line [i] of the section leaves the cursor at [i]. *)
Definition stallsAt (lines : list string) (i : nat) : bool :=
  match verticalBody lines i [] with
  | Next i' _ => (i' =? i)%nat
  | Break => false
  end.

(** ** Concrete inputs *)

(** A [JSON.parse] for targets whose alternative tickers are not JSON. *)
Definition noJson : string -> option (list string) := fun _ => None.

Definition holdingOf (symbol asset_type : string) (price value_usd : Q)
  : Holding :=
  mkHolding 0 symbol None asset_type None 1 price value_usd.

Definition tickerTarget (symbol : string) (pct : Q) : TargetAllocation :=
  mkTarget 0 "Stock" None (Some symbol) AltUndefined None pct.

Definition categoryTarget (asset_type : string) (pct : Q)
  : TargetAllocation :=
  mkTarget 1 asset_type None None AltUndefined None pct.

(** A portfolio with a holding, XYZ, for which there is no target. *)
Definition xyzHolding : Holding := holdingOf "XYZ" "Stock" 50 500.

Definition exitHoldings : list Holding :=
  [holdingOf "VTI" "Stock" 100 9500; xyzHolding].

Definition exitPlan : RebalancingPlan :=
  calculateRebalancing noJson exitHoldings [tickerTarget "VTI" 95] 10000
    (Fin 10) ∅.

(** The portfolio of the scenarios of the specification. *)
Definition scenarioHoldings : list Holding :=
  [holdingOf "VTI" "Stock" 100 5000; holdingOf "XYZ" "Stock" 50 500].

Definition scenarioPlan : RebalancingPlan :=
  calculateRebalancing noJson scenarioHoldings [tickerTarget "VTI" 38] 10000
    (Fin 0.01) ∅.

(** A single holding with a negative value, as the route plans it. *)
Definition shortHoldings : list Holding := [holdingOf "XYZ" "Stock" 1 (-5)].

Definition shortPlan : RebalancingPlan :=
  routePlan noJson shortHoldings [tickerTarget "VTI" 100] [] None.

(** Cash and one fund of the same value. *)
Definition vtiHundred : Holding := holdingOf "VTI" "Stock" 100 100.

Definition cashHoldings : list Holding :=
  [holdingOf "cash" "Cash" 100 100; vtiHundred].

Definition cashPlan : RebalancingPlan :=
  calculateRebalancing noJson cashHoldings [tickerTarget "VTI" 50] 200
    (Fin 1) ∅.

Definition cashRouteHoldings : list Holding :=
  [holdingOf "CASH" "Cash" 100 100; vtiHundred].

Definition cashRoutePlan : RebalancingPlan :=
  routePlan noJson cashRouteHoldings [tickerTarget "VTI" 50] [] None.

(** Two positions half a percentage point away from their targets, planned
    by the route without a tolerance parameter. *)
Definition halfPointHoldings : list Holding :=
  [holdingOf "VTI" "Stock" 100 5050; holdingOf "BND" "Bond" 100 4950].

Definition halfPointPlan : RebalancingPlan :=
  routePlan noJson halfPointHoldings
    [tickerTarget "VTI" 50; tickerTarget "BND" 50] [] None.

(** Two share classes, the second mapped to the symbol of the first. *)
Definition vwra : Holding := holdingOf "VWRA" "Stock" 100 3000.
Definition vwrl : Holding := holdingOf "VWRL" "Stock" 50 2000.

Definition vwrMappings : gmap string string := {[ "VWRL" := "VWRA" ]}.

Definition vwrTargets : list TargetAllocation := [tickerTarget "VWRA" 40].

Definition vwrEntry : AllocEntry :=
  mkEntry vwra (holdingAllocation 10000 vwra + holdingAllocation 10000 vwrl)%num
    None.

Definition vwrPlan : RebalancingPlan :=
  calculateRebalancing noJson [vwra; vwrl] vwrTargets 10000 (Fin 1)
    vwrMappings.

(** A holding that matches a ticker target and a category target. *)
Definition vtiLower : Holding := holdingOf "vti" "Stock" 100 5000.

Definition bothTargets : list TargetAllocation :=
  [tickerTarget "VTI" 38; categoryTarget "Stock" 23].

Definition newline : string := String "010"%char EmptyString.

(** [lines.join('\n')] *)
Fixpoint joinLines (lines : list string) : string :=
  match lines with
  | [] => EmptyString
  | [l] => l
  | l :: rest => l ++ newline ++ joinLines rest
  end.

Definition csvAssetPct : CsvHeaderMap :=
  csvHeaderMap (parseCsvLine "Asset Type,%").

Definition excelAssetPct : ExcelHeaderMap :=
  mkExcelHeaderMap 0 None None None None 1.

(** A CSV file and a sheet with a percentage written as a fraction. *)
Definition fractionCsv : string :=
  joinLines ["Asset Type,%"; "Stock,0.05"; "Bond,95"].

Definition fractionSheet : list (list Cell) :=
  [ [CStr "Asset Type"; CStr "%"];
    [CStr "Stock"; CNum "0.05"];
    [CStr "Bond"; CNum "95"] ].

(** A CSV file and a sheet with rows of every kind. *)
Definition mixedCsv : string :=
  joinLines
    ["Asset Type,%"; "Shares,38%"; "Gold,abc"; ",5"; "Bonds,150"; "Cash,0";
     "REIT,-1"; "Crypto,0.5"].

Definition mixedSheet : list (list Cell) :=
  [ [CStr "Targets"];
    [CStr "Asset Type"; CStr "%"];
    [CStr "Shares"; CNum "38"];
    [CStr "Gold"; CStr "abc"];
    [CStr ""; CStr ""];
    [CStr ""; CNum "5"];
    [CStr "Bonds"; CNum "150"];
    [CStr "Crypto"; CNum "0.5"] ].

(** A percentage cell that only starts with a number, and an empty one. *)
Definition prefixCsv : string := joinLines ["Asset Type,%"; "Bond,12abc"].

Definition emptyCellCsv : string := joinLines ["Asset Type,%"; "Stock,"].

(** A CSV file whose only data row has the percentage 0. *)
Definition zeroRowFile : string := "Asset Type,%" ++ newline ++ "Stock,0".

(** A CSV file whose only data row has the percentage 0 and no asset type. *)
Definition noTypeZeroFile : string := "Asset Type,%" ++ newline ++ ",0".

(** A vertical Open Positions section with one row, whose quantity is 0. *)
Definition zeroQuantityLines : list string :=
  ["Open Positions"; "Symbol"; "Quantity"; "Mult"; "Cost Price"; "Cost Basis";
   "Close Price"; "Value"; "Unrealized P/L"; "Code";
   "IWDA"; "0"; "1"; "76.61"; "7661.03"; "105.5250"; "10552.50"; "2891.47";
   "SY"].

Definition zeroQuantityStatement : string := joinLines zeroQuantityLines.

(** The same section with a short position, and with a long one. *)
Definition shortPositionLines : list string :=
  ["Open Positions"; "Symbol"; "Quantity"; "Mult"; "Cost Price"; "Cost Basis";
   "Close Price"; "Value"; "Unrealized P/L"; "Code";
   "IWDA"; "-100"; "1"; "76.61"; "-7661.03"; "105.5250"; "-10552.50";
   "-2891.47"; "SY"].

Definition longPositionLines : list string :=
  ["Open Positions"; "Symbol"; "Quantity"; "Mult"; "Cost Price"; "Cost Basis";
   "Close Price"; "Value"; "Unrealized P/L"; "Code";
   "IWDA"; "100"; "1"; "76.61"; "7661.03"; "105.5250"; "10552.50"; "2891.47";
   "SY"].


(* ===================================================================== *)
(** * Vocabulary of the further properties *)
(* ===================================================================== *)

(** ** Statement parser *)

(** A parsed holding whose quantity and price are above 0 and whose value
    is a number (not NaN). *)
Definition positiveHolding (h : ParsedHolding) : bool :=
  (p_quantity h >? Fin 0)%num && (p_price h >? Fin 0)%num
  && negb (isNaN (p_value h)).

(** [/^[A-Z0-9]{1,6}$/] *)
Definition tickerShaped (s : string) : bool :=
  (1 <=? String.length s)%nat && (String.length s <=? 6)%nat
  && forallb_str isUpperAlnum s.

(** The currencies that a section prefix can give to a holding. *)
Definition statementCurrencies : list (option string) :=
  [None; Some "EUR"; Some "USD"; Some "GBP"; Some "JPY"].

(** ** Target files *)

(** A field as a CSV writer quotes it: between double quotes, with every
    double quote of the field doubled. *)
Fixpoint csvEscape (field : string) : string :=
  match field with
  | EmptyString => EmptyString
  | String c rest =>
      if Ascii.eqb c quoteChar
      then String quoteChar (String quoteChar (csvEscape rest))
      else String c (csvEscape rest)
  end.

Definition csvQuote (field : string) : string :=
  String quoteChar (csvEscape field ++ String quoteChar EmptyString).

(** The quoted fields, separated by commas. *)
Fixpoint csvJoin (fields : list string) : string :=
  match fields with
  | [] => EmptyString
  | [field] => csvQuote field
  | field :: rest => csvQuote field ++ "," ++ csvJoin rest
  end.

(** A line of three fields; the first holds a comma and the second is
    empty. *)
Definition quotedFields : list string := ["Acme, Inc."; EmptyString; "5"].

(** The text is empty or begins with a character that is not white
    space. *)
Definition headNotSpace (s : string) : Prop :=
  match s with
  | String c _ => isSpace c = false
  | EmptyString => True
  end.

(** The six names that [normalizeAssetType] substitutes. *)
Definition canonicalAssetTypes : list string :=
  ["Stock"; "Bond"; "Cash"; "Commodity"; "REIT"; "Crypto"].

(** An optional text that is not the empty string. *)
Definition optionalNonEmpty (o : option string) : bool :=
  match o with
  | Some s => nonEmpty s
  | None => true
  end.

(** [0 < percentage <= 100] *)
Definition percentageInRange (percentage : num) : bool :=
  (percentage >? Fin 0)%num && (percentage <=? Fin 100)%num.

Definition csvTargetOk (t : CsvTargetRow) : bool :=
  nonEmpty (c_assetType t)
  && percentageInRange (c_targetPercentage t)
  && optionalNonEmpty (c_assetCategory t)
  && optionalNonEmpty (c_instrument t)
  && optionalNonEmpty (c_isin t)
  && optionalNonEmpty (c_mainTicker t)
  && match c_otherTickers t with
     | Some l => (0 <? length l)%nat && forallb nonEmpty l
     | None => true
     end.

Definition excelTargetOk (t : ExcelTargetRow) : bool :=
  nonEmpty (x_assetType t)
  && percentageInRange (x_targetPercentage t)
  && optionalNonEmpty (x_assetCategory t)
  && optionalNonEmpty (x_isin t)
  && optionalNonEmpty (x_ticker t).

(** The two results with which [parseTargetCsv] turns a file down before it
    reads a data row. *)
Definition csvRejections : list ParsedCsvTargetsResult :=
  [ mkCsvResult [] []
      ["CSV file must have at least a header row and one data row"];
    mkCsvResult [] []
      [String.append "CSV file must contain "
         (String quoteChar
            (String.append "Asset Type"
               (String quoteChar
                  (String.append " and "
                     (String quoteChar
                        (String.append "%"
                           (String quoteChar " columns")))))))] ].

(** The note on the total of the percentages, for the total as it is
    shown. *)
Definition totalNote (shown : string) : string :=
  "Total target allocation is " ++ shown ++ "%, not 100%. "
  ++ "This may be intentional if some categories are excluded.".

(** A sheet whose header is its sixth row. *)
Definition lateHeaderSheet : list (list Cell) :=
  [ [CStr "My targets"]; [CStr "2025"]; [CStr "draft"]; [CStr "v2"];
    [CStr "---"]; [CStr "Asset Type"; CStr "%"]; [CStr "Stock"; CNum "100"] ].

(** ** Matching *)

(** A category-level target: no symbol and no alternative ticker. *)
Definition isCategoryTarget (JSON_parse : string -> option (list string))
    (t : TargetAllocation) : bool :=
  negb (truthyStr (t_symbol t))
  && (length (alternativeTickersOf JSON_parse t) =? 0)%nat.

(** The category-level targets stored under [key], in the order of the
    list. *)
Definition categoryTargetsFor (JSON_parse : string -> option (list string))
    (key : string) (targets : list TargetAllocation)
  : list TargetAllocation :=
  List.filter
    (fun t => isCategoryTarget JSON_parse t
              && String.eqb
                   (categoryKey (t_asset_type t) (t_asset_category t)) key)
    targets.

(** The holding matches some target by symbol, by ISIN or by category. *)
Definition hasMatch (JSON_parse : string -> option (list string))
    (targets : list TargetAllocation) (h : Holding) : bool :=
  hasSymbolMatch JSON_parse targets h || hasIsinMatch targets h
  || hasCategoryMatch JSON_parse targets h.

(** What the matcher leaves untouched in a holding. *)
Definition holdingIdentity (h : Holding)
  : Z * string * option string * Q * Q * Q :=
  (h_id h, h_symbol h, h_isin h, h_quantity h, h_price h, h_value_usd h).

(** [a] does not score below [b]. *)
Definition scoresAtLeast (a b : Suggestion) : Prop :=
  (sg_matchScore b <= sg_matchScore a)%Q.

(** The entry pushed to [unmatched] for a holding, if any. *)
Definition unmatchedOf (lk : TargetLookups)
    (targets : list TargetAllocation) (h : Holding)
  : option UnmatchedHolding :=
  match findMatch lk h with
  | Some _ => None
  | None =>
      Some (mkUnmatched h (findSuggestedMatches h targets)
              (inferAssetType h))
  end.

(** ** Rebalancing *)

Definition statusRank (s : Status) : nat :=
  match s with
  | needs_buy => 0
  | needs_sell => 1
  | balanced => 2
  end.

(** The status of [a] does not come after that of [b]. *)
Definition statusNotAfter (a b : AssetStatus) : Prop :=
  (statusRank (s_status a) <= statusRank (s_status b))%nat.

(** [a] is listed before [b]: by status, and within a status by the larger
    absolute deviation. *)
Definition listedBefore (a b : AssetStatus) : Prop :=
  (statusRank (s_status a) < statusRank (s_status b))%nat
  \/ (s_status a = s_status b
      /\ (abs (s_deviation b) <=? abs (s_deviation a))%num = true).

(** The deviation of [a] is at least that of [b] in absolute value. *)
Definition deviatesAtLeast (a b : RebalancingAction) : Prop :=
  (abs (a_deviation b) <=? abs (a_deviation a))%num = true.

(** The plan of a portfolio without positions. *)
Definition emptyPlan (totalValue : Q) : RebalancingPlan :=
  mkPlan [] [] (Fin totalValue) (Fin 0) (Fin 0) (Fin 0 - Fin 0)%num.

(** ** CSV statements *)

Definition csvHoldingOk (h : ParsedCsvHolding) : bool :=
  nonEmpty (k_symbol h) && negb (String.eqb (k_symbol h) "Total")
  && (k_price h >? Fin 0)%num
  && optionalNonEmpty (k_currency h)
  && optionalNonEmpty (k_assetCategory h).

(** The first field of the line is [section]. *)
Definition firstFieldIs (section : string) (line : string) : bool :=
  partIs (statementParts line) 0 section.

(** A statement with two positions and a total row, and no other section. *)
Definition positionsOnlyCsv : string :=
  joinLines
    ["Open Positions,Header,DataDiscriminator,Asset Category,Currency,Symbol,Quantity,Mult,Cost Price,Cost Basis,Close Price,Value,Unrealized P/L,Code";
     "Open Positions,Data,Summary,Stocks,USD,VTI,10,1,200,2000,250,2500,500,";
     "Open Positions,Data,Summary,Stocks,EUR,IWDA,4,1,80,320,100,400,80,";
     "Open Positions,Data,Total,,USD,,,,,2320,,2900,580,"].

(** ** PDF statements *)

Definition m2mHoldingOk (h : ParsedHolding) : Prop :=
  isUpperWord (p_symbol h) = true
  /\ (p_quantity h >? Fin 0)%num = true
  /\ (p_price h >? Fin 0)%num = true
  /\ p_value h = (p_quantity h * p_price h)%num
  /\ p_currency h = None.

(** A text with a Mark-to-Market section of one position and nothing
    else. *)
Definition m2mOnlyText : string :=
  joinLines
    ["Mark-to-Market Performance Summary";
     "Symbol Prior Quantity Current Quantity Prior Price Current Price";
     "Stocks VTI 10 12 240.00 250.00 0 0";
     "Total 0 0 0 0 0 0";
     "Realized and Unrealized Performance Summary"].

(** ** Ticker lookups *)

Definition confidenceRank (c : Confidence) : nat :=
  match c with
  | high => 0
  | medium => 1
  | low => 2
  end.

(** Two listings of one fund and a less certain third. *)
Definition fundListings : ISINLookupResult :=
  mkIsinLookup
    [ mkTicker "VWRL.AS" (Some "AMS") None medium;
      mkTicker "VWRL.L" (Some "LSE") None high;
      mkTicker "VT" (Some "NYQ") None high;
      mkTicker "VWRL.L" (Some "LSE") None low ]
    "IE00B3RBWM25" None None.

(** ** Snapshots *)

Fixpoint sumOf (l : list Q) : Q :=
  match l with
  | [] => 0
  | x :: rest => x + sumOf rest
  end.

Definition allocationValues (m : AllocationsByType) : list Q :=
  map (fun kd => d_value kd.2) m.

(** Three holdings in two categories. *)
Definition snapshotHoldings : list Holding :=
  [ mkHolding 1 "VTI" None "Stock" (Some "US Stock market") 10 250 2500;
    mkHolding 2 "BND" None "Bond" None 20 75 1500;
    mkHolding 3 "VOO" None "Stock" (Some "US Stock market") 2 500 1000 ].

(* ===================================================================== *)
(** * Proofs *)
(* ===================================================================== *)

Local Close Scope string_scope.

(** ** Facts about numbers *)

Lemma Qltb_lt (a b : Q) : Qltb a b = true <-> (a < b)%Q.
Proof.
  unfold Qltb. rewrite Qlt_alt. destruct (a ?= b)%Q; split; congruence.
Qed.

Lemma Qltb_ge (a b : Q) : Qltb a b = false <-> (b <= a)%Q.
Proof.
  rewrite <- not_true_iff_false, Qltb_lt. split; [apply Qnot_lt_le | apply Qle_not_lt].
Qed.

Lemma Qle_bool_gt (a b : Q) : Qle_bool a b = false <-> (b < a)%Q.
Proof.
  rewrite <- not_true_iff_false, Qle_bool_iff.
  split; [apply Qnot_le_lt | apply Qlt_not_le].
Qed.

Lemma Qeq_bool_ne (a b : Q) : Qeq_bool a b = false <-> ~ (a == b)%Q.
Proof. by rewrite <- not_true_iff_false, Qeq_bool_iff. Qed.

(** Turns the boolean comparisons of the context into propositions. *)
Ltac qprops :=
  repeat match goal with
    | H : Qltb _ _ = true |- _ => apply Qltb_lt in H
    | H : Qltb _ _ = false |- _ => apply Qltb_ge in H
    | H : Qle_bool _ _ = true |- _ => apply Qle_bool_iff in H
    | H : Qle_bool _ _ = false |- _ => apply Qle_bool_gt in H
    | H : Qeq_bool _ _ = true |- _ => apply Qeq_bool_iff in H
    | H : Qeq_bool _ _ = false |- _ => apply Qeq_bool_ne in H
    | |- Qltb _ _ = true => apply Qltb_lt
    | |- Qltb _ _ = false => apply Qltb_ge
    | |- Qle_bool _ _ = true => apply Qle_bool_iff
    | |- Qle_bool _ _ = false => apply Qle_bool_gt
    | |- Qeq_bool _ _ = true => apply Qeq_bool_iff
    | |- Qeq_bool _ _ = false => apply Qeq_bool_ne
    end.

Lemma leb_Fin (a b : Q) : (Fin a <=? Fin b)%num = true <-> (a <= b)%Q.
Proof. apply Qle_bool_iff. Qed.

Lemma ltb_Fin (a b : Q) : (Fin a <? Fin b)%num = true <-> (a < b)%Q.
Proof. apply Qltb_lt. Qed.

Lemma gtb_Fin (a b : Q) : (Fin a >? Fin b)%num = true <-> (b < a)%Q.
Proof. apply Qltb_lt. Qed.

Lemma div_100 (t : Q) : (Fin t / Fin 100)%num = Fin (t / 100).
Proof. reflexivity. Qed.

Lemma finNonneg_add (x y : num) : finNonneg x -> finNonneg y -> finNonneg (x + y)%num.
Proof.
  intros (a & -> & Ha) (b & -> & Hb). exists (a + b)%Q. split; [reflexivity | lra].
Qed.

Lemma finNonneg_leb (x : num) : finNonneg x -> (Fin 0 <=? x)%num = true.
Proof. intros (a & -> & Ha). by apply leb_Fin. Qed.

(** ** Sorting keeps the elements *)

Lemma sortInsert_perm {A} (cmp : A -> A -> num) (x : A) (l : list A) :
  Permutation (sortInsert cmp x l) (x :: l).
Proof.
  induction l as [|y l IH]; cbn [sortInsert]; [done|].
  destruct (cmp x y >? Fin 0)%num; [|done].
  rewrite IH. apply perm_swap.
Qed.

Lemma jsSort_perm {A} (cmp : A -> A -> num) (l : list A) :
  Permutation (jsSort cmp l) l.
Proof.
  induction l as [|x l IH]; simpl; [done|].
  rewrite sortInsert_perm. by constructor.
Qed.

Lemma elem_of_jsSort {A} (cmp : A -> A -> num) (l : list A) (x : A) :
  x ∈ jsSort cmp l <-> x ∈ l.
Proof. by rewrite (jsSort_perm cmp l). Qed.

(** ** The loop over [tickerAllocations] *)

Section PlanLoop.
Variables (tv : Q) (tol : num) (tm cm : gmap string Q).

Local Abbreviation assetOf := (assetOf tv tol tm cm).
Local Abbreviation actionOf := (actionOf tv tol tm cm).

Lemma planStep_assets st kv :
  l_allAssets (planStep tv tol tm cm st kv) = l_allAssets st ++ [assetOf kv].
Proof.
  destruct kv as [k e]. unfold planStep, assetOf. simpl.
  destruct (entryAction tv tol tm cm k e) as [act|]; [|done].
  by destruct (a_action act).
Qed.

Lemma planStep_actions st kv :
  l_actions (planStep tv tol tm cm st kv)
  = l_actions st ++ from_option (fun a => [a]) [] (actionOf kv).
Proof.
  destruct kv as [k e]. unfold planStep, actionOf. simpl.
  destruct (entryAction tv tol tm cm k e) as [act|]; simpl.
  - by destruct (a_action act).
  - by rewrite app_nil_r.
Qed.

Lemma plan_fold_assets entries st :
  l_allAssets (fold_left (planStep tv tol tm cm) entries st)
  = l_allAssets st ++ map assetOf entries.
Proof.
  revert st. induction entries as [|kv entries IH]; intros st; simpl.
  - by rewrite app_nil_r.
  - rewrite IH, planStep_assets, <- app_assoc. done.
Qed.

Lemma plan_fold_actions entries st :
  l_actions (fold_left (planStep tv tol tm cm) entries st)
  = l_actions st ++ omap actionOf entries.
Proof.
  revert st. induction entries as [|kv entries IH]; intros st; simpl.
  - by rewrite app_nil_r.
  - rewrite IH, planStep_actions, <- app_assoc.
    by destruct (actionOf kv).
Qed.

(** The amount of an action: what is bought is positive; what is sold is
    the holding's whole value (forced exit) or an absolute value. *)
Lemma entryAction_amount k e act :
  entryAction tv tol tm cm k e = Some act ->
  (a_action act = BUY /\ exists q, a_amount act = Fin q /\ (0 < q)%Q)
  \/ (a_action act = SELL /\ a_amount act = Fin (h_value_usd (e_holding e)))
  \/ (a_action act = SELL /\ finNonneg (a_amount act)).
Proof.
  unfold entryAction, actionFor.
  destruct (resolveTarget tm cm k e) as [t hasAny].
  rewrite div_100.
  change (Fin (t / 100) * Fin tv - Fin (h_value_usd (e_holding e)))%num
    with (Fin (t / 100 * tv + - h_value_usd (e_holding e))).
  generalize (t / 100 * tv + - h_value_usd (e_holding e))%Q. intros adj.
  destruct (_ || _); [|done].
  destruct (trulyUnmapped _ _ _).
  - intros [= <-]. right. left. done.
  - destruct (Fin adj >? Fin 0)%num eqn:Hpos.
    + intros [= <-]. left. split; [done|]. exists adj. split; [done|].
      by apply gtb_Fin.
    + intros [= <-]. right. right. split; [done|]. exists (Qabs adj).
      split; [done|]. apply Qabs_nonneg.
Qed.

Lemma planStep_totalBuy st kv :
  finNonneg (l_totalBuy st) ->
  finNonneg (l_totalBuy (planStep tv tol tm cm st kv)).
Proof.
  intros Hb. destruct kv as [k e]. unfold planStep.
  destruct (entryAction tv tol tm cm k e) as [act|] eqn:Hact; [|done].
  destruct (entryAction_amount _ _ _ Hact) as [(Hk & q & Hq & Hpos)|[[Hk _]|[Hk _]]];
    rewrite Hk; simpl; [|done..].
  apply finNonneg_add; [done|]. exists q. split; [done|lra].
Qed.

Lemma planStep_totalSell st kv :
  (0 <= h_value_usd (e_holding kv.2))%Q ->
  finNonneg (l_totalSell st) ->
  finNonneg (l_totalSell (planStep tv tol tm cm st kv)).
Proof.
  intros Hv Hs. destruct kv as [k e]. unfold planStep.
  destruct (entryAction tv tol tm cm k e) as [act|] eqn:Hact; [|done].
  destruct (entryAction_amount _ _ _ Hact) as [(Hk & _)|[[Hk Ha]|[Hk Ha]]];
    rewrite Hk; simpl; [done| |].
  - apply finNonneg_add; [done|]. rewrite Ha. by eexists.
  - by apply finNonneg_add.
Qed.

Lemma plan_fold_totalBuy entries st :
  finNonneg (l_totalBuy st) ->
  finNonneg (l_totalBuy (fold_left (planStep tv tol tm cm) entries st)).
Proof.
  revert st. induction entries as [|kv entries IH]; intros st Hb; simpl; [done|].
  by apply IH, planStep_totalBuy.
Qed.

Lemma plan_fold_totalSell entries st :
  Forall (fun kv => (0 <= h_value_usd (e_holding kv.2))%Q) entries ->
  finNonneg (l_totalSell st) ->
  finNonneg (l_totalSell (fold_left (planStep tv tol tm cm) entries st)).
Proof.
  revert st. induction entries as [|kv entries IH]; intros st Hall Hs; simpl; [done|].
  inversion Hall; subst. by apply IH, planStep_totalSell.
Qed.
End PlanLoop.

(** ** [tickerAllocations] as an insertion-ordered map *)

Lemma allocGet_None (k : string) (m : AllocMap) :
  allocGet k m = None <-> k ∉ allocKeys m.
Proof.
  induction m as [|[k' e] m IH]; simpl.
  - split; [intros _; apply not_elem_of_nil | done].
  - rewrite not_elem_of_cons. destruct (String.eqb_spec k' k) as [->|Hne].
    + split; [done | intros [? _]; done].
    + rewrite IH. split; [intros ?; split; congruence | intros [_ ?]; done].
Qed.

Lemma allocGet_elem (k : string) (e : AllocEntry) (m : AllocMap) :
  allocGet k m = Some e -> (k, e) ∈ m.
Proof.
  induction m as [|[k' e'] m IH]; simpl; [done|].
  destruct (String.eqb_spec k' k) as [->|Hne].
  - intros [= ->]. apply list_elem_of_here.
  - intros H. apply list_elem_of_further. by apply IH.
Qed.

Lemma elem_allocGet (k : string) (e : AllocEntry) (m : AllocMap) :
  NoDup (allocKeys m) -> (k, e) ∈ m -> allocGet k m = Some e.
Proof.
  induction m as [|[k' e'] m IH]; simpl; intros Hnd Hin.
  - by apply elem_of_nil in Hin.
  - apply NoDup_cons in Hnd as [Hnotin Hnd].
    apply elem_of_cons in Hin as [[= -> ->]|Hin].
    + by rewrite String.eqb_refl.
    + destruct (String.eqb_spec k' k) as [->|Hne]; [|by apply IH].
      exfalso. apply Hnotin. apply (list_elem_of_fmap_2 fst) in Hin. done.
Qed.

Lemma allocKeys_bump (k : string) (a : num) (m : AllocMap) :
  allocKeys (allocBump k a m) = allocKeys m.
Proof.
  induction m as [|[k' e] m IH]; simpl; [done|].
  destruct (String.eqb k' k); simpl; [done | by rewrite IH].
Qed.

Lemma allocGet_bump (k k' : string) (a : num) (m : AllocMap) :
  allocGet k (allocBump k' a m)
  = if String.eqb k' k then bumped a <$> allocGet k m else allocGet k m.
Proof.
  induction m as [|[k0 e] m IH]; simpl.
  - by destruct (String.eqb k' k).
  - destruct (String.eqb_spec k0 k') as [->|Hne0]; simpl.
    + destruct (String.eqb_spec k' k) as [->|Hne]; [done|done].
    + rewrite IH. destruct (String.eqb_spec k0 k) as [->|Hne].
      * destruct (String.eqb_spec k' k) as [->|?]; [done|done].
      * done.
Qed.

Lemma allocGet_snoc (k k' : string) (e : AllocEntry) (m : AllocMap) :
  allocGet k (m ++ [(k', e)])
  = match allocGet k m with
    | Some x => Some x
    | None => if String.eqb k' k then Some e else None
    end.
Proof.
  induction m as [|[k0 e0] m IH]; simpl; [done|].
  by destruct (String.eqb k0 k).
Qed.

Section Allocations.
Variables (tv : Q) (maps : gmap string string).

Local Abbreviation contributes := (contributes maps).
Local Abbreviation contributors := (contributors maps).
Local Abbreviation entryOf := (entryOf tv maps).

Lemma entryOf_snoc (group : list Holding) (h : Holding) :
  entryOf (group ++ [h])
  = match entryOf group with
    | Some e => Some (bumped (holdingAllocation tv h) e)
    | None => Some (mkEntry h (holdingAllocation tv h)
                      (orUndefined (mappedSymbolOf maps h)))
    end.
Proof.
  destruct group as [|first others]; simpl; [done|].
  unfold bumped; simpl. by rewrite fold_left_app.
Qed.

Lemma buildAllocations_snoc (holdings : list Holding) (h : Holding) :
  buildAllocations (holdings ++ [h]) tv maps
  = allocStep tv maps (buildAllocations holdings tv maps) h.
Proof. unfold buildAllocations. by rewrite fold_left_app. Qed.

Lemma buildAllocations_NoDup (holdings : list Holding) :
  NoDup (allocKeys (buildAllocations holdings tv maps)).
Proof.
  induction holdings as [|h holdings IH] using rev_ind; [constructor|].
  rewrite buildAllocations_snoc. unfold allocStep.
  destruct (isCash h); [done|].
  destruct (allocGet _ _) eqn:Hget.
  - by rewrite allocKeys_bump.
  - unfold allocKeys. rewrite map_app. simpl.
    apply NoDup_app. split; [done|]. split.
    + intros x Hx Hx'. apply list_elem_of_singleton in Hx'. subst x.
      by apply allocGet_None in Hget.
    + apply NoDup_singleton.
Qed.

(** Each entry is the one built from the contributors of its key. *)
Lemma allocGet_build (k : string) (holdings : list Holding) :
  allocGet k (buildAllocations holdings tv maps)
  = entryOf (contributors k holdings).
Proof.
  induction holdings as [|h holdings IH] using rev_ind; [done|].
  rewrite buildAllocations_snoc. unfold contributors in *.
  rewrite List.filter_app. simpl. unfold allocStep, contributes at 2.
  destruct (isCash h); simpl.
  { by rewrite app_nil_r. }
  destruct (allocGet (keySymbolOf maps h) _) eqn:Hget.
  - rewrite allocGet_bump.
    destruct (String.eqb_spec (keySymbolOf maps h) k) as [Heq|Hne].
    + subst k. rewrite entryOf_snoc, <- IH, Hget. done.
    + by rewrite app_nil_r.
  - rewrite allocGet_snoc, IH.
    destruct (String.eqb_spec (keySymbolOf maps h) k) as [Heq|Hne].
    + subst k. rewrite entryOf_snoc. rewrite <- IH, Hget. done.
    + rewrite app_nil_r. by destruct (entryOf _).
Qed.

Lemma build_entry (k : string) (e : AllocEntry) (holdings : list Holding) :
  (k, e) ∈ buildAllocations holdings tv maps ->
  entryOf (contributors k holdings) = Some e.
Proof.
  intros Hin. rewrite <- allocGet_build.
  apply elem_allocGet; [apply buildAllocations_NoDup | done].
Qed.

(** The holding of an entry: a holding of the input that is not cash and
    whose effective symbol is the key. *)
Lemma build_entry_holding (k : string) (e : AllocEntry)
    (holdings : list Holding) :
  (k, e) ∈ buildAllocations holdings tv maps ->
  e_holding e ∈ holdings /\ isCash (e_holding e) = false
  /\ keySymbolOf maps (e_holding e) = k
  /\ e_mappedSymbol e = orUndefined (mappedSymbolOf maps (e_holding e)).
Proof.
  intros Hin. apply build_entry in Hin.
  destruct (contributors k holdings) as [|first others] eqn:Hc; [done|].
  injection Hin as <-. simpl.
  assert (first ∈ contributors k holdings) as Hf.
  { rewrite Hc. apply list_elem_of_here. }
  unfold contributors in Hf. apply list_elem_of_In, filter_In in Hf as [Hf1 Hf2].
  apply list_elem_of_In in Hf1.
  unfold contributes in Hf2. apply andb_true_iff in Hf2 as [Hf2 Hf3].
  apply negb_true_iff in Hf2. apply String.eqb_eq in Hf3. done.
Qed.

(** The symbol looked up first in the ticker map is the key itself. *)
Lemma build_entry_targetSymbol (k : string) (e : AllocEntry)
    (holdings : list Holding) :
  (k, e) ∈ buildAllocations holdings tv maps ->
  orStr (e_mappedSymbol e) k = k.
Proof.
  intros Hin. apply build_entry_holding in Hin as (_ & _ & <- & ->).
  unfold keySymbolOf, orUndefined, truthyStr, orStr.
  destruct (mappedSymbolOf maps (e_holding e)) as [s|]; [|done].
  destruct (nonEmpty s) eqn:Hs; simpl; [|done]. by rewrite Hs.
Qed.
End Allocations.

(** ** The target maps *)

Section TargetMaps.
Variable JSON_parse : string -> option (list string).

Local Abbreviation tickerKeys := (tickerKeys JSON_parse).
Local Abbreviation hasTickerTarget := (hasTickerTarget JSON_parse).

Lemma setAltTickers_lookup (pct : Q) (alts : list string)
    (m : gmap string Q) (k : string) :
  is_Some (setAltTickers pct alts m !! k)
  <-> is_Some (m !! k)
      \/ existsb (String.eqb k) (map toUpperCase (List.filter nonEmpty alts))
         = true.
Proof.
  unfold setAltTickers. revert m.
  induction alts as [|a alts IH]; intros m; simpl.
  - split; [by left | intros [?|?]; done].
  - rewrite IH. destruct (nonEmpty a); simpl; [|done].
    rewrite lookup_insert_is_Some, orb_true_iff, String.eqb_eq.
    split.
    + intros [[-> | [_ ?]] | ?]; auto.
    + intros [? | [-> | ?]]; auto.
      destruct (decide (toUpperCase a = k)); auto.
Qed.

Lemma targetMapsStep_ticker (maps : gmap string Q * gmap string Q)
    (t : TargetAllocation) (k : string) :
  is_Some ((targetMapsStep JSON_parse maps t).1 !! k)
  <-> is_Some (maps.1 !! k) \/ existsb (String.eqb k) (tickerKeys t) = true.
Proof.
  destruct maps as [tm cm]. unfold targetMapsStep, tickerKeys. simpl.
  destruct (t_symbol t) as [sym|]; simpl.
  - destruct (nonEmpty sym); simpl.
    + rewrite setAltTickers_lookup, lookup_insert_is_Some.
      rewrite orb_true_iff, String.eqb_eq.
      split.
      * intros [[-> | [_ ?]] | ?]; auto.
      * intros [? | [-> | ?]]; auto.
        destruct (decide (toUpperCase sym = k)); auto.
    + split; [by left | intros [?|?]; done].
  - split; [by left | intros [?|?]; done].
Qed.

Lemma targetMapsStep_category (maps : gmap string Q * gmap string Q)
    (t : TargetAllocation) (key : string) :
  is_Some ((targetMapsStep JSON_parse maps t).2 !! key)
  <-> is_Some (maps.2 !! key)
      \/ negb (truthyStr (t_symbol t))
         && String.eqb key (categoryKey (t_asset_type t) (t_asset_category t))
         = true.
Proof.
  destruct maps as [tm cm]. unfold targetMapsStep, truthyStr. simpl.
  destruct (t_symbol t) as [sym|]; simpl.
  - destruct (nonEmpty sym); simpl.
    + split; [by left | intros [?|?]; done].
    + rewrite lookup_insert_is_Some, String.eqb_eq.
      split.
      * intros [-> | [_ ?]]; auto.
      * intros [? | ->]; auto.
        destruct (decide (categoryKey (t_asset_type t) (t_asset_category t)
                          = key)); auto.
  - rewrite lookup_insert_is_Some, String.eqb_eq.
    split.
    + intros [-> | [_ ?]]; auto.
    + intros [? | ->]; auto.
      destruct (decide (categoryKey (t_asset_type t) (t_asset_category t)
                        = key)); auto.
Qed.

Lemma fold_targetMaps (targets : list TargetAllocation)
    (maps : gmap string Q * gmap string Q) (k key : string) :
  (is_Some ((fold_left (targetMapsStep JSON_parse) targets maps).1 !! k)
   <-> is_Some (maps.1 !! k) \/ hasTickerTarget targets k = true)
  /\ (is_Some ((fold_left (targetMapsStep JSON_parse) targets maps).2 !! key)
      <-> is_Some (maps.2 !! key) \/ hasCategoryTarget targets key = true).
Proof.
  revert maps. induction targets as [|t targets IH]; intros maps; simpl.
  - split; (split; [by left | intros [?|?]; done]).
  - destruct (IH (targetMapsStep JSON_parse maps t)) as [IH1 IH2].
    rewrite IH1, IH2, targetMapsStep_ticker, targetMapsStep_category.
    rewrite !orb_true_iff. tauto.
Qed.

(** The ticker map has an entry for a symbol exactly when some target is a
    ticker-level target for it; likewise for the category map. *)
Lemma tickerMap_is_Some (targets : list TargetAllocation) (k : string) :
  is_Some ((buildTargetMaps JSON_parse targets).1 !! k)
  <-> hasTickerTarget targets k = true.
Proof.
  unfold buildTargetMaps.
  rewrite (proj1 (fold_targetMaps targets (∅, ∅) k k)). simpl.
  rewrite lookup_empty. split; [intros [[? ?]|?]; done | by right].
Qed.

Lemma categoryMap_is_Some (targets : list TargetAllocation) (key : string) :
  is_Some ((buildTargetMaps JSON_parse targets).2 !! key)
  <-> hasCategoryTarget targets key = true.
Proof.
  unfold buildTargetMaps.
  rewrite (proj2 (fold_targetMaps targets (∅, ∅) key key)). simpl.
  rewrite lookup_empty. split; [intros [[? ?]|?]; done | by right].
Qed.

Lemma tickerMap_None (targets : list TargetAllocation) (k : string) :
  hasTickerTarget targets k = false ->
  (buildTargetMaps JSON_parse targets).1 !! k = None.
Proof.
  intros H. apply eq_None_not_Some. rewrite tickerMap_is_Some. congruence.
Qed.

Lemma categoryMap_None (targets : list TargetAllocation) (key : string) :
  hasCategoryTarget targets key = false ->
  (buildTargetMaps JSON_parse targets).2 !! key = None.
Proof.
  intros H. apply eq_None_not_Some. rewrite categoryMap_is_Some. congruence.
Qed.
End TargetMaps.

(** ** The plan *)

Section Plan.
Variable JSON_parse : string -> option (list string).
Variables (holdings : list Holding) (targets : list TargetAllocation).
Variables (tv : Q) (tol : num) (maps : gmap string string).

Let tm := (buildTargetMaps JSON_parse targets).1.
Let cm := (buildTargetMaps JSON_parse targets).2.
Let entries := buildAllocations holdings tv maps.
Let plan := calculateRebalancing JSON_parse holdings targets tv tol maps.

Lemma plan_allAssets :
  Permutation (allAssets plan) (map (assetOf tv tol tm cm) entries).
Proof.
  unfold plan, calculateRebalancing, tm, cm, entries.
  destruct (buildTargetMaps JSON_parse targets) as [tm' cm']. simpl.
  rewrite jsSort_perm, plan_fold_assets. done.
Qed.

Lemma plan_actions :
  Permutation (actions plan) (omap (actionOf tv tol tm cm) entries).
Proof.
  unfold plan, calculateRebalancing, tm, cm, entries.
  destruct (buildTargetMaps JSON_parse targets) as [tm' cm']. simpl.
  rewrite jsSort_perm, plan_fold_actions. done.
Qed.

Lemma plan_totals :
  totalBuy plan
  = l_totalBuy (fold_left (planStep tv tol tm cm) entries
                  (mkLoop [] [] (Fin 0) (Fin 0)))
  /\ totalSell plan
     = l_totalSell (fold_left (planStep tv tol tm cm) entries
                      (mkLoop [] [] (Fin 0) (Fin 0)))
  /\ netCashNeeded plan = (totalBuy plan - totalSell plan)%num.
Proof.
  unfold plan, calculateRebalancing, tm, cm, entries.
  by destruct (buildTargetMaps JSON_parse targets) as [tm' cm'].
Qed.

Lemma entry_asset_in_plan (k : string) (e : AllocEntry) :
  (k, e) ∈ entries -> assetFor tv tol tm cm k e ∈ allAssets plan.
Proof.
  intros Hin. rewrite plan_allAssets.
  by apply (list_elem_of_fmap_2 (assetOf tv tol tm cm)) in Hin.
Qed.

Lemma entry_action_in_plan (k : string) (e : AllocEntry)
    (act : RebalancingAction) :
  (k, e) ∈ entries -> entryAction tv tol tm cm k e = Some act ->
  act ∈ actions plan.
Proof.
  intros Hin Hact. rewrite plan_actions. apply list_elem_of_omap.
  by exists (k, e).
Qed.
End Plan.

Section FullExit.
Variable JSON_parse : string -> option (list string).

Lemma resolveTarget_unmapped (targets : list TargetAllocation)
    (holdings : list Holding) (tv : Q) (maps : gmap string string)
    (k : string) (e : AllocEntry) :
  (k, e) ∈ buildAllocations holdings tv maps ->
  hasTickerTarget JSON_parse targets k = false ->
  hasTickerTarget JSON_parse targets (toUpperCase (h_symbol (e_holding e)))
  = false ->
  hasCategoryTarget targets
    (categoryKey (h_asset_type (e_holding e)) (h_asset_category (e_holding e)))
  = false ->
  resolveTarget (buildTargetMaps JSON_parse targets).1
    (buildTargetMaps JSON_parse targets).2 k e = (0%Q, false).
Proof.
  intros Hin H1 H2 H3. unfold resolveTarget.
  rewrite (build_entry_targetSymbol _ _ _ _ _ Hin).
  rewrite (tickerMap_None _ _ _ H1), (tickerMap_None _ _ _ H2).
  by rewrite (categoryMap_None _ _ _ H3).
Qed.

(** C2.  An effective symbol with no ticker-level target (neither under the
    effective symbol nor under the holding's own symbol) and no
    category-level target, and with a positive current allocation, is
    reported [needs_sell] whatever the tolerance, and a SELL action for the
    whole current value is emitted, with quantity value / price. *)
Theorem unmapped_holding_full_exit (holdings : list Holding)
    (targets : list TargetAllocation) (tv : Q) (tol : num)
    (maps : gmap string string) (k : string) (e : AllocEntry) :
  allocGet k (buildAllocations holdings tv maps) = Some e ->
  hasTickerTarget JSON_parse targets k = false ->
  hasTickerTarget JSON_parse targets (toUpperCase (h_symbol (e_holding e)))
  = false ->
  hasCategoryTarget targets
    (categoryKey (h_asset_type (e_holding e)) (h_asset_category (e_holding e)))
  = false ->
  (e_allocation e >? Fin 0)%num = true ->
  let plan := calculateRebalancing JSON_parse holdings targets tv tol maps in
  let holding := e_holding e in
  (exists asset, asset ∈ allAssets plan
     /\ s_symbol asset = h_symbol holding
     /\ s_currentAllocation asset = e_allocation e
     /\ s_targetAllocation asset = Fin 0
     /\ s_currentValue asset = Fin (h_value_usd holding)
     /\ s_status asset = needs_sell)
  /\ (exists act, act ∈ actions plan
        /\ a_symbol act = h_symbol holding
        /\ a_action act = SELL
        /\ a_status act = needs_sell
        /\ a_amount act = Fin (h_value_usd holding)
        /\ a_quantity act
           = (Fin (h_value_usd holding) / Fin (h_price holding))%num).
Proof.
  intros Hget H1 H2 H3 Hpos plan holding.
  apply allocGet_elem in Hget.
  pose proof (resolveTarget_unmapped targets holdings tv maps k e
                Hget H1 H2 H3) as Hres.
  assert (trulyUnmapped false (Fin 0) (e_allocation e) = true) as Hun.
  { unfold trulyUnmapped. by rewrite Hpos. }
  split.
  - exists (assetFor tv tol (buildTargetMaps JSON_parse targets).1
              (buildTargetMaps JSON_parse targets).2 k e).
    split; [by apply entry_asset_in_plan|].
    unfold assetFor. rewrite Hres. cbn [s_symbol s_currentAllocation
      s_targetAllocation s_currentValue s_status].
    repeat split. unfold classify. by rewrite Hun.
  - eexists. split.
    + eapply entry_action_in_plan; [exact Hget|].
      unfold entryAction. rewrite Hres. unfold actionFor.
      rewrite Hun, orb_true_r. reflexivity.
    + done.
Qed.
End FullExit.

Lemma unmapped_holding_full_exit_witness :
  (exists asset, asset ∈ allAssets exitPlan
     /\ s_symbol asset = h_symbol xyzHolding
     /\ s_currentAllocation asset = holdingAllocation 10000 xyzHolding
     /\ s_targetAllocation asset = Fin 0
     /\ s_currentValue asset = Fin (h_value_usd xyzHolding)
     /\ s_status asset = needs_sell)
  /\ (exists act, act ∈ actions exitPlan
        /\ a_symbol act = h_symbol xyzHolding
        /\ a_action act = SELL
        /\ a_status act = needs_sell
        /\ a_amount act = Fin (h_value_usd xyzHolding)
        /\ a_quantity act
           = (Fin (h_value_usd xyzHolding) / Fin (h_price xyzHolding))%num).
Proof.
  apply (unmapped_holding_full_exit noJson exitHoldings
           [tickerTarget "VTI" 95] 10000 (Fin 10) ∅ "XYZ"
           (mkEntry xyzHolding (holdingAllocation 10000 xyzHolding) None));
    vm_compute; reflexivity.
Defined.

Lemma allocStep_cash (tv : Q) (maps : gmap string string) (m : AllocMap)
    (h : Holding) :
  isCash h = true -> allocStep tv maps m h = m.
Proof. intros Hc. unfold allocStep. by rewrite Hc. Qed.

Lemma buildAllocations_without_cash (tv : Q) (maps : gmap string string)
    (holdings : list Holding) :
  buildAllocations (List.filter (fun h => negb (isCash h)) holdings) tv maps
  = buildAllocations holdings tv maps.
Proof.
  unfold buildAllocations. generalize (@nil (string * AllocEntry)).
  induction holdings as [|h hs IH]; intros acc; simpl; [done|].
  destruct (isCash h) eqn:Hc; simpl.
  - by rewrite allocStep_cash.
  - apply IH.
Qed.

Section PlanTotals.
Variable JSON_parse : string -> option (list string).

(** [x === x] fails for NaN only. *)
Lemma eqb_same (x : num) : (x =? x)%num = negb (isNaN x).
Proof. destruct x as [q| | |]; simpl; try done. by apply Qeq_bool_iff. Qed.


(** C4 (amended).  A holding whose symbol is CASH in any letter case never
    appears in [allAssets] or in [actions], and the plan is the one that
    is computed without the CASH holdings for the same [totalValue]: such
    a holding acts on the plan only through the total the caller passes. *)
Theorem cash_never_listed (holdings : list Holding)
    (targets : list TargetAllocation) (tv : Q) (tol : num)
    (maps : gmap string string) :
  let plan := calculateRebalancing JSON_parse holdings targets tv tol maps in
  (forall asset, asset ∈ allAssets plan ->
     toUpperCase (s_symbol asset) <> "CASH"%string)
  /\ (forall act, act ∈ actions plan ->
        toUpperCase (a_symbol act) <> "CASH"%string)
  /\ plan = calculateRebalancing JSON_parse
              (List.filter (fun h => negb (isCash h)) holdings)
              targets tv tol maps.
Proof.
  intros plan. split; [|split].
  - intros asset Hin. unfold plan in Hin. rewrite plan_allAssets in Hin.
    apply list_elem_of_fmap in Hin as ([k e] & -> & Hin).
    apply build_entry_holding in Hin as (_ & Hcash & _).
    unfold assetOf, assetFor. simpl.
    destruct (resolveTarget _ _ _ _). simpl.
    unfold isCash in Hcash. by apply String.eqb_neq.
  - intros act Hin. unfold plan in Hin. rewrite plan_actions in Hin.
    apply list_elem_of_omap in Hin as ([k e] & Hin & Hact).
    apply build_entry_holding in Hin as (_ & Hcash & _).
    unfold actionOf, entryAction in Hact. simpl in Hact.
    destruct (resolveTarget _ _ _ _).
    unfold actionFor in Hact.
    assert (toUpperCase (h_symbol (e_holding e)) <> "CASH"%string) as Hne.
    { unfold isCash in Hcash. by apply String.eqb_neq. }
    repeat (match type of Hact with
            | (if ?b then _ else _) = _ => destruct b
            end); by try (injection Hact as <-).
  - unfold plan, calculateRebalancing.
    by rewrite buildAllocations_without_cash.
Qed.

(** C5, inclusive boundary: a position that has a target and whose
    absolute deviation equals the tolerance is [balanced]. *)
Lemma tolerance_boundary_inclusive (targetPct currentPct deviation
    tolerance : num) :
  (abs deviation =? tolerance)%num = true ->
  classify true targetPct currentPct deviation tolerance = balanced.
Proof.
  intros Heq. unfold classify, trulyUnmapped. simpl.
  destruct (_ && _); [done|].
  assert ((abs deviation <=? tolerance)%num = true) as ->; [|done].
  destruct (abs deviation) as [a| | |], tolerance as [b| | |]; try done.
  simpl in *. apply Qeq_bool_iff in Heq. apply Qle_bool_iff. lra.
Qed.
End PlanTotals.



Lemma cash_never_listed_witness :
  (forall asset, asset ∈ allAssets cashPlan ->
     toUpperCase (s_symbol asset) <> "CASH"%string)
  /\ cashPlan
     = calculateRebalancing noJson [vtiHundred] [tickerTarget "VTI" 50] 200
         (Fin 1) ∅.
Proof.
  destruct (cash_never_listed noJson cashHoldings [tickerTarget "VTI" 50] 200
              (Fin 1) ∅) as (H1 & _ & H3).
  split; [exact H1 | exact H3].
Defined.

(** C4, counterexample: the route adds the CASH holding into the total, and
    the allocation of the only other holding is 50 percent, not 100. *)
Lemma cash_counts_in_route_total :
  ~ (routeTotalValue cashRouteHoldings == routeTotalValue [vtiHundred])%Q
  /\ exists asset, allAssets cashRoutePlan = [asset]
       /\ s_symbol asset = "VTI"%string
       /\ (s_currentAllocation asset =? Fin 50)%num = true
       /\ s_status asset = balanced.
Proof.
  split.
  - vm_compute. discriminate.
  - eexists. split; [vm_compute; reflexivity|]. vm_compute. done.
Qed.

(** C5: called without a tolerance, the route uses the default 0.01; two
    positions half a percentage point away from their targets are then not
    balanced, and an action is emitted for each. *)
Theorem tolerance_is_in_percentage_points :
  routeTolerance None = defaultTolerance
  /\ exists bnd vti, allAssets halfPointPlan = [bnd; vti]
       /\ s_symbol bnd = "BND"%string
       /\ (s_deviation bnd =? Fin (-0.5))%num = true
       /\ s_status bnd = needs_buy
       /\ s_symbol vti = "VTI"%string
       /\ (s_deviation vti =? Fin 0.5)%num = true
       /\ s_status vti = needs_sell
       /\ map a_action (actions halfPointPlan) = [SELL; BUY].
Proof.
  split; [reflexivity|].
  eexists _, _. split; [vm_compute; reflexivity|]. vm_compute. done.
Qed.

Section Aggregation.
Variable JSON_parse : string -> option (list string).

(** C9.  When several holdings resolve to one effective symbol, the entry
    keeps the first of them and only adds up the allocation percentages:
    the reported current value, the adjustment, and the amount and
    quantity of the action come from the first holding's [value_usd] and
    [price]. *)
Theorem aggregation_keeps_first_holding (holdings : list Holding)
    (targets : list TargetAllocation) (tv : Q) (tol : num)
    (maps : gmap string string) (k : string) (e : AllocEntry) :
  allocGet k (buildAllocations holdings tv maps) = Some e ->
  let plan := calculateRebalancing JSON_parse holdings targets tv tol maps in
  let tm := (buildTargetMaps JSON_parse targets).1 in
  let cm := (buildTargetMaps JSON_parse targets).2 in
  exists first others,
    contributors maps k holdings = first :: others
    /\ e_holding e = first
    /\ e_allocation e
       = fold_left (fun a h => (a + holdingAllocation tv h)%num) others
           (holdingAllocation tv first)
    /\ (exists asset, asset ∈ allAssets plan
          /\ s_symbol asset = h_symbol first
          /\ s_currentAllocation asset = e_allocation e
          /\ s_currentValue asset = Fin (h_value_usd first)
          /\ s_targetValue asset
             = (s_targetAllocation asset / Fin 100 * Fin tv)%num
          /\ s_adjustmentNeeded asset
             = (s_targetValue asset - Fin (h_value_usd first))%num
          /\ forall act, entryAction tv tol tm cm k e = Some act ->
               act ∈ actions plan
               /\ (a_amount act = Fin (h_value_usd first)
                   \/ a_amount act = s_adjustmentNeeded asset
                   \/ a_amount act = abs (s_adjustmentNeeded asset))
               /\ a_quantity act
                  = (a_amount act / Fin (h_price first))%num).
Proof.
  intros Hget plan tm cm.
  pose proof Hget as Hentry. rewrite allocGet_build in Hentry.
  apply allocGet_elem in Hget.
  destruct (contributors maps k holdings) as [|first others]; [done|].
  injection Hentry as <-. exists first, others. simpl.
  repeat split.
  exists (assetFor tv tol tm cm k
            (mkEntry first
               (fold_left (fun a h => (a + holdingAllocation tv h)%num)
                  others (holdingAllocation tv first))
               (orUndefined (mappedSymbolOf maps first)))).
  split; [by apply entry_asset_in_plan|].
  split; [by unfold assetFor; destruct (resolveTarget _ _ _ _)|].
  split; [by unfold assetFor; destruct (resolveTarget _ _ _ _)|].
  split; [by unfold assetFor; destruct (resolveTarget _ _ _ _)|].
  split; [by unfold assetFor; destruct (resolveTarget _ _ _ _)|].
  split; [by unfold assetFor; destruct (resolveTarget _ _ _ _)|].
  intros act Hact. split.
  { by apply (entry_action_in_plan JSON_parse holdings targets tv tol maps
                k _ act Hget). }
  revert Hact. unfold assetFor, entryAction.
  destruct (resolveTarget _ _ _ _) as [t hasAny].
  cbn [e_holding e_allocation s_adjustmentNeeded].
  unfold actionFor. intros Hact.
  repeat (match type of Hact with
          | (if ?b then _ else _) = _ => destruct b
          end); try done; injection Hact as <-;
    cbn [a_amount a_quantity]; auto.
Qed.
End Aggregation.

Lemma aggregation_keeps_first_holding_witness :
  exists first others,
    contributors vwrMappings "VWRA" [vwra; vwrl] = first :: others
    /\ e_holding vwrEntry = first
    /\ e_allocation vwrEntry
       = fold_left (fun a h => (a + holdingAllocation 10000 h)%num) others
           (holdingAllocation 10000 first)
    /\ (exists asset, asset ∈ allAssets vwrPlan
          /\ s_symbol asset = h_symbol first
          /\ s_currentAllocation asset = e_allocation vwrEntry
          /\ s_currentValue asset = Fin (h_value_usd first)
          /\ s_targetValue asset
             = (s_targetAllocation asset / Fin 100 * Fin 10000)%num
          /\ s_adjustmentNeeded asset
             = (s_targetValue asset - Fin (h_value_usd first))%num
          /\ forall act,
               entryAction 10000 (Fin 1)
                 (buildTargetMaps noJson vwrTargets).1
                 (buildTargetMaps noJson vwrTargets).2 "VWRA" vwrEntry
               = Some act ->
               act ∈ actions vwrPlan
               /\ (a_amount act = Fin (h_value_usd first)
                   \/ a_amount act = s_adjustmentNeeded asset
                   \/ a_amount act = abs (s_adjustmentNeeded asset))
               /\ a_quantity act = (a_amount act / Fin (h_price first))%num).
Proof.
  apply (aggregation_keeps_first_holding noJson [vwra; vwrl] vwrTargets 10000
           (Fin 1) vwrMappings "VWRA" vwrEntry).
  vm_compute. reflexivity.
Defined.

(** In that portfolio the two share classes together hold 50 percent against
    a target of 40, so the position is reported [needs_sell]; the action,
    computed from the first holding alone (3000 against a target value of
    4000), is a BUY of 1000. *)
Example aggregated_status_and_action_disagree :
  exists asset act,
    allAssets vwrPlan = [asset] /\ actions vwrPlan = [act]
    /\ (s_currentAllocation asset =? Fin 50)%num = true
    /\ s_status asset = needs_sell
    /\ a_action act = BUY
    /\ (a_amount act =? Fin 1000)%num = true.
Proof.
  eexists _, _. split; [vm_compute; reflexivity|].
  split; [vm_compute; reflexivity|]. vm_compute. done.
Qed.

(** ** The matcher *)

Section Matcher.
Variable JSON_parse : string -> option (list string).

Local Abbreviation symbolKeys := (symbolKeys JSON_parse).
Local Abbreviation hasSymbolMatch := (hasSymbolMatch JSON_parse).
Local Abbreviation hasCategoryMatch := (hasCategoryMatch JSON_parse).

Lemma insert_keys_lookup {V} (f : string -> bool) (v : V)
    (l : list string) (m : gmap string V) (k : string) :
  is_Some (fold_left (fun m a => if f a then <[toUpperCase a := v]> m else m)
             l m !! k)
  <-> is_Some (m !! k)
      \/ existsb (String.eqb k) (map toUpperCase (List.filter f l)) = true.
Proof.
  revert m. induction l as [|a l IH]; intros m; simpl.
  - split; [by left | intros [?|?]; done].
  - rewrite IH. destruct (f a); simpl; [|done].
    rewrite lookup_insert_is_Some, orb_true_iff, String.eqb_eq.
    split.
    + intros [[-> | [_ ?]] | ?]; auto.
    + intros [? | [-> | ?]]; auto.
      destruct (decide (toUpperCase a = k)); auto.
Qed.

Lemma lookupsStep_symbol (lk : TargetLookups) (t : TargetAllocation)
    (k : string) :
  is_Some (targetsBySymbol (lookupsStep JSON_parse lk t) !! k)
  <-> is_Some (targetsBySymbol lk !! k)
      \/ existsb (String.eqb k) (symbolKeys t) = true.
Proof.
  unfold lookupsStep, symbolKeys. cbn [targetsBySymbol].
  rewrite insert_keys_lookup, existsb_app, orb_true_iff.
  unfold truthyStr. destruct (t_symbol t) as [sym|]; simpl.
  - destruct (nonEmpty sym); simpl.
    + rewrite lookup_insert_is_Some, orb_false_r, String.eqb_eq.
      split.
      * intros [[-> | [_ ?]] | ?]; auto.
      * intros [? | [-> | ?]]; auto.
        destruct (decide (toUpperCase sym = k)); auto.
    + split; [intros [?|?]; auto | intros [?|[?|?]]; auto; done].
  - split; [intros [?|?]; auto | intros [?|[?|?]]; auto; done].
Qed.

Lemma lookupsStep_isin (lk : TargetLookups) (t : TargetAllocation)
    (k : string) :
  is_Some (targetsByIsin (lookupsStep JSON_parse lk t) !! k)
  <-> is_Some (targetsByIsin lk !! k)
      \/ existsb (String.eqb k) (isinKeys t) = true.
Proof.
  unfold lookupsStep, isinKeys, truthyStr. cbn [targetsByIsin].
  destruct (t_isin t) as [isin|]; simpl.
  - destruct (nonEmpty isin); simpl.
    + rewrite lookup_insert_is_Some, orb_false_r, String.eqb_eq.
      split.
      * intros [-> | [_ ?]]; auto.
      * intros [? | ->]; auto.
        destruct (decide (toUpperCase isin = k)); auto.
    + split; [by left | intros [?|?]; done].
  - split; [by left | intros [?|?]; done].
Qed.

Lemma fold_lookups (targets : list TargetAllocation) (lk : TargetLookups)
    (k : string) :
  (is_Some (targetsBySymbol (fold_left (lookupsStep JSON_parse) targets lk)
              !! k)
   <-> is_Some (targetsBySymbol lk !! k)
       \/ existsb (fun t => existsb (String.eqb k) (symbolKeys t)) targets
          = true)
  /\ (is_Some (targetsByIsin (fold_left (lookupsStep JSON_parse) targets lk)
                 !! k)
      <-> is_Some (targetsByIsin lk !! k)
          \/ existsb (fun t => existsb (String.eqb k) (isinKeys t)) targets
             = true).
Proof.
  revert lk. induction targets as [|t targets IH]; intros lk; simpl.
  - split; (split; [by left | intros [?|?]; done]).
  - destruct (IH (lookupsStep JSON_parse lk t)) as [IH1 IH2].
    rewrite IH1, IH2, lookupsStep_symbol, lookupsStep_isin.
    rewrite !orb_true_iff. tauto.
Qed.

Lemma bySymbol_is_Some (targets : list TargetAllocation) (h : Holding) :
  is_Some (if nonEmpty (h_symbol h)
           then targetsBySymbol (buildLookups JSON_parse targets)
                  !! toUpperCase (h_symbol h)
           else None)
  <-> hasSymbolMatch targets h = true.
Proof.
  unfold hasSymbolMatch, buildLookups.
  destruct (nonEmpty (h_symbol h)); simpl.
  - rewrite (proj1 (fold_lookups targets _ _)). simpl.
    rewrite lookup_empty. split; [intros [[? ?]|?]; done | by right].
  - split; [intros [? ?]; done | done].
Qed.

Lemma byIsin_is_Some (targets : list TargetAllocation) (h : Holding) :
  is_Some (match h_isin h with
           | Some isin =>
               if nonEmpty isin
               then targetsByIsin (buildLookups JSON_parse targets)
                      !! toUpperCase isin
               else None
           | None => None
           end)
  <-> hasIsinMatch targets h = true.
Proof.
  unfold hasIsinMatch, buildLookups.
  destruct (h_isin h) as [isin|]; [|split; [intros [? ?]; done | done]].
  destruct (nonEmpty isin); simpl.
  - rewrite (proj2 (fold_lookups targets _ _)). simpl.
    rewrite lookup_empty. split; [intros [[? ?]|?]; done | by right].
  - split; [intros [? ?]; done | done].
Qed.

Lemma insert_keys_lookup_Some {V} (f : string -> bool) (v x : V)
    (l : list string) (m : gmap string V) (k : string) :
  fold_left (fun m a => if f a then <[toUpperCase a := v]> m else m) l m
    !! k = Some x ->
  m !! k = Some x
  \/ (x = v
      /\ existsb (String.eqb k) (map toUpperCase (List.filter f l)) = true).
Proof.
  revert m. induction l as [|a l IH]; intros m; simpl; [by left|].
  intros H. apply IH in H as [H|[-> H]].
  - destruct (f a); simpl; [|by left].
    apply lookup_insert_Some in H as [[<- <-]|[_ H]]; [|by left].
    right. split; [done|]. by rewrite String.eqb_refl.
  - right. split; [done|]. destruct (f a); simpl; [|done].
    by rewrite H, orb_true_r.
Qed.

Lemma lookupsStep_symbol_Some (lk : TargetLookups) (t x : TargetAllocation)
    (k : string) :
  targetsBySymbol (lookupsStep JSON_parse lk t) !! k = Some x ->
  targetsBySymbol lk !! k = Some x
  \/ (x = t /\ existsb (String.eqb k) (symbolKeys t) = true).
Proof.
  unfold lookupsStep, symbolKeys. cbn [targetsBySymbol].
  intros H. apply insert_keys_lookup_Some in H as [H|[-> H]].
  - unfold truthyStr. destruct (t_symbol t) as [sym|]; [|by left].
    destruct (nonEmpty sym); [|by left].
    apply lookup_insert_Some in H as [[<- <-]|[_ H]]; [|by left].
    right. split; [done|]. simpl. by rewrite String.eqb_refl.
  - right. split; [done|]. by rewrite existsb_app, H, orb_true_r.
Qed.

Lemma fold_lookups_symbol_Some (targets : list TargetAllocation)
    (lk : TargetLookups) (x : TargetAllocation) (k : string) :
  targetsBySymbol (fold_left (lookupsStep JSON_parse) targets lk) !! k
  = Some x ->
  targetsBySymbol lk !! k = Some x
  \/ (x ∈ targets /\ existsb (String.eqb k) (symbolKeys x) = true).
Proof.
  revert lk. induction targets as [|t targets IH]; intros lk; simpl;
    [by left|].
  intros H. apply IH in H as [H|[H1 H2]].
  - apply lookupsStep_symbol_Some in H as [H|[-> H]]; [by left|].
    right. split; [apply list_elem_of_here | done].
  - right. split; [by apply list_elem_of_further | done].
Qed.

(** What [findMatch] answers, by the kind of match. *)
Lemma findMatch_symbol (targets : list TargetAllocation) (h : Holding) :
  hasSymbolMatch targets h = true ->
  exists t, t ∈ targets
    /\ existsb (String.eqb (toUpperCase (h_symbol h))) (symbolKeys t) = true
    /\ findMatch (buildLookups JSON_parse targets) h
       = Some (t, exact_symbol).
Proof.
  intros Hs. pose proof Hs as Hne.
  apply bySymbol_is_Some in Hs as [t Ht].
  unfold hasSymbolMatch in Hne. apply andb_true_iff in Hne as [Hne _].
  rewrite Hne in Ht. exists t.
  pose proof Ht as Ht'. unfold buildLookups in Ht'.
  apply fold_lookups_symbol_Some in Ht' as [Ht'|[H1 H2]]; [done|].
  split; [done|]. split; [done|].
  unfold findMatch. by rewrite Hne, Ht.
Qed.

Lemma findMatch_kind (targets : list TargetAllocation) (h : Holding)
    (t : TargetAllocation) (mt : MatchType) :
  findMatch (buildLookups JSON_parse targets) h = Some (t, mt) ->
  match mt with
  | exact_symbol => hasSymbolMatch targets h = true
  | exact_isin =>
      hasSymbolMatch targets h = false /\ hasIsinMatch targets h = true
  | category =>
      hasSymbolMatch targets h = false /\ hasIsinMatch targets h = false
  | none => False
  end.
Proof.
  unfold findMatch.
  pose proof (bySymbol_is_Some targets h) as Hs.
  pose proof (byIsin_is_Some targets h) as Hi.
  destruct (if nonEmpty (h_symbol h) then _ else _) as [t1|].
  { intros [= <- <-]. apply Hs. by eexists. }
  assert (hasSymbolMatch targets h = false) as Hs'.
  { destruct (hasSymbolMatch targets h); [|done].
    destruct (proj2 Hs eq_refl); done. }
  destruct (match h_isin h with Some _ => _ | None => _ end) as [t2|].
  { intros [= <- <-]. split; [done|]. apply Hi. by eexists. }
  assert (hasIsinMatch targets h = false) as Hi'.
  { destruct (hasIsinMatch targets h); [|done].
    destruct (proj2 Hi eq_refl); done. }
  destruct (_ !! _) as [[|t3 ?]|]; [done| |done].
  by intros [= <- <-].
Qed.

Lemma matched_fold (lk : TargetLookups) (targets : list TargetAllocation)
    (holdings : list Holding) (acc : MatchResult) :
  matched (fold_left (matchStep lk targets) holdings acc)
  = matched acc ++ omap (matchedOf lk) holdings.
Proof.
  revert acc. induction holdings as [|h hs IH]; intros acc; simpl.
  - by rewrite app_nil_r.
  - rewrite IH. unfold matchStep, matchedOf.
    destruct (findMatch lk h) as [[t mt]|]; simpl; [|done].
    by rewrite <- app_assoc.
Qed.

Lemma matched_spec (holdings : list Holding)
    (targets : list TargetAllocation) :
  matched (matchHoldingsToTargets JSON_parse holdings targets)
  = omap (matchedOf (buildLookups JSON_parse targets)) holdings.
Proof. unfold matchHoldingsToTargets. by rewrite matched_fold. Qed.

Lemma hasSymbolMatch_retag (targets : list TargetAllocation) (h : Holding)
    (t : TargetAllocation) :
  hasSymbolMatch targets (retag h t) = hasSymbolMatch targets h.
Proof. done. Qed.

Lemma hasIsinMatch_retag (targets : list TargetAllocation) (h : Holding)
    (t : TargetAllocation) :
  hasIsinMatch targets (retag h t) = hasIsinMatch targets h.
Proof. done. Qed.

(** C6.  A holding with a symbol match and a matching category-level
    target is returned with [exact_symbol]; no matched entry whose symbol
    matches a ticker carries another match type; an ISIN match is reported
    only when the symbol does not match, a category match only when
    neither symbol nor ISIN matches. *)
Theorem matcher_priority (holdings : list Holding)
    (targets : list TargetAllocation) :
  let result := matchHoldingsToTargets JSON_parse holdings targets in
  (forall h, h ∈ holdings ->
     hasSymbolMatch targets h = true -> hasCategoryMatch targets h = true ->
     exists t, t ∈ targets
       /\ existsb (String.eqb (toUpperCase (h_symbol h))) (symbolKeys t)
          = true
       /\ mkMatched (retag h t) (t_id t) exact_symbol ∈ matched result)
  /\ (forall m, m ∈ matched result ->
        hasSymbolMatch targets (m_holding m) = true ->
        m_matchType m = exact_symbol)
  /\ (forall m, m ∈ matched result -> m_matchType m = exact_isin ->
        hasSymbolMatch targets (m_holding m) = false
        /\ hasIsinMatch targets (m_holding m) = true)
  /\ (forall m, m ∈ matched result -> m_matchType m = category ->
        hasSymbolMatch targets (m_holding m) = false
        /\ hasIsinMatch targets (m_holding m) = false).
Proof.
  intros result. unfold result. rewrite matched_spec.
  split; [|split; [|split]].
  - intros h Hin Hs _.
    destruct (findMatch_symbol targets h Hs) as (t & Ht1 & Ht2 & Ht).
    exists t. split; [done|]. split; [done|].
    apply list_elem_of_omap. exists h. split; [done|].
    unfold matchedOf. by rewrite Ht.
  - intros m Hin Hs. apply list_elem_of_omap in Hin as (h & Hin & Hm).
    unfold matchedOf in Hm.
    destruct (findMatch _ h) as [[t mt]|] eqn:Hf; [|done].
    injection Hm as <-. simpl in *. rewrite hasSymbolMatch_retag in Hs.
    apply findMatch_kind in Hf. destruct mt; try done; destruct Hf; congruence.
  - intros m Hin Hk. apply list_elem_of_omap in Hin as (h & Hin & Hm).
    unfold matchedOf in Hm.
    destruct (findMatch _ h) as [[t mt]|] eqn:Hf; [|done].
    injection Hm as <-. simpl in *. subst mt.
    by apply findMatch_kind in Hf.
  - intros m Hin Hk. apply list_elem_of_omap in Hin as (h & Hin & Hm).
    unfold matchedOf in Hm.
    destruct (findMatch _ h) as [[t mt]|] eqn:Hf; [|done].
    injection Hm as <-. simpl in *. subst mt.
    by apply findMatch_kind in Hf.
Qed.
End Matcher.

Lemma matcher_priority_witness :
  exists t, t ∈ bothTargets
    /\ existsb (String.eqb (toUpperCase (h_symbol vtiLower)))
         (symbolKeys noJson t) = true
    /\ mkMatched (retag vtiLower t) (t_id t) exact_symbol
       ∈ matched (matchHoldingsToTargets noJson [vtiLower] bothTargets).
Proof.
  apply (proj1 (matcher_priority noJson [vtiLower] bothTargets) vtiLower).
  - apply list_elem_of_here.
  - reflexivity.
  - reflexivity.
Defined.

(** ** Percentages *)

Lemma invalidPercentage_normalize (p : num) :
  invalidPercentage (normalizePercentage p) = invalidPercentage p.
Proof.
  unfold normalizePercentage, invalidPercentage.
  destruct p as [q| | |]; simpl; try done.
  destruct (Qltb 0 q) eqn:H0, (Qltb q 1) eqn:H1; simpl; try done.
  assert (Qltb (q * 100) 0 = false) as -> by (qprops; lra).
  assert (Qltb 100 (q * 100) = false) as -> by (qprops; lra).
  assert (Qltb q 0 = false) as -> by (qprops; lra).
  assert (Qltb 100 q = false) as -> by (qprops; lra).
  done.
Qed.

Lemma zero_normalize (p : num) :
  (normalizePercentage p =? Fin 0)%num = (p =? Fin 0)%num.
Proof.
  unfold normalizePercentage.
  destruct p as [q| | |]; simpl; try done.
  destruct (Qltb 0 q) eqn:H0, (Qltb q 1) eqn:H1; simpl; try done.
  assert (Qeq_bool (q * 100) 0 = false) as -> by (qprops; lra).
  symmetry. qprops. lra.
Qed.

(** A percentage that passes validation is a rational between 0 and 100. *)
Lemma valid_percentage_range (p : num) :
  invalidPercentage p = false ->
  exists q, p = Fin q /\ (0 <= q <= 100)%Q.
Proof.
  unfold invalidPercentage. destruct p as [q| | |]; simpl; try done.
  intros H. apply orb_false_iff in H as [H0 H1]. exists q. split; [done|].
  qprops. lra.
Qed.

(** ** The CSV target parser, row by row *)

Lemma csv_zero_row (hm : CsvHeaderMap) (i : nat) (line : string)
    (acc : ParsedCsvTargetsResult) :
  nonEmpty (csvAssetType hm (parseCsvLine line)) = true ->
  (csvPercentage hm (parseCsvLine line) =? Fin 0)%num = true ->
  csvRowStep hm i line acc = acc.
Proof.
  intros Ha Hz. unfold csvRowStep.
  destruct (negb (nonEmpty (trim line))); [done|].
  rewrite Ha. simpl.
  assert (invalidPercentage (csvPercentage hm (parseCsvLine line)) = false)
    as ->; [|by rewrite Hz].
  destruct (csvPercentage hm (parseCsvLine line)) as [q| | |]; try done.
  simpl in Hz. unfold invalidPercentage. simpl.
  assert (Qltb q 0 = false) as -> by (qprops; lra).
  assert (Qltb 100 q = false) as -> by (qprops; lra). done.
Qed.

Lemma csvRows_app (hm : CsvHeaderMap) (i : nat) (pre post : list string)
    (acc : ParsedCsvTargetsResult) :
  csvRows hm i (pre ++ post) acc
  = csvRows hm (i + length pre) post (csvRows hm i pre acc).
Proof.
  revert i acc. induction pre as [|l pre IH]; intros i acc; simpl.
  - by rewrite Nat.add_0_r.
  - rewrite IH. by rewrite Nat.add_succ_r.
Qed.

Lemma csvFinish_lists (acc : ParsedCsvTargetsResult) :
  csv_targets (csvFinish acc) = csv_targets acc
  /\ csv_errors (csvFinish acc) = csv_errors acc.
Proof. unfold csvFinish. by destruct (totalOff _). Qed.

(** ** The Excel target parser, row by row *)

Lemma excelCategoryWarning_total (hm : ExcelHeaderMap) (i : nat)
    (row : list Cell) :
  excelCategoryThrows hm row = false ->
  exists warning,
    excelCategoryWarning i (excelAssetType hm row)
      (excelOptText row (hx_assetCategory hm)) = Some warning.
Proof.
  unfold excelCategoryThrows, excelCategoryWarning.
  destruct (nonEmpty (excelOptText row (hx_assetCategory hm))); simpl;
    [|by eexists].
  destruct (validCategoriesOf _) as [v|]; [|done].
  intros _. destruct (_ && _); by eexists.
Qed.

Lemma excel_zero_row (hm : ExcelHeaderMap) (i : nat) (row : list Cell)
    (acc : ParsedTargetsResult) :
  nonEmpty (excelAssetType hm row) = true ->
  (excelPercentage hm row =? Fin 0)%num = true ->
  excelRowStep hm i row acc = Some acc.
Proof.
  intros Ha Hz. unfold excelRowStep.
  destruct (excelBlankRow row); [done|].
  rewrite Ha. simpl.
  assert (invalidPercentage (excelPercentage hm row) = false)
    as ->; [|by rewrite Hz].
  destruct (excelPercentage hm row) as [q| | |]; try done.
  simpl in Hz. unfold invalidPercentage. simpl.
  assert (Qltb q 0 = false) as -> by (qprops; lra).
  assert (Qltb 100 q = false) as -> by (qprops; lra). done.
Qed.

Lemma excelRows_app (hm : ExcelHeaderMap) (i : nat)
    (pre post : list (list Cell)) (acc : ParsedTargetsResult) :
  excelRows hm i (pre ++ post) acc
  = excelRows hm i pre acc ≫= excelRows hm (i + length pre) post.
Proof.
  revert i acc. induction pre as [|l pre IH]; intros i acc; simpl.
  - by rewrite Nat.add_0_r.
  - destruct (excelRowStep hm i l acc) as [acc'|]; simpl; [|done].
    rewrite IH. by rewrite Nat.add_succ_r.
Qed.

Lemma excelFinish_lists (acc : ParsedTargetsResult) :
  xl_targets (excelFinish acc) = xl_targets acc
  /\ xl_errors (excelFinish acc) = xl_errors acc.
Proof. unfold excelFinish. by destruct (totalOff _). Qed.

(** ** The claims on the target-file parsers *)


(** C10 (amended).  In both parsers a row that has an asset type and whose
    normalized percentage is exactly 0 changes nothing: no target, no
    warning, no error; the rows after it are processed as they would be
    without it (with their own row numbers), and the total that is compared
    with 100 is summed over the targets, which do not contain the row. *)
Theorem zero_percent_row_skipped :
  (forall (hm : CsvHeaderMap) (i : nat) (pre post : list string)
          (line : string) (acc : ParsedCsvTargetsResult),
      nonEmpty (csvAssetType hm (parseCsvLine line)) = true ->
      (csvPercentage hm (parseCsvLine line) =? Fin 0)%num = true ->
      csvRowStep hm i line acc = acc
      /\ csvFinish (csvRows hm i (pre ++ line :: post) acc)
         = csvFinish (csvRows hm (i + length pre + 1) post
                        (csvRows hm i pre acc)))
  /\ (forall (hm : ExcelHeaderMap) (i : nat) (pre post : list (list Cell))
             (row : list Cell) (acc : ParsedTargetsResult),
        nonEmpty (excelAssetType hm row) = true ->
        (excelPercentage hm row =? Fin 0)%num = true ->
        excelRowStep hm i row acc = Some acc
        /\ excelFinish <$> excelRows hm i (pre ++ row :: post) acc
           = excelFinish
               <$> (excelRows hm i pre acc
                    ≫= excelRows hm (i + length pre + 1) post)).
Proof.
  split.
  - intros hm i pre post line acc Ha Hz. split; [by apply csv_zero_row|].
    rewrite csvRows_app. simpl. rewrite (csv_zero_row _ _ _ _ Ha Hz).
    by rewrite Nat.add_1_r.
  - intros hm i pre post row acc Ha Hz. split; [by apply excel_zero_row|].
    rewrite excelRows_app.
    destruct (excelRows hm i pre acc) as [acc'|]; simpl; [|done].
    rewrite (excel_zero_row _ _ _ _ Ha Hz). by rewrite Nat.add_1_r.
Qed.

Lemma zero_percent_row_skipped_witness :
  csvRowStep csvAssetPct 2 "Cash,0" csvEmpty = csvEmpty
  /\ csvFinish (csvRows csvAssetPct 1 (["Shares,38"] ++ "Cash,0" :: ["Bonds,62"])
                  csvEmpty)
     = csvFinish (csvRows csvAssetPct (1 + length ["Shares,38"%string] + 1)
                    ["Bonds,62"]
                    (csvRows csvAssetPct 1 ["Shares,38"] csvEmpty)).
Proof.
  split.
  - apply (proj1 zero_percent_row_skipped csvAssetPct 2%nat [] []
             "Cash,0"%string csvEmpty); reflexivity.
  - apply (proj1 zero_percent_row_skipped csvAssetPct 1%nat
             ["Shares,38"%string] ["Bonds,62"%string] "Cash,0"%string
             csvEmpty); reflexivity.
Defined.

(** C10, counterexample: a row whose percentage is exactly 0 and that has no
    asset type does produce an error. *)
Lemma zero_row_without_asset_type_reported :
  (csvPercentage csvAssetPct (parseCsvLine ",0") =? Fin 0)%num = true
  /\ csv_errors (parseTargetCsv noTypeZeroFile)
     = ["Row 2: Missing Asset Type"%string].
Proof. vm_compute. done. Qed.

(** *** The whole parsers in terms of the row loops *)

Lemma parseTargetCsv_rows (csvText headerLine : string)
    (dataLines : list string) :
  filter (fun l => nonEmpty l = true) (map trim (splitLines csvText))
  = headerLine :: dataLines ->
  dataLines <> [] ->
  let hm := csvHeaderMap (parseCsvLine headerLine) in
  is_Some (hc_assetType hm) -> is_Some (hc_percentage hm) ->
  parseTargetCsv csvText = csvFinish (csvRows hm 1 dataLines csvEmpty).
Proof.
  intros Hlines Hdata hm [a Ha] [p Hp]. unfold parseTargetCsv.
  rewrite Hlines. destruct dataLines as [|l ls]; [done|]. simpl.
  fold hm. by rewrite Ha, Hp.
Qed.

Lemma parseTargetExcel_rows (data : list (list Cell)) (headerRowIndex : nat)
    (hm : ExcelHeaderMap) :
  (2 <= length data)%nat ->
  findHeader data = Some (headerRowIndex, hm) ->
  parseTargetExcel data
  = match
      excelRows hm (headerRowIndex + 1) (drop (headerRowIndex + 1) data)
        excelEmpty
    with
    | Some acc => excelFinish acc
    | None =>
        mkExcelResult [] []
          [("Failed to read Excel file: " ++ notAFunctionMessage)%string]
    end.
Proof.
  intros Hlen Hh. unfold parseTargetExcel. rewrite Hh.
  destruct (length data <? 2)%nat eqn:Hlt; [|done].
  apply Nat.ltb_lt in Hlt. lia.
Qed.

(** *** Every row has the outcome that its cells give it *)

Lemma trimStart_head (s : string) : headNotSpace (trimStart s).
Proof.
  induction s as [|c s IH]; cbn [trimStart]; [done|].
  by destruct (isSpace c) eqn:Hc.
Qed.

Lemma trimStart_id (s : string) : headNotSpace s -> trimStart s = s.
Proof. destruct s as [|c s]; [done|]. cbn. by intros ->. Qed.

Lemma trimEnd_head (s : string) : headNotSpace s -> headNotSpace (trimEnd s).
Proof.
  destruct s as [|c s]; [done|]. cbn [headNotSpace trimEnd]. intros Hc.
  rewrite Hc. by destruct (trimEnd s).
Qed.

Lemma trimEnd_idem (s : string) : trimEnd (trimEnd s) = trimEnd s.
Proof.
  induction s as [|c s IH]; [done|]. cbn [trimEnd].
  destruct (trimEnd s) as [|d t] eqn:Ht.
  - destruct (isSpace c) eqn:Hc; [done|]. cbn [trimEnd]. by rewrite Hc.
  - cbn [trimEnd]. cbn [trimEnd] in IH. rewrite IH.
    by destruct (match trimEnd t with EmptyString => _ | _ => _ end).
Qed.

Lemma trim_idem (s : string) : trim (trim s) = trim s.
Proof.
  unfold trim.
  rewrite (trimStart_id (trimEnd (trimStart s)))
    by apply trimEnd_head, trimStart_head.
  apply trimEnd_idem.
Qed.

Lemma csvFileLines_not_blank (csvText : string) :
  Forall (fun line => nonEmpty (trim line) = true) (csvFileLines csvText).
Proof.
  apply Forall_forall. intros line Hin. unfold csvFileLines in Hin.
  apply list_elem_of_filter in Hin as [Hne Hin].
  apply list_elem_of_fmap in Hin as (raw & -> & _).
  by rewrite trim_idem.
Qed.

(** The outcome, read off the tests of the row loop. *)
Lemma rowOutcome_tests (rowNumber : nat) (assetType shown : string)
    (value : num) :
  rowOutcome rowNumber assetType shown value
  = if negb (nonEmpty assetType) then
      RowError ("Row " ++ natToString rowNumber ++ ": Missing Asset Type")%string
    else if invalidPercentage (normalizePercentage value) then
      RowError ("Row " ++ natToString rowNumber ++ ": Invalid percentage ("
                ++ shown ++ ")")%string
    else if (normalizePercentage value =? Fin 0)%num then RowSkipped
    else RowTarget (normalizeAssetType assetType) (normalizePercentage value).
Proof.
  unfold rowOutcome. destruct (negb (nonEmpty assetType)); [done|].
  rewrite invalidPercentage_normalize, zero_normalize.
  destruct value as [p| | |]; try done.
  unfold invalidPercentage, normalizePercentage, gtb. cbn [isNaN ltb eqb negb orb andb].
  destruct (Qltb p 0) eqn:Hneg; [done|].
  destruct (Qltb 100 p) eqn:Hbig; [done|]. cbn [orb].
  destruct (Qeq_bool p 0) eqn:Hzero; [done|].
  assert (Qltb 0 p = true) as -> by (qprops; lra).
  by destruct (Qltb p 1).
Qed.

Lemma omap_cons_list {A B} (f : A -> option B) (x : A) (l : list A) :
  omap f (x :: l) = option_list (f x) ++ omap f l.
Proof. simpl. by destruct (f x). Qed.

Lemma csvRowStep_outcome (hm : CsvHeaderMap) (i : nat) (line : string)
    (acc : ParsedCsvTargetsResult) :
  nonEmpty (trim line) = true ->
  let outcome := csvRowOutcome hm (i + 1) line in
  csv_errors (csvRowStep hm i line acc)
  = csv_errors acc ++ option_list (outcomeError outcome)
  /\ map csvTargetPair (csv_targets (csvRowStep hm i line acc))
     = map csvTargetPair (csv_targets acc)
       ++ option_list (outcomeTarget outcome).
Proof.
  intros Hne. unfold csvRowOutcome, csvRowStep. rewrite Hne, rowOutcome_tests.
  cbn [negb]. unfold csvPercentage, missingAssetTypeError,
    invalidPercentageError.
  destruct (negb (nonEmpty _)); [by rewrite app_nil_r|].
  destruct (invalidPercentage _); [by rewrite app_nil_r|].
  destruct (_ =? _)%num; cbn; [by rewrite !app_nil_r|].
  by rewrite map_app, app_nil_r.
Qed.

Lemma csvRows_outcomes (hm : CsvHeaderMap) (lines : list string) :
  Forall (fun line => nonEmpty (trim line) = true) lines ->
  forall (i : nat) (acc : ParsedCsvTargetsResult),
    let outcomes := csvOutcomes hm (i + 1) lines in
    csv_errors (csvRows hm i lines acc)
    = csv_errors acc ++ omap outcomeError outcomes
    /\ map csvTargetPair (csv_targets (csvRows hm i lines acc))
       = map csvTargetPair (csv_targets acc) ++ omap outcomeTarget outcomes.
Proof.
  induction 1 as [|line rest Hline _ IH]; intros i acc.
  { cbn. by rewrite !app_nil_r. }
  cbn [csvRows csvOutcomes]. cbv zeta.
  destruct (IH (S i) (csvRowStep hm i line acc)) as [He Ht].
  destruct (csvRowStep_outcome hm i line acc Hline) as [He1 Ht1].
  rewrite !omap_cons_list, He, Ht, He1, Ht1, <- !app_assoc. done.
Qed.

(** The rows of an accepted CSV file. *)
Lemma parseTargetCsv_outcomes (csvText headerLine : string)
    (dataLines : list string) :
  csvFileLines csvText = headerLine :: dataLines ->
  dataLines <> [] ->
  let hm := csvHeaderMap (parseCsvLine headerLine) in
  is_Some (hc_assetType hm) -> is_Some (hc_percentage hm) ->
  let outcomes := csvOutcomes hm 2 dataLines in
  csv_errors (parseTargetCsv csvText) = omap outcomeError outcomes
  /\ map csvTargetPair (csv_targets (parseTargetCsv csvText))
     = omap outcomeTarget outcomes.
Proof.
  cbv zeta. intros Hlines Hdata Ha Hp.
  rewrite (parseTargetCsv_rows csvText headerLine dataLines Hlines Hdata Ha Hp).
  cbv zeta. destruct (csvFinish_lists (csvRows (csvHeaderMap (parseCsvLine headerLine)) 1 dataLines csvEmpty)) as [-> ->].
  assert (Forall (fun line => nonEmpty (trim line) = true) dataLines) as Hall.
  { pose proof (csvFileLines_not_blank csvText) as H.
    rewrite Hlines in H. by apply Forall_cons in H as [_ H]. }
  apply (csvRows_outcomes _ dataLines Hall 1 csvEmpty).
Qed.

Lemma excelRowStep_outcome (hm : ExcelHeaderMap) (i : nat) (row : list Cell)
    (acc : ParsedTargetsResult) :
  excelCategoryThrows hm row = false ->
  let outcome := excelRowOutcome hm (i + 1) row in
  exists acc',
    excelRowStep hm i row acc = Some acc'
    /\ xl_errors acc' = xl_errors acc ++ option_list (outcomeError outcome)
    /\ map excelTargetPair (xl_targets acc')
       = map excelTargetPair (xl_targets acc)
         ++ option_list (outcomeTarget outcome).
Proof.
  intros Hthrow.
  destruct (excelCategoryWarning_total hm i row Hthrow) as [warning Hw].
  unfold excelRowOutcome, excelRowStep.
  destruct (excelBlankRow row).
  { eexists. split; [done|]. cbn. by rewrite !app_nil_r. }
  rewrite rowOutcome_tests. unfold excelPercentage, missingAssetTypeError,
    invalidPercentageError.
  destruct (negb (nonEmpty _)).
  { eexists. split; [done|]. cbn. by rewrite app_nil_r. }
  destruct (invalidPercentage _).
  { eexists. split; [done|]. cbn. by rewrite app_nil_r. }
  destruct (_ =? _)%num.
  { eexists. split; [done|]. cbn. by rewrite !app_nil_r. }
  rewrite Hw. eexists. split; [done|]. cbn.
  by rewrite map_app, app_nil_r.
Qed.

Lemma excelRows_outcomes (hm : ExcelHeaderMap) (rows : list (list Cell)) :
  Forall (fun row => excelCategoryThrows hm row = false) rows ->
  forall (i : nat) (acc : ParsedTargetsResult),
    let outcomes := excelOutcomes hm (i + 1) rows in
    exists acc',
      excelRows hm i rows acc = Some acc'
      /\ xl_errors acc' = xl_errors acc ++ omap outcomeError outcomes
      /\ map excelTargetPair (xl_targets acc')
         = map excelTargetPair (xl_targets acc)
           ++ omap outcomeTarget outcomes.
Proof.
  induction 1 as [|row rest Hrow _ IH]; intros i acc.
  { eexists. split; [done|]. cbn. by rewrite !app_nil_r. }
  cbn [excelRows excelOutcomes]. cbv zeta.
  destruct (excelRowStep_outcome hm i row acc Hrow) as (acc1 & -> & He1 & Ht1).
  destruct (IH (S i) acc1) as (acc' & -> & He & Ht).
  eexists. split; [done|].
  rewrite !omap_cons_list, He, Ht, He1, Ht1, <- !app_assoc. done.
Qed.

(** The rows of a sheet whose header is found, when no category check
    throws. *)
Lemma parseTargetExcel_outcomes (data : list (list Cell))
    (headerRowIndex : nat) (hm : ExcelHeaderMap) :
  (2 <= length data)%nat ->
  findHeader data = Some (headerRowIndex, hm) ->
  Forall (fun row => excelCategoryThrows hm row = false)
    (drop (headerRowIndex + 1) data) ->
  let outcomes :=
    excelOutcomes hm (headerRowIndex + 2) (drop (headerRowIndex + 1) data) in
  xl_errors (parseTargetExcel data) = omap outcomeError outcomes
  /\ map excelTargetPair (xl_targets (parseTargetExcel data))
     = omap outcomeTarget outcomes.
Proof.
  cbv zeta. intros Hlen Hheader Hall.
  rewrite (parseTargetExcel_rows data headerRowIndex hm Hlen Hheader).
  destruct (excelRows_outcomes hm _ Hall (headerRowIndex + 1) excelEmpty)
    as (acc & -> & He & Ht).
  destruct (excelFinish_lists acc) as [-> ->].
  replace (headerRowIndex + 1 + 1)%nat with (headerRowIndex + 2)%nat in He, Ht
    by lia.
  done.
Qed.

(** The percentage stored for a row is the percentage of its outcome. *)
Lemma storedPercentage_outcome (rowNumber : nat) (assetType shown : string)
    (value : num) :
  storedPercentage assetType value
  = snd <$> outcomeTarget (rowOutcome rowNumber assetType shown value).
Proof.
  unfold storedPercentage, rowOutcome.
  destruct (nonEmpty assetType); [|done]. cbn [negb].
  destruct value as [p| | |]; try done.
  destruct (Qltb p 0) eqn:Hneg.
  { assert (Qltb 0 p = false) as -> by (qprops; lra).
    assert (Qle_bool 1 p = false) as -> by (qprops; lra). done. }
  destruct (Qltb 100 p) eqn:Hbig.
  { assert (Qltb p 1 = false) as -> by (qprops; lra).
    assert (Qle_bool p 100 = false) as -> by (qprops; lra).
    by rewrite !andb_false_r. }
  cbn [orb]. destruct (Qeq_bool p 0) eqn:Hzero.
  { assert (Qltb 0 p = false) as -> by (qprops; lra).
    assert (Qle_bool 1 p = false) as -> by (qprops; lra). done. }
  assert (Qltb 0 p = true) as -> by (qprops; lra).
  destruct (Qltb p 1) eqn:Hone; [done|].
  assert (Qle_bool 1 p = true) as -> by (qprops; lra).
  assert (Qle_bool p 100 = true) as -> by (qprops; lra). done.
Qed.

Lemma csvOutcomes_stored (hm : CsvHeaderMap) (rowNumber : nat)
    (lines : list string) :
  map snd (omap outcomeTarget (csvOutcomes hm rowNumber lines))
  = omap (csvStored hm) lines.
Proof.
  revert rowNumber. induction lines as [|line rest IH]; intros rowNumber;
    [done|].
  cbn [csvOutcomes]. rewrite !omap_cons_list, map_app, IH. f_equal.
  unfold csvStored, csvRowOutcome.
  rewrite (storedPercentage_outcome rowNumber _
             (csvShown hm (parseCsvLine line))).
  by destruct (outcomeTarget _).
Qed.

Lemma excelOutcomes_stored (hm : ExcelHeaderMap) (rowNumber : nat)
    (rows : list (list Cell)) :
  map snd (omap outcomeTarget (excelOutcomes hm rowNumber rows))
  = omap (excelStored hm) rows.
Proof.
  revert rowNumber. induction rows as [|row rest IH]; intros rowNumber;
    [done|].
  cbn [excelOutcomes]. rewrite !omap_cons_list, map_app, IH. f_equal.
  unfold excelStored, excelRowOutcome.
  destruct (excelBlankRow row); [done|].
  rewrite (storedPercentage_outcome rowNumber _ (excelShown hm row)).
  by destruct (outcomeTarget _).
Qed.


(** The hypotheses on the rows of a concrete file, row by row. *)
Ltac csv_rows_plain :=
  repeat (constructor; [vm_compute; reflexivity|]); constructor.

Ltac excel_rows_plain :=
  cbv [drop Nat.add];
  repeat (constructor; [split; vm_compute; reflexivity|]); constructor.




(** A percentage cell that only starts with a number is read as that
    number, and an empty one as 0: neither row is reported. *)
Example numeric_prefix_is_read :
  exists p,
    map csvTargetPair (csv_targets (parseTargetCsv prefixCsv))
    = [("Bond"%string, p)]
    /\ (p =? Fin 12)%num = true
    /\ csv_errors (parseTargetCsv prefixCsv) = [].
Proof. eexists. split; [vm_compute; reflexivity|]. by vm_compute. Qed.

Example empty_percentage_is_skipped :
  csv_targets (parseTargetCsv emptyCellCsv) = []
  /\ csv_errors (parseTargetCsv emptyCellCsv) = [].
Proof. by vm_compute. Qed.

(** *** Concrete files *)

(** A row whose asset type is the name of an inherited property, with a
    category, makes the category check throw: the valid row before it is
    lost with it. *)
Example inherited_key_aborts_excel :
  parseTargetExcel
    [[CStr "Asset Type"; CStr "Asset Category"; CStr "%"];
     [CStr "Stock"; CStr "EU"; CNum "40"];
     [CStr "constructor"; CStr "EU"; CNum "60"]]
  = mkExcelResult [] []
      ["Failed to read Excel file: validCategories.some is not a function"%string].
Proof. vm_compute. reflexivity. Qed.

Example excel_file_parsed :
  exists t1 t2,
    parseTargetExcel
      [[CStr "Asset Type"; CStr "Asset Category"; CStr "% target holding"];
       [CStr "Shares"; CStr "EU"; CNum "0.4"];
       [CStr ""; CStr ""; CStr ""];
       [CStr "Bonds"; CStr ""; CStr "60%"];
       [CStr "Gold"; CStr ""; CStr "n/a"]]
    = mkExcelResult [t1; t2] [] ["Row 5: Invalid percentage (n/a)"%string]
    /\ x_assetType t1 = "Stock"%string
    /\ (x_targetPercentage t1 =? Fin 40)%num = true
    /\ x_assetType t2 = "Bond"%string
    /\ (x_targetPercentage t2 =? Fin 60)%num = true.
Proof.
  eexists _, _. split; [vm_compute; reflexivity|]. vm_compute. done.
Qed.

(** ** The vertical layout of the statement parser *)

Lemma skipFiller_ge (rest : list string) (i : nat) : i <= skipFiller rest i.
Proof.
  revert i. induction rest as [|l rest IH]; intros i; simpl; [lia|].
  destruct (isFiller l (hd_error rest)); [|lia].
  specialize (IH (S i)). lia.
Qed.

(** The cursor ends at or after the first line that the inner loop does not
    step over. *)
Lemma verticalBody_cursor_from (lines : list string) (i0 : nat)
    (holdings : list ParsedHolding) (i' : nat) (holdings' : list ParsedHolding) :
  verticalBody lines i0 holdings = Next i' holdings' ->
  (skipFiller (drop i0 lines) i0 <= i')%nat.
Proof.
  unfold verticalBody.
  set (i := skipFiller (drop i0 lines) i0) in *.
  destruct (stripPrefix sectionPrefixes _) as [cleanedLine cur].
  unfold rowSize, numDataFields.
  repeat (match goal with
          | |- context [match ?b with _ => _ end] =>
              match type of b with
              | bool => destruct b
              | option _ => destruct b
              end
          end);
    try discriminate; intros [= <- <-]; lia.
Qed.

(** The cursor never moves back, and a pass that leaves it in place adds no
    holding. *)
Lemma verticalBody_cursor (lines : list string) (i0 : nat)
    (holdings : list ParsedHolding) (i' : nat) (holdings' : list ParsedHolding) :
  verticalBody lines i0 holdings = Next i' holdings' ->
  (i0 <= i')%nat /\ (i' = i0 -> holdings' = holdings).
Proof.
  unfold verticalBody.
  pose proof (skipFiller_ge (drop i0 lines) i0) as Hge.
  set (i := skipFiller (drop i0 lines) i0) in *.
  destruct (stripPrefix sectionPrefixes _) as [cleanedLine cur].
  unfold rowSize, numDataFields.
  repeat (match goal with
          | |- context [match ?b with _ => _ end] =>
              match type of b with
              | bool => destruct b
              | option _ => destruct b
              end
          end);
    try discriminate; intros [= <- <-]; split; try lia; try done;
    intros; lia.
Qed.

(** The cursor stays in place only in the branch that skips a row with at
    least six numeric fields whose quantity or close price is not positive. *)
Lemma stall_is_nonpositive_row (lines : list string) (i : nat)
    (holdings holdings' : list ParsedHolding) :
  verticalBody lines i holdings = Next i holdings' ->
  let values := rowValues (slice (i + 1) (dataEndIndexOf lines i) lines) in
  (6 <= length values)%nat
  /\ ((valueOr values 0 (Fin 0) <=? Fin 0)%num
      || (valueOr values 4 (Fin 0) <=? Fin 0)%num) = true.
Proof.
  unfold verticalBody.
  pose proof (skipFiller_ge (drop i lines) i) as Hge.
  destruct (Nat.eq_dec (skipFiller (drop i lines) i) i) as [Heq|Hne].
  - rewrite Heq.
    destruct (stripPrefix sectionPrefixes _) as [cleanedLine cur].
    unfold rowSize, numDataFields.
    destruct (length lines <=? i)%nat; [done|].
    destruct (notSymbolLine _); [intros [= ? _]; lia|].
    destruct (isSectionHeader _); [intros [= ? _]; lia|].
    destruct (length lines <? i + (8 + 1))%nat; [done|].
    destruct (extractSymbol _); [|intros [= ? _]; lia].
    destruct (length (rowValues _) <? 6)%nat eqn:Hlen.
    { destruct (dataEndIndexOf lines i <? _)%nat; intros [= ? _]; lia. }
    apply Nat.ltb_ge in Hlen.
    destruct (_ || _) eqn:Hskip; [done|].
    destruct (dataEndIndexOf lines i <? _)%nat; intros [= ? _]; lia.
  - intros H. apply verticalBody_cursor_from in H. lia.
Qed.

(** What a pass does to the cursor does not depend on the holdings parsed so
    far; the pass only appends to them. *)
Lemma verticalBody_holdings (lines : list string) (i0 : nat)
    (holdings : list ParsedHolding) :
  verticalBody lines i0 holdings
  = match verticalBody lines i0 [] with
    | Break => Break
    | Next i' added => Next i' (holdings ++ added)
    end.
Proof.
  unfold verticalBody.
  destruct (stripPrefix sectionPrefixes _) as [cleanedLine cur].
  repeat (match goal with
          | |- context [match ?b with _ => _ end] =>
              match type of b with
              | bool => destruct b
              | option _ => destruct b
              end
          end);
    rewrite ?app_nil_r; reflexivity.
Qed.

(** A pass that leaves the cursor and the holdings as they were is repeated
    for ever. *)
Lemma stalled_loop_never_returns (lines : list string) (i : nat)
    (holdings : list ParsedHolding) :
  (i < length lines)%nat ->
  verticalBody lines i holdings = Next i holdings ->
  forall fuel, verticalLoop fuel lines i holdings = None.
Proof.
  intros Hlt Hbody fuel. induction fuel as [|fuel IH]; [done|].
  cbn [verticalLoop]. apply Nat.ltb_lt in Hlt. by rewrite Hlt, Hbody.
Qed.

Lemma verticalLoop_more_fuel (lines : list string) (fuel fuel' : nat)
    (i : nat) (holdings result : list ParsedHolding) :
  verticalLoop fuel lines i holdings = Some result ->
  (fuel <= fuel')%nat ->
  verticalLoop fuel' lines i holdings = Some result.
Proof.
  revert fuel' i holdings.
  induction fuel as [|fuel IH]; intros fuel' i holdings; [done|].
  destruct fuel' as [|fuel']; [lia|]. cbn [verticalLoop].
  destruct (i <? length lines)%nat; [|done].
  destruct (verticalBody lines i holdings) as [|i' holdings']; [done|].
  intros H Hle. apply IH; [done | lia].
Qed.

(** The stalling pass is the only way not to return: when no line of the
    section is a row on which the cursor stays, the loop ends within one
    pass per line. *)
Lemma vertical_loop_terminates (lines : list string) :
  (forall j, (j < length lines)%nat -> stallsAt lines j = false) ->
  forall (i : nat) (holdings : list ParsedHolding),
    exists result,
      verticalLoop (S (length lines - i)) lines i holdings = Some result.
Proof.
  intros Hno i.
  remember (length lines - i)%nat as n eqn:Hn. revert i Hn.
  induction n as [n IH] using lt_wf_ind. intros i Hn holdings.
  cbn [verticalLoop]. destruct (i <? length lines)%nat eqn:Hlt; [|by eexists].
  apply Nat.ltb_lt in Hlt.
  destruct (verticalBody lines i holdings) as [|i' holdings'] eqn:Hbody;
    [by eexists|].
  pose proof (verticalBody_cursor _ _ _ _ _ Hbody) as [Hge _].
  assert (i' <> i) as Hne.
  { intros ->. specialize (Hno i Hlt). unfold stallsAt in Hno.
    rewrite verticalBody_holdings in Hbody.
    destruct (verticalBody lines i []) as [|j added]; [done|].
    injection Hbody as -> _. by rewrite Nat.eqb_refl in Hno. }
  destruct (IH (length lines - i')%nat ltac:(lia) i' eq_refl holdings')
    as [result Hres].
  exists result. eapply verticalLoop_more_fuel; [exact Hres | lia].
Qed.

Lemma zero_quantity_body :
  verticalBody zeroQuantityLines 10 [] = Next 10 [].
Proof. vm_compute. reflexivity. Qed.

Lemma zero_quantity_loop (fuel : nat) :
  verticalLoop fuel zeroQuantityLines 10 [] = None.
Proof.
  apply stalled_loop_never_returns; [vm_compute; lia|].
  apply zero_quantity_body.
Qed.

(** C1.  On a vertical section whose only row has quantity 0, a pass through
    the loop body leaves the cursor where it was, and the parser does not
    return, however many passes are made. *)
Theorem zero_quantity_row_stalls :
  splitLines zeroQuantityStatement = zeroQuantityLines
  /\ verticalBody zeroQuantityLines 10 [] = Next 10 []
  /\ forall fuel, parseOpenPositions fuel zeroQuantityStatement = None.
Proof.
  split; [by vm_compute|]. split; [apply zero_quantity_body|].
  intros fuel. rewrite <- (zero_quantity_loop fuel).
  unfold parseOpenPositions.
  replace (indexOf zeroQuantityStatement "Open Positions" 0) with (Some 0%nat)
    by (vm_compute; reflexivity).
  cbv zeta.
  replace (indexOf zeroQuantityStatement "Forex" 0) with (@None nat)
    by (vm_compute; reflexivity).
  replace (indexOf zeroQuantityStatement "Notes" 0) with (@None nat)
    by (vm_compute; reflexivity).
  rewrite Nat.min_id, Nat.sub_0_r.
  replace (substring 0 (String.length zeroQuantityStatement)
             zeroQuantityStatement) with zeroQuantityStatement
    by (vm_compute; reflexivity).
  replace (splitLines zeroQuantityStatement) with zeroQuantityLines
    by (vm_compute; reflexivity).
  replace (findHeaderLine zeroQuantityLines 0
             (Nat.min 15 (length zeroQuantityLines))) with (Some 1%nat)
    by (vm_compute; reflexivity).
  replace (isVerticalFormat zeroQuantityLines 1) with true
    by (vm_compute; reflexivity).
  replace (headerEnd (drop 1 zeroQuantityLines) 1 0) with 10%nat
    by (vm_compute; reflexivity).
  reflexivity.
Qed.

(** A short position (negative quantity) does the same. *)
Example short_position_row_stalls :
  verticalBody shortPositionLines 10 [] = Next 10 []
  /\ forall fuel, verticalLoop fuel shortPositionLines 10 [] = None.
Proof.
  assert (verticalBody shortPositionLines 10 [] = Next 10 []) as Hbody
    by (vm_compute; reflexivity).
  split; [exact Hbody|].
  apply stalled_loop_never_returns; [vm_compute; lia | exact Hbody].
Qed.

(** The same section with quantity 100 is parsed. *)
Example positive_quantity_row_parsed :
  exists h,
    parseOpenPositions 5 (joinLines longPositionLines) = Some [h]
    /\ p_symbol h = "IWDA"%string
    /\ (p_quantity h =? Fin 100)%num = true
    /\ (p_price h =? Fin 105.525)%num = true
    /\ (p_value h =? Fin 10552.5)%num = true.
Proof. eexists. split; [vm_compute; reflexivity|]. vm_compute. done. Qed.

(* ===================================================================== *)
(** * Further properties *)
(* ===================================================================== *)

(** ** Numbers *)

Lemma gtb_of_not_leb (x : num) :
  isNaN x = false -> (x <=? Fin 0)%num = false -> (x >? Fin 0)%num = true.
Proof.
  destruct x as [a| | |]; simpl; try done. intros _ H.
  unfold gtb. simpl. qprops. lra.
Qed.

(** [v || d] is NaN only if [d] is. *)
Lemma or_number (v d : num) : isNaN d = false -> isNaN (Js.or v d) = false.
Proof.
  intros Hd. unfold Js.or. destruct (truthy v) eqn:Hv; [|done].
  by destruct v.
Qed.

Lemma valueOr_number (values : list num) (k : nat) (d : num) :
  isNaN d = false -> isNaN (valueOr values k d) = false.
Proof.
  intros Hd. unfold valueOr. destruct (nth_error values k); [|done].
  by apply or_number.
Qed.

Lemma valueOr_zero_not_NaN (values : list num) (k : nat) :
  isNaN (valueOr values k (Fin 0)) = false.
Proof.
  unfold valueOr. destruct (nth_error values k) as [v|]; [|done].
  unfold Js.or. destruct v as [q| | |]; simpl; try done.
  by destruct (negb _).
Qed.

(** The product of two numbers above 0 is a number, whether it is finite
    or not. *)
Lemma mul_positive_number (x y : num) :
  (x >? Fin 0)%num = true -> (y >? Fin 0)%num = true ->
  isNaN (x * y)%num = false.
Proof.
  destruct x as [a| | |], y as [b| | |]; unfold gtb; simpl; try done.
  - intros Ha _. qprops. apply Qgt_alt in Ha. by rewrite Ha.
  - intros _ Hb. qprops. apply Qgt_alt in Hb. by rewrite Hb.
Qed.

(** The quantity and the price that pass the test
    [quantity <= 0 || price <= 0] are above 0, and the value stored with
    them is a number. *)
Lemma row_positive (values : list num) :
  let quantity := valueOr values 0 (Fin 0) in
  let price := valueOr values 4 (Fin 0) in
  ((quantity <=? Fin 0)%num || (price <=? Fin 0)%num) = false ->
  (quantity >? Fin 0)%num = true /\ (price >? Fin 0)%num = true
  /\ isNaN (valueOr values 5 (quantity * price)%num) = false.
Proof.
  intros quantity price H. apply orb_false_iff in H as [Hq Hp].
  apply gtb_of_not_leb in Hq; [|apply valueOr_zero_not_NaN].
  apply gtb_of_not_leb in Hp; [|apply valueOr_zero_not_NaN].
  split; [done|]. split; [done|].
  apply valueOr_number. by apply mul_positive_number.
Qed.

(** ** Statement parser: what a parsed holding looks like *)

Lemma substring_length (n m : nat) (s : string) :
  (n + m <= String.length s)%nat ->
  String.length (String.substring n m s) = m.
Proof.
  revert n m. induction s as [|c s IH]; intros n m; simpl.
  - intros H. assert (n = 0 /\ m = 0)%nat as [-> ->] by lia. done.
  - intros H. destruct n as [|n].
    + destruct m as [|m]; [done|]. simpl. f_equal. apply IH. simpl. lia.
    + apply IH. lia.
Qed.

Lemma lastChars_length (k : nat) (s t : string) :
  lastChars k s = Some t -> String.length t = k.
Proof.
  unfold lastChars. destruct (k <=? String.length s)%nat eqn:Hk; [|done].
  apply Nat.leb_le in Hk. intros [= <-]. apply substring_length. lia.
Qed.

Lemma suffixSymbol_shape (len : nat) (s t : string) :
  suffixSymbol len s = Some t ->
  String.length t = len /\ forallb_str isUpperAlnum t = true.
Proof.
  unfold suffixSymbol. destruct (lastChars len s) as [u|] eqn:Hu; [|done].
  destruct (forallb_str isUpperAlnum u) eqn:Hall; [|done].
  destruct (existsb_str isUpperAZ u); [|done].
  intros [= <-]. split; [by eapply lastChars_length | done].
Qed.

Lemma extractSymbol_shape (cleanedLine symbol : string) :
  extractSymbol cleanedLine = Some symbol -> tickerShaped symbol = true.
Proof.
  unfold extractSymbol, tickerShaped.
  destruct (suffixSymbol 5 cleanedLine) as [t|] eqn:H5.
  { intros [= <-]. apply suffixSymbol_shape in H5 as [-> ->]. done. }
  destruct (suffixSymbol 4 cleanedLine) as [t|] eqn:H4.
  { intros [= <-]. apply suffixSymbol_shape in H4 as [-> ->]. done. }
  destruct (suffixSymbol 3 cleanedLine) as [t|] eqn:H3.
  { intros [= <-]. apply suffixSymbol_shape in H3 as [-> ->]. done. }
  destruct (suffixSymbol 2 cleanedLine) as [t|] eqn:H2.
  { intros [= <-]. apply suffixSymbol_shape in H2 as [-> ->]. done. }
  destruct (suffixSymbol 1 cleanedLine) as [t|] eqn:H1.
  { intros [= <-]. apply suffixSymbol_shape in H1 as [-> ->]. done. }
  destruct (_ && _) eqn:Hall; [|done]. by intros [= <-].
Qed.

Lemma stripPrefix_currency (symbolLine cleanedLine : string)
    (currency : option string) :
  stripPrefix sectionPrefixes symbolLine = (cleanedLine, currency) ->
  currency ∈ statementCurrencies.
Proof.
  unfold sectionPrefixes, statementCurrencies. cbn [stripPrefix].
  repeat (destruct (startsWith symbolLine _);
          [intros [= _ <-]; set_solver|]).
  intros [= _ <-]. set_solver.
Qed.

(** A pass of the vertical loop leaves the holdings as they are or appends
    one holding. *)
Lemma verticalBody_appends (lines : list string) (i0 : nat)
    (holdings : list ParsedHolding) (i' : nat) (holdings' : list ParsedHolding) :
  verticalBody lines i0 holdings = Next i' holdings' ->
  holdings' = holdings
  \/ exists h, holdings' = holdings ++ [h]
       /\ positiveHolding h = true
       /\ tickerShaped (p_symbol h) = true
       /\ p_currency h ∈ statementCurrencies.
Proof.
  unfold verticalBody.
  set (i := skipFiller (drop i0 lines) i0).
  destruct (stripPrefix sectionPrefixes _) as [cleanedLine cur] eqn:Hstrip.
  destruct (length lines <=? i)%nat; [done|].
  destruct (notSymbolLine _); [intros [= _ <-]; by left|].
  destruct (isSectionHeader _); [intros [= _ <-]; by left|].
  destruct (length lines <? i + rowSize)%nat; [done|].
  destruct (extractSymbol cleanedLine) as [symbol|] eqn:Hsym;
    [|intros [= _ <-]; by left].
  destruct (length (rowValues _) <? 6)%nat; [intros [= _ <-]; by left|].
  destruct (_ || _) eqn:Hskip; [intros [= _ <-]; by left|].
  intros [= _ <-]. right. eexists. split; [reflexivity|].
  apply row_positive in Hskip as (Hq & Hp & Hv).
  split; [|split].
  - unfold positiveHolding. cbn [p_quantity p_price p_value].
    rewrite Hq, Hp. cbn [andb]. apply negb_true_iff.
    by apply or_number, mul_positive_number.
  - by apply extractSymbol_shape in Hsym.
  - by apply stripPrefix_currency in Hstrip.
Qed.

Lemma verticalLoop_holdings (P : ParsedHolding -> Prop) (lines : list string) :
  (forall i0 holdings i' holdings',
     verticalBody lines i0 holdings = Next i' holdings' ->
     holdings' = holdings \/ exists h, holdings' = holdings ++ [h] /\ P h) ->
  forall fuel i holdings result,
    verticalLoop fuel lines i holdings = Some result ->
    Forall P holdings -> Forall P result.
Proof.
  intros Hbody fuel. induction fuel as [|fuel IH]; intros i holdings result;
    [done|].
  cbn [verticalLoop]. destruct (i <? length lines)%nat; [|by intros [= <-]].
  destruct (verticalBody lines i holdings) as [|i' holdings'] eqn:Hb;
    [by intros [= <-]|].
  intros Hres Hall. apply (IH _ _ _ Hres).
  destruct (Hbody _ _ _ _ Hb) as [-> | (h & -> & Hh)]; [done|].
  apply Forall_app. split; [done|]. by constructor.
Qed.

Lemma horizontalRow_appends (line : string) (holdings : list ParsedHolding) :
  horizontalRow line holdings = holdings
  \/ exists h, horizontalRow line holdings = holdings ++ [h]
       /\ positiveHolding h = true.
Proof.
  unfold horizontalRow.
  destruct (_ || _); [by left|].
  destruct (tokens _) as [|part0 rest]; [by left|].
  destruct (length (part0 :: rest) <? 6)%nat; [by left|].
  destruct (stripPrefix horizontalPrefixes part0) as [symbol cur].
  destruct (length (horizontalNumbers rest) <? 5)%nat; [by left|].
  destruct (_ || _) eqn:Hskip; [by left|].
  right. eexists. split; [reflexivity|].
  apply row_positive in Hskip as (Hq & Hp & Hv).
  unfold positiveHolding. cbn [p_quantity p_price p_value].
  by rewrite Hq, Hp, Hv.
Qed.

Lemma horizontalRows_positive (rest : list string) :
  Forall (fun h => positiveHolding h = true) (horizontalRows rest).
Proof.
  unfold horizontalRows.
  assert (forall acc, Forall (fun h => positiveHolding h = true) acc ->
            Forall (fun h => positiveHolding h = true)
              (fold_left (fun holdings line => horizontalRow line holdings)
                 rest acc)) as H.
  { induction rest as [|line rest IH]; intros acc Hacc; [done|].
    simpl. apply IH.
    destruct (horizontalRow_appends line acc) as [-> | (h & -> & Hh)];
      [done|].
    apply Forall_app. split; [done|]. by constructor. }
  by apply H.
Qed.

Lemma verticalLoop_positive (fuel : nat) (lines : list string) (i : nat)
    (holdings : list ParsedHolding) :
  verticalLoop fuel lines i [] = Some holdings ->
  Forall (fun h => positiveHolding h = true) holdings.
Proof.
  intros Hloop.
  eapply (verticalLoop_holdings (fun h => positiveHolding h = true));
    [|exact Hloop|done].
  intros i0 hs i' hs' Hb.
  destruct (verticalBody_appends _ _ _ _ _ Hb) as [-> | (h & -> & Hh & _)];
    [by left|].
  right. by exists h.
Qed.

(** X1.  Every holding that [parseOpenPositions] returns, from either
    layout, has a quantity above 0, a price above 0 and a value that is a
    number (not NaN). *)
Theorem open_positions_are_positive (fuel : nat) (text : string)
    (holdings : list ParsedHolding) :
  parseOpenPositions fuel text = Some holdings ->
  Forall (fun h => positiveHolding h = true) holdings.
Proof.
  unfold parseOpenPositions.
  destruct (indexOf text "Open Positions" 0); [|by intros [= <-]].
  destruct (findHeaderLine _ _ _) as [headerIndex|]; [|by intros [= <-]].
  destruct (isVerticalFormat _ _).
  - apply verticalLoop_positive.
  - intros [= <-]. apply horizontalRows_positive.
Qed.

Lemma open_positions_are_positive_witness :
  exists holdings,
    parseOpenPositions 5 (joinLines longPositionLines) = Some holdings
    /\ Forall (fun h => positiveHolding h = true) holdings.
Proof.
  eexists. split; [vm_compute; reflexivity|].
  apply (open_positions_are_positive 5 (joinLines longPositionLines)).
  vm_compute. reflexivity.
Defined.

(** X2.  In the vertical layout the symbol of every parsed holding consists
    of one to six upper-case letters and digits, and its currency, when it
    has one, is EUR, USD, GBP or JPY. *)
Theorem vertical_symbols_are_tickers (fuel : nat) (lines : list string)
    (i : nat) (holdings : list ParsedHolding) :
  verticalLoop fuel lines i [] = Some holdings ->
  Forall (fun h => tickerShaped (p_symbol h) = true
                   /\ p_currency h ∈ statementCurrencies) holdings.
Proof.
  intros Hloop.
  eapply (verticalLoop_holdings _ lines); [|exact Hloop|done].
  intros i0 hs i' hs' Hb.
  destruct (verticalBody_appends _ _ _ _ _ Hb)
    as [-> | (h & -> & _ & Hs & Hc)]; [by left|].
  right. by exists h.
Qed.

Lemma vertical_symbols_are_tickers_witness :
  exists holdings,
    verticalLoop 5 longPositionLines 10 [] = Some holdings
    /\ Forall (fun h => tickerShaped (p_symbol h) = true
                        /\ p_currency h ∈ statementCurrencies) holdings.
Proof.
  eexists. split; [vm_compute; reflexivity|].
  apply (vertical_symbols_are_tickers 5 longPositionLines 10).
  vm_compute. reflexivity.
Defined.

(** X3.  The vertical loop returns whenever no line of the section is a row
    on which the cursor stays: one pass per remaining line, and one more,
    are enough. *)
Theorem vertical_loop_returns (lines : list string) (i fuel : nat) :
  (forall j, (j < length lines)%nat -> stallsAt lines j = false) ->
  (length lines - i < fuel)%nat ->
  exists result, verticalLoop fuel lines i [] = Some result.
Proof.
  intros Hno Hfuel.
  destruct (vertical_loop_terminates lines Hno i []) as [result Hres].
  exists result. eapply verticalLoop_more_fuel; [exact Hres | lia].
Qed.

Lemma vertical_loop_returns_witness :
  exists result, verticalLoop 10 longPositionLines 10 [] = Some result.
Proof.
  apply (vertical_loop_returns longPositionLines 10 10).
  - intros j Hj.
    do 19 (destruct j as [|j]; [vm_compute; reflexivity|]).
    simpl in Hj. lia.
  - simpl. lia.
Defined.

(** ** The lines of a CSV file *)

Lemma parseCsvLineFrom_plain (c : ascii) (rest current : string)
    (inQuotes : bool) (result : list string) :
  isQuote c = false -> (isComma c && negb inQuotes) = false ->
  parseCsvLineFrom (String c rest) current inQuotes result
  = parseCsvLineFrom rest (current ++ String c EmptyString)%string inQuotes
      result.
Proof.
  unfold isQuote, isComma. intros Hq Hc. cbn [parseCsvLineFrom].
  by rewrite Hq, Hc.
Qed.

Lemma append_cons (x : ascii) (a b : string) :
  (String x a ++ b)%string = String x (a ++ b)%string.
Proof. reflexivity. Qed.

Lemma append_empty_l (a : string) : (EmptyString ++ a)%string = a.
Proof. reflexivity. Qed.

Lemma append_assoc (a b c : string) :
  ((a ++ b) ++ c)%string = (a ++ (b ++ c))%string.
Proof.
  induction a as [|x a IH]; [done|]. rewrite !append_cons. by rewrite IH.
Qed.

Lemma append_empty_r (a : string) : (a ++ EmptyString)%string = a.
Proof.
  induction a as [|x a IH]; [done|]. rewrite append_cons. by rewrite IH.
Qed.

(** Inside quotes the escaped field is read back, up to the closing quote,
    when what follows the closing quote is not a quote. *)
Lemma parseCsvLineFrom_quoted (field rest current : string)
    (result : list string) :
  match rest with
  | String c _ => isQuote c = false
  | EmptyString => True
  end ->
  parseCsvLineFrom
    (csvEscape field ++ String quoteChar rest)%string current true result
  = parseCsvLineFrom rest (current ++ field)%string false result.
Proof.
  intros Hrest. revert current.
  induction field as [|c field IH]; intros current.
  - rewrite append_empty_r. cbn [csvEscape]. rewrite append_empty_l.
    cbn [parseCsvLineFrom]. rewrite Ascii.eqb_refl.
    destruct rest as [|d rest]; [done|].
    unfold isQuote in Hrest. by rewrite Hrest.
  - cbn [csvEscape]. destruct (Ascii.eqb c quoteChar) eqn:Hc.
    + apply Ascii.eqb_eq in Hc as ->.
      rewrite !append_cons. cbn [parseCsvLineFrom]. rewrite Ascii.eqb_refl.
      cbn [andb]. rewrite IH. by rewrite append_assoc.
    + rewrite append_cons. rewrite parseCsvLineFrom_plain; [|done|].
      * rewrite IH. by rewrite append_assoc.
      * by rewrite andb_false_r.
Qed.

Lemma parseCsvLineFrom_open_quote (rest : string) (result : list string) :
  rest <> EmptyString ->
  parseCsvLineFrom (String quoteChar rest) EmptyString false result
  = parseCsvLineFrom rest EmptyString true result.
Proof.
  intros Hne. cbn [parseCsvLineFrom]. rewrite Ascii.eqb_refl.
  by destruct rest.
Qed.

Lemma append_quote_nonempty (a rest : string) :
  (a ++ String quoteChar rest)%string <> EmptyString.
Proof. by destruct a. Qed.

Lemma parseCsvLineFrom_csvJoin (fields : list string) (result : list string) :
  fields <> [] ->
  parseCsvLineFrom (csvJoin fields) EmptyString false result
  = (result ++ fields)%list.
Proof.
  revert result. induction fields as [|field fields IH]; intros result Hne;
    [done|].
  destruct fields as [|field' fields].
  - cbn [csvJoin]. unfold csvQuote.
    rewrite parseCsvLineFrom_open_quote by apply append_quote_nonempty.
    by rewrite parseCsvLineFrom_quoted.
  - change (csvJoin (field :: field' :: fields))
      with (csvQuote field ++ "," ++ csvJoin (field' :: fields))%string.
    unfold csvQuote. rewrite append_cons, append_assoc, !append_cons,
      append_empty_l.
    rewrite parseCsvLineFrom_open_quote by apply append_quote_nonempty.
    rewrite parseCsvLineFrom_quoted by done.
    rewrite append_empty_l. cbn [parseCsvLineFrom].
    change (Ascii.eqb ","%char quoteChar) with false.
    change (Ascii.eqb ","%char ","%char) with true. cbn [andb negb].
    rewrite IH by done. by rewrite <- app_assoc.
Qed.

(** X4.  Reading back a line written with every field between double quotes
    and every double quote of a field doubled gives the fields, whatever
    they contain (commas, quotes, white space). *)
Theorem parseCsvLine_reads_quoted_fields (fields : list string) :
  fields <> [] -> parseCsvLine (csvJoin fields) = fields.
Proof. intros Hne. unfold parseCsvLine. by rewrite parseCsvLineFrom_csvJoin. Qed.

Lemma parseCsvLine_reads_quoted_fields_witness :
  parseCsvLine (csvJoin quotedFields) = quotedFields.
Proof. apply (parseCsvLine_reads_quoted_fields quotedFields). discriminate. Defined.

Lemma splitOn_nonempty (p : ascii -> bool) (s : string) : splitOn p s <> [].
Proof.
  induction s as [|c s IH]; cbn [splitOn]; [done|].
  destruct (p c); [done|]. by destruct (splitOn p s).
Qed.

Lemma parseCsvLineFrom_unquoted (line current : string)
    (result : list string) :
  forallb_str (fun c => negb (isQuote c)) line = true ->
  parseCsvLineFrom line current false result
  = (result
     ++ match splitOn isComma line with
        | w :: ws => (current ++ w)%string :: ws
        | [] => [current]
        end)%list.
Proof.
  revert current result.
  induction line as [|c line IH]; intros current result Hq.
  - cbn [parseCsvLineFrom splitOn]. by rewrite append_empty_r.
  - cbn [forallb_str] in Hq. apply andb_true_iff in Hq as [Hc Hq].
    apply negb_true_iff in Hc. cbn [splitOn].
    pose proof (splitOn_nonempty isComma line) as Hne.
    destruct (isComma c) eqn:Hcomma.
    + cbn [parseCsvLineFrom]. unfold isQuote, isComma in Hc, Hcomma.
      rewrite Hc, Hcomma. cbn [andb negb]. rewrite IH by done.
      rewrite append_empty_r.
      destruct (splitOn isComma line) as [|w ws]; [done|].
      by rewrite <- app_assoc.
    + rewrite parseCsvLineFrom_plain; [|done|by rewrite Hcomma].
      rewrite IH by done.
      destruct (splitOn isComma line) as [|w ws]; [done|].
      by rewrite append_assoc.
Qed.

(** X5.  On a line without double quotes [parseCsvLine] is [line.split(',')]:
    the fields are the texts between the commas, as they stand. *)
Theorem parseCsvLine_without_quotes (line : string) :
  forallb_str (fun c => negb (isQuote c)) line = true ->
  parseCsvLine line = splitOn isComma line.
Proof.
  intros Hq. unfold parseCsvLine. rewrite parseCsvLineFrom_unquoted by done.
  pose proof (splitOn_nonempty isComma line) as Hne.
  by destruct (splitOn isComma line).
Qed.

Lemma parseCsvLine_without_quotes_witness :
  parseCsvLine "Stock,,US Stock market, 38%"
  = splitOn isComma "Stock,,US Stock market, 38%".
Proof.
  apply (parseCsvLine_without_quotes "Stock,,US Stock market, 38%").
  vm_compute. reflexivity.
Defined.

(** ** [trim] and [normalizeAssetType] *)

(** Splits a membership in a list that is written out into its cases. *)
Ltac list_cases H :=
  repeat (apply elem_of_cons in H as [H | H]);
  try (by apply elem_of_nil in H).

(** The result of [normalizeAssetType] is one of the six names, or the
    trimmed text, which is then left as it is by a second pass. *)
Lemma normalizeAssetType_cases (assetType : string) :
  normalizeAssetType assetType ∈ canonicalAssetTypes
  \/ (normalizeAssetType assetType = trim assetType
      /\ normalizeAssetType (trim assetType) = trim assetType).
Proof.
  unfold normalizeAssetType, canonicalAssetTypes. rewrite trim_idem.
  repeat (match goal with
          | |- context [if ?b then _ else _] =>
              destruct b; [left; set_solver|]
          end).
  by right.
Qed.

(** X6.  [normalizeAssetType] is idempotent: what it returns is not changed
    by normalising it again. *)
Theorem normalizeAssetType_idempotent (assetType : string) :
  normalizeAssetType (normalizeAssetType assetType)
  = normalizeAssetType assetType.
Proof.
  destruct (normalizeAssetType_cases assetType) as [Hc | [-> Ht]]; [|done].
  unfold canonicalAssetTypes in Hc.
  list_cases Hc; rewrite Hc; by vm_compute.
Qed.

(** X7.  [normalizeAssetType] never returns Shares, Money Markets Funds,
    Bonds or Commodities, so the lists that [VALID_CATEGORIES] holds under
    these four keys are never the ones a row is checked against. *)
Theorem normalizeAssetType_never_plural (assetType : string) :
  normalizeAssetType assetType
  ∉ ["Shares"; "Money Markets Funds"; "Bonds"; "Commodities"]%string.
Proof.
  intros Hin.
  destruct (normalizeAssetType_cases assetType) as [Hc | [Heq Ht]].
  - unfold canonicalAssetTypes in Hc.
    list_cases Hc; rewrite Hc in Hin; list_cases Hin; discriminate.
  - rewrite Heq in Hin.
    list_cases Hin; rewrite Hin in Ht; vm_compute in Ht; discriminate.
Qed.

(** X8.  A row whose asset type is normalised to Bond or to Commodity gets
    no category warning, whatever its category: [VALID_CATEGORIES] has no
    entry under these two names. *)
Theorem bond_and_commodity_rows_never_warn (i : nat)
    (assetType assetCategory : string) :
  normalizeAssetType assetType ∈ ["Bond"; "Commodity"]%string ->
  excelCategoryWarning i assetType assetCategory = Some [].
Proof.
  intros Hin. unfold excelCategoryWarning.
  destruct (nonEmpty assetCategory); [|done].
  list_cases Hin; by rewrite Hin.
Qed.

Lemma bond_and_commodity_rows_never_warn_witness :
  excelCategoryWarning 3 "Government bonds" "No such category" = Some [].
Proof.
  apply (bond_and_commodity_rows_never_warn 3 "Government bonds"
           "No such category").
  vm_compute. apply list_elem_of_here.
Defined.

(** ** What the target parsers return *)

Lemma normalizeAssetType_nonEmpty (cell : string) :
  nonEmpty (trim cell) = true ->
  nonEmpty (normalizeAssetType (trim cell)) = true.
Proof.
  intros Hne.
  destruct (normalizeAssetType_cases (trim cell)) as [Hc | [-> _]].
  - unfold canonicalAssetTypes in Hc. list_cases Hc; by rewrite Hc.
  - by rewrite trim_idem.
Qed.

Lemma percentage_accepted (percentage : num) :
  invalidPercentage percentage = false ->
  (percentage =? Fin 0)%num = false ->
  percentageInRange percentage = true.
Proof.
  intros Hinv Hnz. apply valid_percentage_range in Hinv as (q & -> & Hq).
  unfold percentageInRange, gtb. simpl in *. apply andb_true_iff.
  split; qprops; lra.
Qed.

Lemma csvField_nonEmpty (row : list string) (idx : option nat) :
  optionalNonEmpty (csvField row idx) = true.
Proof.
  unfold csvField, orUndefined.
  destruct (truthyStr _) eqn:Ht; [|done].
  by destruct (option_map trim (csvCell row idx)).
Qed.

Lemma csvOptionalField_nonEmpty (row : list string) (idx : option nat) :
  optionalNonEmpty
    (match idx with Some _ => csvField row idx | None => None end) = true.
Proof. destruct idx; [apply csvField_nonEmpty | done]. Qed.

Lemma csvAssetType_trimmed (hm : CsvHeaderMap) (row : list string) :
  nonEmpty (csvAssetType hm row) = true ->
  exists cell, csvAssetType hm row = trim cell.
Proof.
  unfold csvAssetType, orStr.
  destruct (option_map trim (csvCell row (hc_assetType hm))) as [s|] eqn:Hs;
    [|done].
  destruct (csvCell row (hc_assetType hm)) as [cell|]; [|done].
  injection Hs as <-. destruct (nonEmpty (trim cell)); [|done].
  by exists cell.
Qed.

Lemma csvOtherTickers_nonEmpty (hm : CsvHeaderMap) (row : list string) :
  forallb nonEmpty (csvOtherTickers hm row) = true.
Proof.
  unfold csvOtherTickers. destruct (hc_otherTickers hm); [|done].
  destruct (nonEmpty _); [|done].
  apply forallb_forall. intros t Ht. apply list_elem_of_In in Ht.
  apply list_elem_of_filter in Ht as [Ht _].
  destruct t; [|done]. cbn in Ht. lia.
Qed.

Lemma csvRowStep_ok (hm : CsvHeaderMap) (i : nat) (line : string)
    (acc : ParsedCsvTargetsResult) :
  Forall (fun t => csvTargetOk t = true) (csv_targets acc) ->
  Forall (fun t => csvTargetOk t = true)
    (csv_targets (csvRowStep hm i line acc)).
Proof.
  intros Hacc. unfold csvRowStep.
  destruct (negb (nonEmpty (trim line))); [done|].
  destruct (nonEmpty (csvAssetType hm (parseCsvLine line))) eqn:Ha; [|done].
  cbn [negb].
  destruct (invalidPercentage _) eqn:Hinv; [done|].
  destruct (_ =? _)%num eqn:Hnz; [done|].
  cbn [csv_targets]. apply Forall_app. split; [done|].
  constructor; [|done].
  unfold csvTargetOk.
  cbn [c_assetType c_assetCategory c_instrument c_isin c_mainTicker
       c_otherTickers c_targetPercentage].
  destruct (csvAssetType_trimmed _ _ Ha) as [cell Hcell].
  rewrite Hcell in Ha |- *.
  rewrite (normalizeAssetType_nonEmpty _ Ha).
  rewrite (percentage_accepted _ Hinv Hnz).
  rewrite !csvOptionalField_nonEmpty. cbn [andb].
  destruct (0 <? length _)%nat eqn:Hlen; [|done].
  cbv iota. by rewrite Hlen, csvOtherTickers_nonEmpty.
Qed.

Lemma csvRows_ok (hm : CsvHeaderMap) (i : nat) (lines : list string)
    (acc : ParsedCsvTargetsResult) :
  Forall (fun t => csvTargetOk t = true) (csv_targets acc) ->
  Forall (fun t => csvTargetOk t = true) (csv_targets (csvRows hm i lines acc)).
Proof.
  revert i acc. induction lines as [|line rest IH]; intros i acc Hacc;
    [done|].
  cbn [csvRows]. by apply IH, csvRowStep_ok.
Qed.

(** X9.  Every target that [parseTargetCsv] returns has an asset type that
    is not empty, a percentage above 0 and at most 100, optional fields that
    are absent rather than empty, and, when it lists other tickers, at least
    one of them and none that is empty. *)
Theorem csv_targets_are_well_formed (csvText : string) :
  Forall (fun t => csvTargetOk t = true)
    (csv_targets (parseTargetCsv csvText)).
Proof.
  unfold parseTargetCsv.
  destruct (length _ <? 2)%nat; [done|].
  destruct (filter _ _) as [|headerLine dataLines]; [done|].
  destruct (hc_assetType _); [|done].
  destruct (hc_percentage _); [|done].
  rewrite (proj1 (csvFinish_lists _)). by apply csvRows_ok.
Qed.

Lemma excelAssetType_nonEmpty (hm : ExcelHeaderMap) (row : list Cell) :
  nonEmpty (excelAssetType hm row) = true ->
  nonEmpty (normalizeAssetType (excelAssetType hm row)) = true.
Proof. unfold excelAssetType. apply normalizeAssetType_nonEmpty. Qed.

Lemma strOpt_nonEmpty (s : string) : optionalNonEmpty (strOpt s) = true.
Proof. unfold strOpt. by destruct (nonEmpty s) eqn:Hs. Qed.

Lemma excelRowStep_ok (hm : ExcelHeaderMap) (i : nat) (row : list Cell)
    (acc acc' : ParsedTargetsResult) :
  excelRowStep hm i row acc = Some acc' ->
  Forall (fun t => excelTargetOk t = true) (xl_targets acc) ->
  Forall (fun t => excelTargetOk t = true) (xl_targets acc').
Proof.
  unfold excelRowStep.
  destruct (excelBlankRow row); [by intros [= <-]|].
  destruct (nonEmpty (excelAssetType hm row)) eqn:Ha; [|by intros [= <-]].
  cbn [negb].
  destruct (invalidPercentage _) eqn:Hinv; [by intros [= <-]|].
  destruct (_ =? _)%num eqn:Hnz; [by intros [= <-]|].
  destruct (excelCategoryWarning _ _ _); [|done].
  intros [= <-] Hacc. cbn [xl_targets]. apply Forall_app. split; [done|].
  constructor; [|done].
  unfold excelTargetOk.
  cbn [x_assetType x_assetCategory x_isin x_ticker x_targetPercentage].
  rewrite (excelAssetType_nonEmpty _ _ Ha).
  rewrite (percentage_accepted _ Hinv Hnz).
  by rewrite !strOpt_nonEmpty.
Qed.

Lemma excelRows_ok (hm : ExcelHeaderMap) (i : nat) (rows : list (list Cell))
    (acc acc' : ParsedTargetsResult) :
  excelRows hm i rows acc = Some acc' ->
  Forall (fun t => excelTargetOk t = true) (xl_targets acc) ->
  Forall (fun t => excelTargetOk t = true) (xl_targets acc').
Proof.
  revert i acc. induction rows as [|row rest IH]; intros i acc;
    [by intros [= <-]|].
  cbn [excelRows].
  destruct (excelRowStep hm i row acc) as [acc1|] eqn:Hstep; [|done].
  intros Hrest Hacc. apply (IH _ _ Hrest). by eapply excelRowStep_ok.
Qed.

(** X10.  Every target that [parseTargetExcel] returns has an asset type
    that is not empty, a percentage above 0 and at most 100, and a category,
    an ISIN and a ticker that are absent rather than empty. *)
Theorem excel_targets_are_well_formed (data : list (list Cell)) :
  Forall (fun t => excelTargetOk t = true)
    (xl_targets (parseTargetExcel data)).
Proof.
  unfold parseTargetExcel.
  destruct (length data <? 2)%nat; [done|].
  destruct (findHeader data) as [[headerRowIndex hm]|]; [|done].
  destruct (excelRows _ _ _ _) as [acc|] eqn:Hrows; [|done].
  rewrite (proj1 (excelFinish_lists _)). by eapply excelRows_ok.
Qed.

Lemma csvRowStep_warnings (hm : CsvHeaderMap) (i : nat) (line : string)
    (acc : ParsedCsvTargetsResult) :
  csv_warnings (csvRowStep hm i line acc) = csv_warnings acc.
Proof.
  unfold csvRowStep.
  repeat (match goal with
          | |- context [if ?b then _ else _] => destruct b
          end); done.
Qed.

Lemma csvRows_warnings (hm : CsvHeaderMap) (i : nat) (lines : list string)
    (acc : ParsedCsvTargetsResult) :
  csv_warnings (csvRows hm i lines acc) = csv_warnings acc.
Proof.
  revert i acc. induction lines as [|line rest IH]; intros i acc; [done|].
  cbn [csvRows]. by rewrite IH, csvRowStep_warnings.
Qed.

(** X11.  [parseTargetCsv] either turns the file down before it reads a data
    row (fewer than two lines, or no Asset Type or percentage column), with
    one error and nothing else, or it returns at most one warning, which is
    the note on the total: no row ever adds a warning.  A file that is read
    and gives no target always carries the note, for a total of 0.00. *)
Theorem csv_warning_is_the_total (csvText : string) :
  let result := parseTargetCsv csvText in
  result ∈ csvRejections
  \/ ((csv_warnings result = []
       \/ exists shown, csv_warnings result = [totalNote shown])
      /\ (csv_targets result = [] ->
          csv_warnings result = [totalNote "0.00"])).
Proof.
  unfold parseTargetCsv, csvRejections.
  destruct (filter _ _) as [|headerLine dataLines].
  { left. apply list_elem_of_here. }
  destruct (length _ <? 2)%nat; [left; apply list_elem_of_here|].
  destruct (hc_assetType _);
    [|left; apply list_elem_of_further, list_elem_of_here].
  destruct (hc_percentage _);
    [|left; apply list_elem_of_further, list_elem_of_here].
  right. cbv zeta. rewrite (proj1 (csvFinish_lists _)).
  unfold csvFinish. split.
  - destruct (totalOff _); cbn [csv_warnings]; rewrite csvRows_warnings;
      [right; by eexists | by left].
  - intros ->. cbn. by rewrite csvRows_warnings.
Qed.

(** ** The header row of a sheet *)

Lemma findHeaderFrom_none (i fuel : nat) (rows : list (list Cell)) :
  (forall j row, (j < fuel)%nat -> rows !! j = Some row ->
     detectHeader row = None) ->
  findHeaderFrom i fuel rows = None.
Proof.
  revert i rows. induction fuel as [|fuel IH]; intros i rows Hno; [done|].
  destruct rows as [|row rest]; [done|]. cbn [findHeaderFrom].
  rewrite (Hno 0%nat row) by (done || lia).
  apply IH. intros j row' Hj Hrow. apply (Hno (S j) row'); [lia | done].
Qed.

(** X12.  The header row is looked for in the first five rows only: a sheet
    none of whose first five rows has both an asset-type and a percentage
    column is turned down, whatever the rows below hold. *)
Theorem header_below_fifth_row_is_not_found (data : list (list Cell)) :
  (2 <= length data)%nat ->
  (forall j row, (j < 5)%nat -> data !! j = Some row ->
     detectHeader row = None) ->
  parseTargetExcel data
  = mkExcelResult [] []
      ["Could not find header row with required columns (Asset Type, %)"%string].
Proof.
  intros Hlen Hno. unfold parseTargetExcel.
  assert ((length data <? 2)%nat = false) as -> by (apply Nat.ltb_ge; lia).
  unfold findHeader. rewrite findHeaderFrom_none; [done|].
  intros j row Hj. apply Hno. lia.
Qed.

Lemma header_below_fifth_row_is_not_found_witness :
  detectHeader [CStr "Asset Type"; CStr "%"]
  = Some (mkExcelHeaderMap 0 None None None None 1)
  /\ parseTargetExcel lateHeaderSheet
     = mkExcelResult [] []
         ["Could not find header row with required columns (Asset Type, %)"%string].
Proof.
  split; [vm_compute; reflexivity|].
  apply (header_below_fifth_row_is_not_found lateHeaderSheet).
  - vm_compute. lia.
  - intros j row Hj.
    do 5 (destruct j as [|j]; [intros [= <-]; vm_compute; reflexivity|]).
    lia.
Defined.

(** ** Sorting puts the elements in order *)

Section SortOrder.
Context {A : Type}.
Variable compareFn : A -> A -> num.
Variable good : A -> Prop.
Variable before : A -> A -> Prop.
Hypothesis before_trans :
  forall x y z, good x -> good y -> good z ->
    before x y -> before y z -> before x z.
Hypothesis moved :
  forall x y, good x -> good y ->
    (compareFn x y >? Fin 0)%num = true -> before y x.
Hypothesis kept :
  forall x y, good x -> good y ->
    (compareFn x y >? Fin 0)%num = false -> before x y.

Lemma sortInsert_sorted (x : A) (l : list A) :
  good x -> Forall good l ->
  StronglySorted before l -> StronglySorted before (sortInsert compareFn x l).
Proof.
  intros Hx. induction l as [|y l IH]; intros Hgood Hl; cbn [sortInsert].
  - repeat constructor.
  - apply StronglySorted_inv in Hl as [Hl Hy].
    apply Forall_cons in Hgood as [Hgy Hgl].
    destruct (compareFn x y >? Fin 0)%num eqn:Hc.
    + constructor; [by apply IH|].
      rewrite (sortInsert_perm compareFn x l).
      constructor; [by apply moved | done].
    + constructor; [by constructor|].
      constructor; [by apply kept|].
      rewrite Forall_forall in Hy, Hgl. apply Forall_forall. intros z Hz.
      apply (before_trans x y z); auto.
Qed.

Lemma jsSort_sorted (l : list A) :
  Forall good l -> StronglySorted before (jsSort compareFn l).
Proof.
  induction l as [|x l IH]; intros Hgood; cbn; [constructor|].
  apply Forall_cons in Hgood as [Hx Hl].
  apply sortInsert_sorted; [done| |by apply IH].
  by rewrite (jsSort_perm compareFn l).
Qed.
End SortOrder.

(** ** The matcher: every holding is answered once *)

Section MatcherOutcome.
Variable JSON_parse : string -> option (list string).

Lemma lookupsStep_category (lk : TargetLookups) (t : TargetAllocation)
    (key : string) :
  targetsByCategory (lookupsStep JSON_parse lk t) !! key
  = if isCategoryTarget JSON_parse t
       && String.eqb (categoryKey (t_asset_type t) (t_asset_category t)) key
    then Some (default [] (targetsByCategory lk !! key) ++ [t])
    else targetsByCategory lk !! key.
Proof.
  unfold lookupsStep, isCategoryTarget. cbn [targetsByCategory].
  destruct (negb _ && _); [|done]. cbn [andb].
  destruct (String.eqb_spec
              (categoryKey (t_asset_type t) (t_asset_category t)) key)
    as [Heq|Hne].
  - rewrite Heq. by rewrite lookup_insert_eq.
  - by rewrite lookup_insert_ne.
Qed.

Lemma fold_category (targets : list TargetAllocation) (lk : TargetLookups)
    (key : string) :
  targetsByCategory (fold_left (lookupsStep JSON_parse) targets lk) !! key
  = match categoryTargetsFor JSON_parse key targets with
    | [] => targetsByCategory lk !! key
    | adds => Some (default [] (targetsByCategory lk !! key) ++ adds)
    end.
Proof.
  revert lk. induction targets as [|t targets IH]; intros lk; [done|].
  cbn [fold_left]. rewrite IH, lookupsStep_category.
  unfold categoryTargetsFor. cbn [List.filter].
  destruct (isCategoryTarget JSON_parse t && _).
  - destruct (List.filter _ targets) as [|a adds]; [done|].
    simpl. by rewrite <- app_assoc.
  - done.
Qed.

Lemma category_lookup (targets : list TargetAllocation) (key : string) :
  targetsByCategory (buildLookups JSON_parse targets) !! key
  = match categoryTargetsFor JSON_parse key targets with
    | [] => None
    | adds => Some adds
    end.
Proof.
  unfold buildLookups. rewrite fold_category. cbn [targetsByCategory].
  rewrite lookup_empty. by destruct (categoryTargetsFor JSON_parse key targets).
Qed.

Lemma hasCategoryMatch_filter (targets : list TargetAllocation) (h : Holding) :
  hasCategoryMatch JSON_parse targets h
  = match categoryTargetsFor JSON_parse
            (categoryKey (h_asset_type h) (h_asset_category h)) targets with
    | [] => false
    | _ => true
    end.
Proof.
  unfold hasCategoryMatch, categoryTargetsFor, isCategoryTarget.
  induction targets as [|t targets IH]; [done|].
  cbn [existsb List.filter]. rewrite IH.
  by destruct (negb _ && _ && _).
Qed.

Lemma lookupsStep_isin_Some (lk : TargetLookups) (t x : TargetAllocation)
    (k : string) :
  targetsByIsin (lookupsStep JSON_parse lk t) !! k = Some x ->
  targetsByIsin lk !! k = Some x \/ x = t.
Proof.
  unfold lookupsStep. cbn [targetsByIsin].
  destruct (t_isin t) as [isin|]; [|by left].
  destruct (nonEmpty isin); [|by left].
  intros H. apply lookup_insert_Some in H as [[_ <-]|[_ H]]; [by right|].
  by left.
Qed.

Lemma fold_lookups_isin_Some (targets : list TargetAllocation)
    (lk : TargetLookups) (x : TargetAllocation) (k : string) :
  targetsByIsin (fold_left (lookupsStep JSON_parse) targets lk) !! k = Some x ->
  targetsByIsin lk !! k = Some x \/ x ∈ targets.
Proof.
  revert lk. induction targets as [|t targets IH]; intros lk; cbn [fold_left];
    [by left|].
  intros H. apply IH in H as [H|H].
  - apply lookupsStep_isin_Some in H as [H| ->]; [by left|].
    right. apply list_elem_of_here.
  - right. by apply list_elem_of_further.
Qed.

(** Whatever [findMatch] answers is a target of the list. *)
Lemma findMatch_target (targets : list TargetAllocation) (h : Holding)
    (t : TargetAllocation) (mt : MatchType) :
  findMatch (buildLookups JSON_parse targets) h = Some (t, mt) ->
  t ∈ targets.
Proof.
  unfold findMatch.
  destruct (if nonEmpty (h_symbol h) then _ else _) as [t1|] eqn:H1.
  { intros [= <- <-]. destruct (nonEmpty (h_symbol h)); [|done].
    unfold buildLookups in H1.
    apply fold_lookups_symbol_Some in H1 as [H1|[H1 _]]; done. }
  destruct (match h_isin h with Some _ => _ | None => _ end) as [t2|] eqn:H2.
  { intros [= <- <-]. destruct (h_isin h) as [isin|]; [|done].
    destruct (nonEmpty isin); [|done].
    unfold buildLookups in H2.
    apply fold_lookups_isin_Some in H2 as [H2|H2]; done. }
  rewrite category_lookup.
  destruct (categoryTargetsFor JSON_parse _ targets) as [|a adds] eqn:Hadds; [done|].
  intros [= <- <-].
  assert (a ∈ categoryTargetsFor JSON_parse
                (categoryKey (h_asset_type h) (h_asset_category h)) targets)
    as Hin by (rewrite Hadds; apply list_elem_of_here).
  unfold categoryTargetsFor in Hin.
  apply list_elem_of_In, filter_In in Hin as [Hin _].
  by apply list_elem_of_In.
Qed.

Lemma findMatch_is_Some (targets : list TargetAllocation) (h : Holding) :
  is_Some (findMatch (buildLookups JSON_parse targets) h)
  <-> hasMatch JSON_parse targets h = true.
Proof.
  unfold findMatch, hasMatch.
  pose proof (bySymbol_is_Some JSON_parse targets h) as Hs.
  pose proof (byIsin_is_Some JSON_parse targets h) as Hi.
  destruct (if nonEmpty (h_symbol h) then _ else _) as [t1|].
  { rewrite (proj1 Hs) by (by eexists). split; [done | by eexists]. }
  assert (hasSymbolMatch JSON_parse targets h = false) as ->.
  { destruct (hasSymbolMatch JSON_parse targets h); [|done].
    destruct (proj2 Hs eq_refl); done. }
  destruct (match h_isin h with Some _ => _ | None => _ end) as [t2|].
  { rewrite (proj1 Hi) by (by eexists). split; [done | by eexists]. }
  assert (hasIsinMatch targets h = false) as ->.
  { destruct (hasIsinMatch targets h); [|done].
    destruct (proj2 Hi eq_refl); done. }
  rewrite category_lookup, hasCategoryMatch_filter.
  destruct (categoryTargetsFor JSON_parse _ targets); cbn [orb].
  - split; [intros [? ?]; done | done].
  - split; [done | by eexists].
Qed.

Lemma unmatched_fold (lk : TargetLookups) (targets : list TargetAllocation)
    (holdings : list Holding) (acc : MatchResult) :
  unmatched (fold_left (matchStep lk targets) holdings acc)
  = unmatched acc ++ omap (unmatchedOf lk targets) holdings.
Proof.
  revert acc. induction holdings as [|h hs IH]; intros acc; cbn [fold_left].
  - by rewrite app_nil_r.
  - rewrite IH. unfold matchStep, unmatchedOf. cbn [omap list_omap].
    destruct (findMatch lk h) as [[t mt]|]; cbn [unmatched]; [done|].
    by rewrite <- app_assoc.
Qed.

Lemma match_result_lengths (holdings : list Holding)
    (targets : list TargetAllocation) :
  let result := matchHoldingsToTargets JSON_parse holdings targets in
  length (matched result) + length (unmatched result) = length holdings.
Proof.
  intros result. unfold result.
  rewrite matched_spec. unfold matchHoldingsToTargets.
  rewrite unmatched_fold. cbn [unmatched app].
  induction holdings as [|h holdings IH]; [done|].
  cbn [omap list_omap]. unfold matchedOf, unmatchedOf in *.
  destruct (findMatch _ h) as [[t mt]|]; cbn [length]; lia.
Qed.

(** X13.  The matcher answers every holding once, in the order of the
    input: the unmatched entries are the holdings that match no target by
    symbol, by ISIN or by category, returned as they are; the matched
    entries are the other holdings, with their id, symbol, ISIN, quantity,
    price and value unchanged. *)
Theorem matcher_partitions_holdings (holdings : list Holding)
    (targets : list TargetAllocation) :
  let result := matchHoldingsToTargets JSON_parse holdings targets in
  map u_holding (unmatched result)
  = List.filter (fun h => negb (hasMatch JSON_parse targets h)) holdings
  /\ map (fun m => holdingIdentity (m_holding m)) (matched result)
     = map holdingIdentity (List.filter (hasMatch JSON_parse targets) holdings)
  /\ length (matched result) + length (unmatched result) = length holdings.
Proof.
  intros result. unfold result.
  rewrite matched_spec. unfold matchHoldingsToTargets.
  rewrite unmatched_fold. cbn [unmatched app].
  set (lk := buildLookups JSON_parse targets).
  assert (forall h, hasMatch JSON_parse targets h
                    = match findMatch lk h with Some _ => true | None => false end)
    as Hm.
  { intros h. pose proof (findMatch_is_Some targets h) as Hh. fold lk in Hh.
    destruct (findMatch lk h) as [r|].
    - apply Hh. by eexists.
    - destruct (hasMatch JSON_parse targets h); [|done].
      destruct (proj2 Hh eq_refl); done. }
  induction holdings as [|h holdings (IH1 & IH2 & IH3)]; [done|].
  cbn [omap list_omap List.filter]. unfold matchedOf, unmatchedOf.
  rewrite Hm. destruct (findMatch lk h) as [[t mt]|]; cbn [negb].
  - split; [exact IH1|]. split; [cbn; by rewrite <- IH2|].
    cbn [length]. unfold matchedOf, unmatchedOf in IH3. lia.
  - split; [cbn; by rewrite <- IH1|]. split; [exact IH2|].
    cbn [length]. unfold matchedOf, unmatchedOf in IH3. lia.
Qed.

(** X14.  A matched entry always points to a target of the list: it carries
    the id of that target and its asset type. *)
Theorem matched_entry_has_its_target (holdings : list Holding)
    (targets : list TargetAllocation) (m : MatchedHolding) :
  m ∈ matched (matchHoldingsToTargets JSON_parse holdings targets) ->
  exists t, t ∈ targets
    /\ m_matchedTargetId m = t_id t
    /\ h_asset_type (m_holding m) = t_asset_type t
    /\ m_matchType m <> none.
Proof.
  rewrite matched_spec. intros Hin.
  apply list_elem_of_omap in Hin as (h & Hin & Hm).
  unfold matchedOf in Hm.
  destruct (findMatch _ h) as [[t mt]|] eqn:Hf; [|done].
  injection Hm as <-. exists t.
  split; [by eapply findMatch_target|]. split; [done|]. split; [done|].
  cbn [m_matchType]. apply findMatch_kind in Hf. by destruct mt.
Qed.

Lemma suggestionFor_target (h : Holding) (t : TargetAllocation)
    (s : Suggestion) :
  suggestionFor h t = Some s ->
  sg_target s = t /\ (0 < sg_matchScore s)%Q.
Proof.
  unfold suggestionFor.
  destruct (match t_symbol t with Some _ => _ | None => _ end) as [s1 r1].
  destruct (match h_isin h with Some _ => _ | None => _ end) as [s2 r2].
  destruct (match h_asset_category h with Some _ => _ | None => _ end)
    as [s3 r3].
  destruct (Qltb 0 s3) eqn:Hs; [|done]. intros [= <-].
  split; [done|]. by apply Qltb_lt.
Qed.

(** X15.  The suggestions for a holding are the five best-scoring targets:
    together with the ones left out they are all the targets with a
    positive score, each once, in descending order of score; at most five
    are returned. *)
Theorem suggestions_are_the_best_five (h : Holding)
    (targets : list TargetAllocation) :
  let suggestions := findSuggestedMatches h targets in
  exists leftOut,
    Permutation (suggestions ++ leftOut) (omap (suggestionFor h) targets)
    /\ StronglySorted scoresAtLeast (suggestions ++ leftOut)
    /\ length suggestions = Nat.min 5 (length (suggestions ++ leftOut))
    /\ Forall (fun s => sg_target s ∈ targets /\ (0 < sg_matchScore s)%Q)
         suggestions.
Proof.
  intros suggestions. unfold suggestions, findSuggestedMatches.
  set (all := omap (suggestionFor h) targets).
  set (sorted := jsSort compareSuggestions all).
  exists (drop 5 sorted). rewrite take_drop.
  split; [apply jsSort_perm|]. split.
  - apply (jsSort_sorted compareSuggestions (fun _ => True) scoresAtLeast).
    + unfold scoresAtLeast. intros x y z _ _ _ Hxy Hyz. lra.
    + unfold scoresAtLeast, compareSuggestions, gtb. intros x y _ _ Hc.
      simpl in Hc. qprops. lra.
    + unfold scoresAtLeast, compareSuggestions, gtb. intros x y _ _ Hc.
      simpl in Hc. qprops. lra.
    + by apply Forall_forall.
  - split; [by rewrite length_take|].
    apply Forall_forall. intros s Hs.
    assert (s ∈ all) as Hall.
    { apply (elem_of_jsSort compareSuggestions). fold sorted.
      apply elem_of_take in Hs as (i & Hi & _).
      by eapply list_elem_of_lookup_2. }
    apply list_elem_of_omap in Hall as (t & Ht & Hst).
    apply suggestionFor_target in Hst as [-> Hpos]. done.
Qed.
End MatcherOutcome.

Lemma matched_entry_has_its_target_witness :
  exists t, t ∈ bothTargets
    /\ m_matchedTargetId
         (mkMatched (retag vtiLower (tickerTarget "VTI" 38)) 0 exact_symbol)
       = t_id t
    /\ h_asset_type
         (m_holding
            (mkMatched (retag vtiLower (tickerTarget "VTI" 38)) 0
               exact_symbol))
       = t_asset_type t
    /\ m_matchType
         (mkMatched (retag vtiLower (tickerTarget "VTI" 38)) 0 exact_symbol)
       <> none.
Proof.
  apply (matched_entry_has_its_target noJson [vtiLower] bothTargets).
  vm_compute. apply list_elem_of_here.
Defined.

(** ** The plan: what is traded, and in which order it is listed *)

Lemma ltb_not_leb (x y : num) :
  (y <? x)%num = true -> (x <=? y)%num = false.
Proof.
  destruct x as [a| | |], y as [b| | |]; simpl; try done.
  intros H. qprops. lra.
Qed.

Lemma positive_not_zero (x : num) :
  (x >? Fin 0)%num = true -> (x =? Fin 0)%num = false.
Proof.
  unfold gtb. destruct x as [a| | |]; simpl; try done.
  intros H. qprops. lra.
Qed.

Section PlanShape.
Variable JSON_parse : string -> option (list string).
Variables (tv : Q) (tol : num) (tm cm : gmap string Q).

(** The asset of an entry for which an action is pushed is not
    [balanced], and the action repeats its symbol and allocations. *)
Lemma entryAction_asset (k : string) (e : AllocEntry)
    (act : RebalancingAction) :
  entryAction tv tol tm cm k e = Some act ->
  let asset := assetFor tv tol tm cm k e in
  s_symbol asset = a_symbol act
  /\ s_currentAllocation asset = a_currentAllocation act
  /\ s_targetAllocation asset = a_targetAllocation act
  /\ s_status asset <> balanced
  /\ a_action act <> OK
  /\ a_status act
     = match a_action act with BUY => needs_buy | _ => needs_sell end.
Proof.
  unfold entryAction, assetFor.
  destruct (resolveTarget tm cm k e) as [targetPctQ hasAnyTarget].
  cbv zeta. unfold actionFor, classify.
  destruct (trulyUnmapped _ _ _) eqn:Hun.
  { rewrite orb_true_r. by intros [= <-]. }
  rewrite orb_false_r.
  destruct (_ >? _)%num eqn:Hpos; [|done].
  destruct (abs _ >? tol)%num eqn:Hdev; [|done]. cbn [andb].
  rewrite (positive_not_zero _ Hpos). cbn [andb].
  rewrite (ltb_not_leb _ _ Hdev).
  assert ((if (e_allocation e - Fin targetPctQ <? Fin 0)%num
           then needs_buy else needs_sell) <> balanced) as Hst
    by (by destruct (_ <? _)%num).
  destruct (_ - _ >? Fin 0)%num; intros [= <-]; cbn; repeat split; done.
Qed.
End PlanShape.

Section PlanOrder.
Variable JSON_parse : string -> option (list string).

(** X16.  Every action of the plan belongs to a position that the plan
    lists with the same symbol and the same current and target allocation
    and with a status other than [balanced]: a balanced position is never
    traded.  The action is a BUY with status [needs_buy] or a SELL with
    status [needs_sell]. *)
Theorem actions_are_for_unbalanced_assets (holdings : list Holding)
    (targets : list TargetAllocation) (tv : Q) (tol : num)
    (maps : gmap string string) (act : RebalancingAction) :
  let plan := calculateRebalancing JSON_parse holdings targets tv tol maps in
  act ∈ actions plan ->
  (exists asset, asset ∈ allAssets plan
     /\ s_symbol asset = a_symbol act
     /\ s_currentAllocation asset = a_currentAllocation act
     /\ s_targetAllocation asset = a_targetAllocation act
     /\ s_status asset <> balanced)
  /\ a_action act <> OK
  /\ a_status act
     = match a_action act with BUY => needs_buy | _ => needs_sell end.
Proof.
  intros plan Hin. unfold plan in Hin. rewrite plan_actions in Hin.
  apply list_elem_of_omap in Hin as ([k e] & Hin & Hact).
  unfold actionOf in Hact. cbn [fst snd] in Hact.
  pose proof (entryAction_asset _ _ _ _ _ _ _ Hact)
    as (H1 & H2 & H3 & H4 & H5 & H6).
  split; [|done].
  eexists. split; [by apply entry_asset_in_plan|]. done.
Qed.

Lemma compareAssets_same (a b : AssetStatus) :
  s_status a = s_status b ->
  compareAssets a b = (abs (s_deviation b) - abs (s_deviation a))%num.
Proof. unfold compareAssets. intros ->. by destruct (s_status b). Qed.

Lemma compareAssets_rank (a b : AssetStatus) :
  s_status a <> s_status b ->
  (compareAssets a b >? Fin 0)%num
  = (statusRank (s_status b) <? statusRank (s_status a))%nat.
Proof.
  unfold compareAssets. by destruct (s_status a), (s_status b).
Qed.

Lemma status_eq_dec (s s' : Status) : {s = s'} + {s <> s'}.
Proof. decide equality. Qed.

Lemma statusRank_inj (s s' : Status) : statusRank s = statusRank s' -> s = s'.
Proof. by destruct s, s'. Qed.

(** X17.  [allAssets] lists the positions to buy first, then the positions
    to sell, then the balanced ones, for every input. *)
Theorem assets_are_grouped_by_status (holdings : list Holding)
    (targets : list TargetAllocation) (tv : Q) (tol : num)
    (maps : gmap string string) :
  StronglySorted statusNotAfter
    (allAssets (calculateRebalancing JSON_parse holdings targets tv tol maps)).
Proof.
  unfold calculateRebalancing.
  destruct (buildTargetMaps JSON_parse targets) as [tm cm].
  cbn [allAssets].
  apply (jsSort_sorted compareAssets (fun _ => True) statusNotAfter).
  - unfold statusNotAfter. intros x y z _ _ _. lia.
  - unfold statusNotAfter. intros x y _ _ Hc.
    destruct (status_eq_dec (s_status x) (s_status y)) as [->|Hne]; [lia|].
    rewrite (compareAssets_rank _ _ Hne) in Hc. apply Nat.ltb_lt in Hc. lia.
  - unfold statusNotAfter. intros x y _ _ Hc.
    destruct (status_eq_dec (s_status x) (s_status y)) as [->|Hne]; [lia|].
    rewrite (compareAssets_rank _ _ Hne) in Hc. apply Nat.ltb_ge in Hc.
    assert (statusRank (s_status x) <> statusRank (s_status y))
      by (intros Heq; by apply statusRank_inj in Heq).
    lia.
  - by apply Forall_forall.
Qed.

(** The deviation of an entry is finite only if its allocation is. *)
Lemma finite_deviation_allocation (allocation : num) (target q : Q) :
  (allocation - Fin target)%num = Fin q -> exists a, allocation = Fin a.
Proof. destruct allocation as [a| | |]; try done. by eexists. Qed.

Lemma abs_leb_trans (x y z : Q) :
  (abs (Fin z) <=? abs (Fin y))%num = true ->
  (abs (Fin y) <=? abs (Fin x))%num = true ->
  (abs (Fin z) <=? abs (Fin x))%num = true.
Proof. simpl. intros H1 H2. qprops. lra. Qed.

Lemma abs_difference_moved (x y : Q) :
  (abs (Fin y) - abs (Fin x) >? Fin 0)%num = true ->
  (abs (Fin x) <=? abs (Fin y))%num = true.
Proof. unfold gtb. simpl. intros H. qprops. lra. Qed.

Lemma abs_difference_kept (x y : Q) :
  (abs (Fin y) - abs (Fin x) >? Fin 0)%num = false ->
  (abs (Fin y) <=? abs (Fin x))%num = true.
Proof. unfold gtb. simpl. intros H. qprops. lra. Qed.

(** X18.  When every deviation that the plan lists is a finite number,
    [allAssets] is in the order of the comparison function (by status, and
    within a status by descending absolute deviation) and [actions] is in
    descending order of absolute deviation. *)
Theorem plan_lists_are_ordered (holdings : list Holding)
    (targets : list TargetAllocation) (tv : Q) (tol : num)
    (maps : gmap string string) :
  let plan := calculateRebalancing JSON_parse holdings targets tv tol maps in
  Forall (fun asset => isFinite (s_deviation asset) = true) (allAssets plan) ->
  StronglySorted listedBefore (allAssets plan)
  /\ StronglySorted deviatesAtLeast (actions plan).
Proof.
  intros plan. unfold plan, calculateRebalancing.
  destruct (buildTargetMaps JSON_parse targets) as [tm cm].
  cbn [allAssets actions]. rewrite plan_fold_assets, plan_fold_actions.
  cbn [l_allAssets l_actions app]. intros Hfinite.
  assert (forall kv, kv ∈ buildAllocations holdings tv maps ->
            exists q, s_deviation (assetOf tv tol tm cm kv) = Fin q)
    as Hentries.
  { intros kv Hin. rewrite Forall_forall in Hfinite.
    specialize (Hfinite (assetOf tv tol tm cm kv)).
    destruct (s_deviation (assetOf tv tol tm cm kv)) as [q| | |];
      [by eexists| | |];
      (assert (false = true) as Habs; [|discriminate]);
      apply Hfinite, elem_of_jsSort, list_elem_of_fmap; by exists kv. }
  split.
  - apply (jsSort_sorted compareAssets
             (fun a => exists q, s_deviation a = Fin q) listedBefore).
    + unfold listedBefore.
      intros x y z [qx Hx] [qy Hy] [qz Hz] [Hxy|[Hxy Hxy']] [Hyz|[Hyz Hyz']].
      * left. lia.
      * left. rewrite <- Hyz. lia.
      * left. rewrite Hxy. lia.
      * right. split; [congruence|].
        rewrite Hx, Hy, Hz in *. by eapply abs_leb_trans.
    + unfold listedBefore. intros x y [qx Hx] [qy Hy] Hc.
      destruct (status_eq_dec (s_status x) (s_status y)) as [Heq|Hneq].
      * right. split; [done|]. rewrite (compareAssets_same _ _ Heq) in Hc.
        rewrite Hx, Hy in *. by apply abs_difference_moved.
      * left. rewrite (compareAssets_rank _ _ Hneq) in Hc.
        by apply Nat.ltb_lt in Hc.
    + unfold listedBefore. intros x y [qx Hx] [qy Hy] Hc.
      destruct (status_eq_dec (s_status x) (s_status y)) as [Heq|Hneq].
      * right. split; [done|]. rewrite (compareAssets_same _ _ Heq) in Hc.
        rewrite Hx, Hy in *. by apply abs_difference_kept.
      * left. rewrite (compareAssets_rank _ _ Hneq) in Hc.
        apply Nat.ltb_ge in Hc.
        assert (statusRank (s_status x) <> statusRank (s_status y))
          by (intros Heq; by apply statusRank_inj in Heq).
        lia.
    + apply Forall_forall. intros a Ha.
      apply list_elem_of_fmap in Ha as (kv & -> & Hin). by apply Hentries.
  - apply (jsSort_sorted compareActions
             (fun a => exists q, a_deviation a = Fin q) deviatesAtLeast).
    + unfold deviatesAtLeast. intros x y z [qx Hx] [qy Hy] [qz Hz] Hxy Hyz.
      rewrite Hx, Hy, Hz in *. by eapply abs_leb_trans.
    + unfold deviatesAtLeast, compareActions. intros x y [qx Hx] [qy Hy] Hc.
      rewrite Hx, Hy in *. by apply abs_difference_moved.
    + unfold deviatesAtLeast, compareActions. intros x y [qx Hx] [qy Hy] Hc.
      rewrite Hx, Hy in *. by apply abs_difference_kept.
    + apply Forall_forall. intros a Ha.
      apply list_elem_of_omap in Ha as ([k e] & Hin & Hact).
      destruct (Hentries _ Hin) as [qd Hd].
      unfold assetOf, assetFor in Hd. cbn [fst snd] in Hd.
      unfold actionOf, entryAction in Hact. cbn [fst snd] in Hact.
      destruct (resolveTarget tm cm k e) as [t hasAnyTarget].
      cbn [s_deviation] in Hd.
      destruct (finite_deviation_allocation _ _ _ Hd) as [q Hq].
      rewrite Hq in Hact. unfold actionFor in Hact.
      repeat (match type of Hact with
              | (if ?b then _ else _) = _ => destruct b
              end); try done; injection Hact as <-; cbn; by eexists.
Qed.

(** X19.  A portfolio that holds nothing but cash, or nothing at all, gets
    the empty plan: no position, no action and totals of zero. *)
Theorem cash_only_portfolio_has_empty_plan (holdings : list Holding)
    (targets : list TargetAllocation) (tv : Q) (tol : num)
    (maps : gmap string string) :
  forallb isCash holdings = true ->
  calculateRebalancing JSON_parse holdings targets tv tol maps = emptyPlan tv.
Proof.
  intros Hcash. unfold calculateRebalancing.
  destruct (buildTargetMaps JSON_parse targets) as [tm cm].
  rewrite <- buildAllocations_without_cash.
  assert (List.filter (fun h => negb (isCash h)) holdings = []) as ->; [|done].
  induction holdings as [|h holdings IH]; [done|].
  cbn [forallb] in Hcash. apply andb_true_iff in Hcash as [Hh Hrest].
  cbn [List.filter]. rewrite Hh. cbn [negb]. by apply IH.
Qed.
End PlanOrder.

Lemma actions_are_for_unbalanced_assets_witness :
  exists act, actions exitPlan = [act]
    /\ (exists asset, asset ∈ allAssets exitPlan
          /\ s_symbol asset = a_symbol act
          /\ s_currentAllocation asset = a_currentAllocation act
          /\ s_targetAllocation asset = a_targetAllocation act
          /\ s_status asset <> balanced)
    /\ a_action act <> OK
    /\ a_status act
     = match a_action act with BUY => needs_buy | _ => needs_sell end.
Proof.
  eexists. split; [vm_compute; reflexivity|].
  apply (actions_are_for_unbalanced_assets noJson exitHoldings
           [tickerTarget "VTI" 95] 10000 (Fin 10) ∅).
  vm_compute. apply list_elem_of_here.
Defined.

Lemma plan_lists_are_ordered_witness :
  StronglySorted listedBefore (allAssets scenarioPlan)
  /\ StronglySorted deviatesAtLeast (actions scenarioPlan).
Proof.
  apply (plan_lists_are_ordered noJson scenarioHoldings
           [tickerTarget "VTI" 38] 10000 (Fin 0.01) ∅).
  vm_compute. repeat constructor.
Defined.

Lemma cash_only_portfolio_has_empty_plan_witness :
  calculateRebalancing noJson [holdingOf "Cash" "Cash" 1 2500]
    [tickerTarget "VTI" 100] 2500 (Fin 1) ∅
  = emptyPlan 2500.
Proof.
  apply (cash_only_portfolio_has_empty_plan noJson
           [holdingOf "Cash" "Cash" 1 2500]).
  vm_compute. reflexivity.
Defined.

(** ** CSV statements *)

Lemma orUndefined_nonEmpty (o : option string) :
  optionalNonEmpty (orUndefined o) = true.
Proof. unfold orUndefined. destruct (truthyStr o) eqn:Ho; [|done]. by destruct o. Qed.

Lemma statementCsvHolding_ok (parts : list string) (h : ParsedCsvHolding) :
  statementCsvHolding parts = Some h -> csvHoldingOk h = true.
Proof.
  unfold statementCsvHolding. destruct (12 <=? length parts)%nat; [|done].
  unfold partIs at 2.
  destruct (nth_error parts 5) as [symbol|];
    [|by rewrite andb_false_r].
  destruct (_ && _) eqn:Hc; [|done]. intros [= <-].
  apply andb_true_iff in Hc as [Hc Hprice].
  apply andb_true_iff in Hc as [Hc _].
  apply andb_true_iff in Hc as [Hc Htotal].
  apply andb_true_iff in Hc as [_ Hsym].
  unfold csvHoldingOk.
  cbn [k_symbol k_price k_currency k_assetCategory].
  rewrite Hprice, !orUndefined_nonEmpty.
  simpl in Hsym |- *. by rewrite Hsym, Htotal.
Qed.

Lemma statementCsvStep_holdings (st : ParsedStatement) (line : string) :
  Forall (fun h => csvHoldingOk h = true) (ps_holdings st) ->
  Forall (fun h => csvHoldingOk h = true)
    (ps_holdings (statementCsvStep st line)).
Proof.
  intros Hst. unfold statementCsvStep.
  destruct (statementCsvHolding _) as [h|] eqn:Hh.
  - apply statementCsvHolding_ok in Hh.
    repeat (match goal with
            | |- context [if ?b then _ else _] => destruct b
            end); try done.
    cbn [ps_holdings]. apply Forall_app. split; [done|]. by constructor.
  - repeat (match goal with
            | |- context [if ?b then _ else _] => destruct b
            end); done.
Qed.

Lemma statementCsv_fold (P : ParsedStatement -> Prop)
    (lines : list string) (keep : string -> Prop) :
  (forall st line, keep line -> P st -> P (statementCsvStep st line)) ->
  Forall keep lines ->
  forall st, P st -> P (fold_left statementCsvStep lines st).
Proof.
  intros Hstep Hlines. induction Hlines as [|line lines Hline _ IH];
    intros st Hst; [done|].
  cbn [fold_left]. apply IH. by apply Hstep.
Qed.

Lemma parseIBStatementCSV_fields (csvText : string) :
  let st :=
    fold_left statementCsvStep (statementLines csvText)
      (mkStatement "UNKNOWN" "USD" [] (Fin 0) (Fin 0)) in
  let result := parseIBStatementCSV csvText in
  ps_accountId result = ps_accountId st
  /\ ps_baseCurrency result = ps_baseCurrency st
  /\ ps_holdings result = ps_holdings st
  /\ ps_cash result = ps_cash st.
Proof. cbv zeta. unfold parseIBStatementCSV. by destruct (_ =? _)%num. Qed.

(** X20.  A holding that [parseIBStatementCSV] returns has a symbol that is
    neither empty nor Total and a positive price, and its currency and asset
    category are absent rather than empty. *)
Theorem csv_statement_holdings_are_well_formed (csvText : string) :
  Forall (fun h => csvHoldingOk h = true)
    (ps_holdings (parseIBStatementCSV csvText)).
Proof.
  destruct (parseIBStatementCSV_fields csvText) as (_ & _ & -> & _).
  apply (statementCsv_fold
           (fun st => Forall (fun h => csvHoldingOk h = true) (ps_holdings st))
           _ (fun _ => True)).
  - intros st line _. apply statementCsvStep_holdings.
  - by apply Forall_forall.
  - done.
Qed.

Lemma statementCsvStep_account (st : ParsedStatement) (line : string) :
  firstFieldIs "Account Information" line = false ->
  ps_accountId (statementCsvStep st line) = ps_accountId st
  /\ ps_baseCurrency (statementCsvStep st line) = ps_baseCurrency st.
Proof.
  unfold firstFieldIs, statementCsvStep. intros ->. cbn [andb].
  repeat (match goal with
          | |- context [if ?b then _ else _] => destruct b
          | |- context [match ?o with Some _ => _ | None => _ end] =>
              destruct o
          end); done.
Qed.

Lemma statementCsvStep_value (st : ParsedStatement) (line : string) :
  firstFieldIs "Net Asset Value" line = false ->
  ps_cash (statementCsvStep st line) = ps_cash st
  /\ ps_totalValue (statementCsvStep st line) = ps_totalValue st.
Proof.
  unfold firstFieldIs, statementCsvStep. intros ->. cbn [andb].
  repeat (match goal with
          | |- context [if ?b then _ else _] => destruct b
          | |- context [match ?o with Some _ => _ | None => _ end] =>
              destruct o
          end); done.
Qed.

(** X21.  A statement file without an Account Information line is given the
    account id UNKNOWN and the base currency USD; one without a Net Asset
    Value line is given no cash, and as its total the sum of the values of
    its holdings. *)
Theorem csv_statement_defaults (csvText : string) :
  let result := parseIBStatementCSV csvText in
  (Forall (fun line => firstFieldIs "Account Information" line = false)
     (statementLines csvText) ->
   ps_accountId result = "UNKNOWN"%string
   /\ ps_baseCurrency result = "USD"%string)
  /\ (Forall (fun line => firstFieldIs "Net Asset Value" line = false)
        (statementLines csvText) ->
      ps_cash result = Fin 0
      /\ ps_totalValue result
         = (statementCsvSum (ps_holdings result) + Fin 0)%num).
Proof.
  cbv zeta.
  destruct (parseIBStatementCSV_fields csvText) as (-> & -> & Hh & ->).
  split.
  - intros Hlines.
    apply (statementCsv_fold
             (fun st => ps_accountId st = "UNKNOWN"%string
                        /\ ps_baseCurrency st = "USD"%string)
             (statementLines csvText)
             (fun line => firstFieldIs "Account Information" line = false));
      [|exact Hlines|done].
    intros st line Hline [H1 H2].
    destruct (statementCsvStep_account st line Hline) as [-> ->]. done.
  - intros Hlines.
    assert (ps_cash (fold_left statementCsvStep (statementLines csvText)
                       (mkStatement "UNKNOWN" "USD" [] (Fin 0) (Fin 0)))
            = Fin 0
            /\ ps_totalValue
                 (fold_left statementCsvStep (statementLines csvText)
                    (mkStatement "UNKNOWN" "USD" [] (Fin 0) (Fin 0)))
               = Fin 0) as [Hcash Htotal].
    { apply (statementCsv_fold
               (fun st => ps_cash st = Fin 0 /\ ps_totalValue st = Fin 0)
               (statementLines csvText)
               (fun line => firstFieldIs "Net Asset Value" line = false));
        [|exact Hlines|done].
      intros st line Hline [H1 H2].
      destruct (statementCsvStep_value st line Hline) as [-> ->]. done. }
    split; [done|].
    unfold parseIBStatementCSV. rewrite Htotal, Hcash. done.
Qed.

Lemma csv_statement_defaults_witness :
  ps_accountId (parseIBStatementCSV positionsOnlyCsv) = "UNKNOWN"%string
  /\ ps_baseCurrency (parseIBStatementCSV positionsOnlyCsv) = "USD"%string
  /\ ps_cash (parseIBStatementCSV positionsOnlyCsv) = Fin 0
  /\ ps_totalValue (parseIBStatementCSV positionsOnlyCsv)
     = (statementCsvSum (ps_holdings (parseIBStatementCSV positionsOnlyCsv))
        + Fin 0)%num
  /\ map k_symbol (ps_holdings (parseIBStatementCSV positionsOnlyCsv))
     = ["VTI"; "IWDA"]%string.
Proof.
  destruct (csv_statement_defaults positionsOnlyCsv) as [Ha Hv].
  destruct Ha as [H1 H2].
  { vm_compute. repeat constructor. }
  destruct Hv as [H3 H4].
  { vm_compute. repeat constructor. }
  split; [exact H1|]. split; [exact H2|]. split; [exact H3|].
  split; [exact H4|]. vm_compute. reflexivity.
Defined.

(** ** PDF statements: the Mark-to-Market section *)

Lemma valueOr_positive (values : list num) (k : nat) :
  (valueOr values k (Fin 0) <=? Fin 0)%num = false ->
  (valueOr values k (Fin 0) >? Fin 0)%num = true.
Proof. intros H. apply gtb_of_not_leb; [apply valueOr_zero_not_NaN | done]. Qed.

Lemma m2mSymbol_word (parts : list string) (symbol : string)
    (after : list string) :
  m2mSymbol parts = Some (symbol, after) -> isUpperWord symbol = true.
Proof.
  induction parts as [|part parts IH]; [done|]. cbn [m2mSymbol].
  destruct (isUpperWord part) eqn:Hp; [|done]. by intros [= <- _].
Qed.

Lemma m2mRow_appends (line : string) (holdings : list ParsedHolding) :
  m2mRow line holdings = holdings
  \/ exists h, m2mRow line holdings = holdings ++ [h] /\ m2mHoldingOk h.
Proof.
  unfold m2mRow.
  destruct (_ || _); [by left|].
  destruct (length _ <? 6)%nat; [by left|].
  destruct (m2mSymbol _) as [[symbol after]|] eqn:Hsym; [|by left].
  destruct (length (m2mNumbers after) <? 4)%nat; [by left|].
  destruct (_ || _) eqn:Hskip; [by left|].
  right. eexists. split; [reflexivity|].
  apply orb_false_iff in Hskip as [Hq Hp].
  apply valueOr_positive in Hq. apply valueOr_positive in Hp.
  apply m2mSymbol_word in Hsym. done.
Qed.

Lemma m2mRows_ok (rest : list string) (acc : list ParsedHolding) :
  Forall m2mHoldingOk acc ->
  Forall m2mHoldingOk
    (fold_left (fun holdings line => m2mRow line holdings) rest acc).
Proof.
  revert acc. induction rest as [|line rest IH]; intros acc Hacc; [done|].
  cbn [fold_left]. apply IH.
  destruct (m2mRow_appends line acc) as [-> | (h & -> & Hh)]; [done|].
  apply Forall_app. split; [done|]. by constructor.
Qed.

(** X22.  Every holding read from the Mark-to-Market section has a symbol of
    two to six upper-case letters, a positive quantity and a positive price,
    the product of the two as its value, and no currency. *)
Theorem m2m_holdings_are_well_formed (text : string) :
  Forall m2mHoldingOk (parseHoldingsFromText text).
Proof.
  unfold parseHoldingsFromText.
  destruct (m2mSectionOf text); [|done].
  destruct (m2mHeaderIndex _ _); [|done].
  by apply m2mRows_ok.
Qed.

Lemma m2mHoldingOk_positive (h : ParsedHolding) :
  m2mHoldingOk h -> positiveHolding h = true.
Proof.
  intros (_ & Hq & Hp & Hv & _). unfold positiveHolding.
  rewrite Hq, Hp, Hv. cbn [andb]. apply negb_true_iff.
  by apply mul_positive_number.
Qed.

(** X23.  The holdings of a PDF statement are those of its Open Positions
    section when it gives any, and those of its Mark-to-Market section
    otherwise; in both cases every holding has a quantity above 0, a price
    above 0 and a value that is a number (not NaN). *)
Theorem pdf_statement_holdings (fuel : nat) (text : string)
    (holdings : list ParsedHolding) :
  statementHoldings fuel text = Some holdings ->
  ((parseOpenPositions fuel text = Some holdings /\ holdings <> [])
   \/ (parseOpenPositions fuel text = Some []
       /\ holdings = parseHoldingsFromText text))
  /\ Forall (fun h => positiveHolding h = true) holdings.
Proof.
  unfold statementHoldings.
  destruct (parseOpenPositions fuel text) as [[|h hs]|] eqn:Hopen; [| |done].
  - intros [= <-]. split; [by right|].
    unfold parseHoldingsFromText.
    destruct (m2mSectionOf text); [|done].
    destruct (m2mHeaderIndex _ _); [|done].
    eapply Forall_impl; [by apply m2mRows_ok|].
    apply m2mHoldingOk_positive.
  - intros [= <-]. split; [by left|].
    unfold parseOpenPositions in Hopen.
    destruct (indexOf text "Open Positions" 0); [|done].
    destruct (findHeaderLine _ _ _) as [headerIndex|]; [|done].
    destruct (isVerticalFormat _ _).
    + by eapply verticalLoop_positive.
    + injection Hopen as <-. apply horizontalRows_positive.
Qed.

Lemma pdf_statement_holdings_witness :
  exists h,
    parseHoldingsFromText m2mOnlyText = [h]
    /\ p_symbol h = "VTI"%string
    /\ ((parseOpenPositions 1 m2mOnlyText = Some [h] /\ [h] <> [])
        \/ (parseOpenPositions 1 m2mOnlyText = Some []
            /\ [h] = parseHoldingsFromText m2mOnlyText))
    /\ Forall (fun h => positiveHolding h = true) [h].
Proof.
  eexists. split; [vm_compute; reflexivity|]. split; [reflexivity|].
  apply (pdf_statement_holdings 1 m2mOnlyText).
  vm_compute. reflexivity.
Defined.

(** ** Trading currencies *)

Section CurrencyCache.
Variables first second : string -> option string.

(** X24.  A currency that [getCurrencyForSymbol] has answered for a symbol
    is the answer of the next call for that symbol without a currency from
    the statement, whatever the online service says then; the call changes
    the cache for that symbol only. *)
Theorem currency_answer_is_remembered (currencyCache : gmap string string)
    (symbol : string) (fromStatement : option string) :
  let answer :=
    getCurrencyForSymbol first currencyCache symbol fromStatement in
  getCurrencyForSymbol second answer.2 symbol None = answer
  /\ forall other, other <> symbol ->
       answer.2 !! other = currencyCache !! other.
Proof.
  cbv zeta. unfold getCurrencyForSymbol.
  destruct (truthyStr fromStatement).
  { cbn [fst snd truthyStr]. rewrite lookup_insert_eq. split; [done|].
    intros other Hne. by rewrite lookup_insert_ne. }
  destruct (currencyCache !! symbol) as [cached|] eqn:Hc.
  { cbn [fst snd truthyStr]. by rewrite Hc. }
  destruct (patternCurrency CURRENCY_PATTERNS symbol) as [currency|].
  { cbn [fst snd truthyStr]. rewrite lookup_insert_eq. split; [done|].
    intros other Hne. by rewrite lookup_insert_ne. }
  destruct (truthyStr (first symbol)).
  - cbn [fst snd truthyStr]. rewrite lookup_insert_eq. split; [done|].
    intros other Hne. by rewrite lookup_insert_ne.
  - cbn [fst snd truthyStr]. rewrite lookup_insert_eq. split; [done|].
    intros other Hne. by rewrite lookup_insert_ne.
Qed.
End CurrencyCache.

Lemma spanWhile_all (p : ascii -> bool) (s : string) :
  forallb_str p s = true -> spanWhile p s = (s, EmptyString).
Proof.
  induction s as [|c s IH]; [done|]. cbn [forallb_str spanWhile].
  intros H. apply andb_true_iff in H as [-> H]. by rewrite (IH H).
Qed.

Lemma exchangeSymbol_letters (suffix symbol : string) :
  forallb_str isUpperAZ symbol = true -> suffix <> EmptyString ->
  exchangeSymbol suffix symbol = false.
Proof.
  intros Hall Hne. unfold exchangeSymbol. rewrite (spanWhile_all _ _ Hall).
  destruct suffix; [done|]. by rewrite andb_false_r.
Qed.

(** X25.  A symbol of one to five upper-case letters that is not cached and
    is not one of the listed European tickers trades in USD, and the online
    service is not asked. *)
Theorem plain_symbols_trade_in_usd (lookupCurrencyOnline : string -> option string)
    (currencyCache : gmap string string) (symbol : string) :
  isUsSymbol symbol = true ->
  existsb (String.eqb symbol) europeanTickers = false ->
  currencyCache !! symbol = None ->
  getCurrencyForSymbol lookupCurrencyOnline currencyCache symbol None
  = ("USD"%string, <[symbol := "USD"%string]> currencyCache).
Proof.
  intros Hus Heu Hcache. unfold getCurrencyForSymbol.
  cbn [truthyStr]. rewrite Hcache.
  assert (forallb_str isUpperAZ symbol = true) as Hall.
  { unfold isUsSymbol in Hus. by apply andb_true_iff in Hus as [_ ?]. }
  unfold CURRENCY_PATTERNS. cbn [patternCurrency].
  rewrite !(exchangeSymbol_letters _ _ Hall) by done.
  by rewrite Heu, Hus.
Qed.

Lemma plain_symbols_trade_in_usd_witness :
  getCurrencyForSymbol (fun _ => Some "EUR"%string) ∅ "VTI" None
  = ("USD"%string, <["VTI"%string := "USD"%string]> ∅).
Proof.
  apply (plain_symbols_trade_in_usd (fun _ => Some "EUR"%string) ∅ "VTI");
    reflexivity.
Defined.

(** ** Ticker lookup results *)

Lemma filter_confidence (c : Confidence) (tickers : list TickerLookupResult)
    (x : TickerLookupResult) :
  x ∈ List.filter (isConfidence c) tickers
  <-> x ∈ tickers /\ tl_confidence x = c.
Proof.
  rewrite !list_elem_of_In, filter_In. unfold isConfidence.
  split; intros [Hin Hc]; (split; [done|]).
  - by destruct c, (tl_confidence x).
  - rewrite Hc. by destruct c.
Qed.

(** X26.  [getBestTicker] answers [null] exactly when there is no ticker,
    and the primary ticker when the result names one.  Otherwise it answers
    the ticker of an entry that no other entry exceeds in confidence, and
    of one on a US exchange when a high-confidence entry is on one. *)
Theorem best_ticker_is_most_trusted (lookupResult : ISINLookupResult) :
  (getBestTicker lookupResult = None <-> il_tickers lookupResult = [])
  /\ (il_tickers lookupResult <> [] ->
      truthyStr (il_primaryTicker lookupResult) = true ->
      getBestTicker lookupResult = il_primaryTicker lookupResult)
  /\ (il_tickers lookupResult <> [] ->
      truthyStr (il_primaryTicker lookupResult) = false ->
      exists x, x ∈ il_tickers lookupResult
        /\ getBestTicker lookupResult = Some (tl_ticker x)
        /\ (forall y, y ∈ il_tickers lookupResult ->
              (confidenceRank (tl_confidence x)
               <= confidenceRank (tl_confidence y))%nat)
        /\ ((exists y, y ∈ il_tickers lookupResult
               /\ tl_confidence y = high /\ isUsExchange y = true) ->
            isUsExchange x = true)).
Proof.
  unfold getBestTicker.
  destruct (il_tickers lookupResult) as [|first rest] eqn:Ht.
  { split; [done|]. split; done. }
  rewrite <- Ht. split; [|split].
  - split; [|by rewrite Ht].
    destruct (truthyStr (il_primaryTicker lookupResult)) eqn:Hp.
    { intros Hnone. rewrite Hnone in Hp. done. }
    destruct (List.filter (isConfidence high) _) as [|h hs]; [|by destruct (find _ _)].
    by destruct (List.filter (isConfidence medium) _).
  - intros _ Hp. by rewrite Hp.
  - intros _ Hp. rewrite Hp.
    destruct (List.filter (isConfidence high) (il_tickers lookupResult))
      as [|firstHigh highs] eqn:Hhigh.
    + assert (forall y, y ∈ il_tickers lookupResult -> tl_confidence y <> high)
        as Hnohigh.
      { intros y Hy Hc.
        assert (y ∈ List.filter (isConfidence high) (il_tickers lookupResult))
          as Hin by (by apply filter_confidence).
        rewrite Hhigh in Hin. by apply elem_of_nil in Hin. }
      destruct (List.filter (isConfidence medium) (il_tickers lookupResult))
        as [|firstMedium mediums] eqn:Hmedium.
      * exists first. split; [rewrite Ht; apply list_elem_of_here|].
        split; [done|].
        assert (forall y, y ∈ il_tickers lookupResult -> tl_confidence y = low)
          as Hlow.
        { intros y Hy. specialize (Hnohigh y Hy).
          destruct (tl_confidence y) eqn:Hc; [done| |done].
          assert (y ∈ List.filter (isConfidence medium)
                        (il_tickers lookupResult))
            as Hin by (by apply filter_confidence).
          rewrite Hmedium in Hin. by apply elem_of_nil in Hin. }
        split.
        -- intros y Hy. rewrite (Hlow y Hy).
           rewrite (Hlow first) by (rewrite Ht; apply list_elem_of_here).
           done.
        -- intros (y & Hy & Hc & _). by apply Hnohigh in Hy.
      * assert (firstMedium ∈ List.filter (isConfidence medium)
                                (il_tickers lookupResult))
          as Hin by (rewrite Hmedium; apply list_elem_of_here).
        apply filter_confidence in Hin as [Hin Hc].
        exists firstMedium. split; [done|]. split; [done|]. split.
        -- intros y Hy. specialize (Hnohigh y Hy). rewrite Hc.
           destruct (tl_confidence y); cbn; (done || lia).
        -- intros (y & Hy & Hcy & _). by apply Hnohigh in Hy.
    + destruct (find isUsExchange (firstHigh :: highs)) as [usTicker|]
        eqn:Hus.
      * apply find_some in Hus as [Hin Hex].
        apply list_elem_of_In in Hin. rewrite <- Hhigh in Hin.
        apply filter_confidence in Hin as [Hin Hc].
        exists usTicker. split; [done|]. split; [done|]. split; [|done].
        intros y Hy. rewrite Hc. cbn. lia.
      * assert (firstHigh ∈ List.filter (isConfidence high)
                              (il_tickers lookupResult))
          as Hin by (rewrite Hhigh; apply list_elem_of_here).
        apply filter_confidence in Hin as [Hin Hc].
        exists firstHigh. split; [done|]. split; [done|]. split.
        -- intros y Hy. rewrite Hc. cbn. lia.
        -- intros (y & Hy & Hcy & Hex).
           assert (y ∈ List.filter (isConfidence high)
                         (il_tickers lookupResult))
             as Hyin by (by apply filter_confidence).
           rewrite Hhigh in Hyin. apply list_elem_of_In in Hyin.
           pose proof (find_none _ _ Hus y Hyin) as Hno. congruence.
Qed.

Lemma best_ticker_is_most_trusted_witness :
  exists x, x ∈ il_tickers fundListings
    /\ getBestTicker fundListings = Some (tl_ticker x)
    /\ (forall y, y ∈ il_tickers fundListings ->
          (confidenceRank (tl_confidence x)
           <= confidenceRank (tl_confidence y))%nat)
    /\ ((exists y, y ∈ il_tickers fundListings
           /\ tl_confidence y = high /\ isUsExchange y = true) ->
        isUsExchange x = true).
Proof.
  apply (proj2 (proj2 (best_ticker_is_most_trusted fundListings)));
    [discriminate | reflexivity].
Defined.

Lemma arrayFromSet_snoc (array : list string) (x : string) :
  arrayFromSet (array ++ [x])
  = if existsb (String.eqb x) (arrayFromSet array)
    then arrayFromSet array
    else arrayFromSet array ++ [x].
Proof. unfold arrayFromSet. by rewrite fold_left_app. Qed.

Lemma existsb_eqb_elem (x : string) (l : list string) :
  existsb (String.eqb x) l = true <-> x ∈ l.
Proof.
  rewrite existsb_exists, list_elem_of_In. split.
  - intros (y & Hy & Heq). by apply String.eqb_eq in Heq as ->.
  - intros Hx. exists x. split; [done|]. apply String.eqb_refl.
Qed.

Lemma arrayFromSet_spec (array : list string) :
  NoDup (arrayFromSet array)
  /\ (forall x, x ∈ arrayFromSet array <-> x ∈ array)
  /\ arrayFromSet array `sublist_of` array.
Proof.
  induction array as [|x array (IH1 & IH2 & IH3)] using rev_ind.
  { split; [constructor|]. split; [done|]. done. }
  rewrite arrayFromSet_snoc.
  destruct (existsb (String.eqb x) (arrayFromSet array)) eqn:Hx.
  - apply existsb_eqb_elem in Hx. split; [done|]. split.
    + intros y. rewrite elem_of_app, list_elem_of_singleton, IH2.
      split; [by left|]. intros [Hy| ->]; [done|]. by apply IH2.
    + by apply sublist_inserts_r.
  - split; [|split].
    + apply NoDup_app. split; [done|]. split; [|apply NoDup_singleton].
      intros y Hy Hy'. apply list_elem_of_singleton in Hy' as ->.
      apply existsb_eqb_elem in Hy. congruence.
    + intros y. by rewrite !elem_of_app, IH2.
    + by apply sublist_app.
Qed.

(** An element of the result is preceded by the elements that precede its
    first occurrence in the array. *)
Lemma arrayFromSet_order (array before : list string) (x : string)
    (after : list string) :
  arrayFromSet array = before ++ x :: after ->
  exists earlier later,
    array = earlier ++ x :: later
    /\ (x ∉ earlier)
    /\ forall y, y ∈ before <-> y ∈ earlier.
Proof.
  revert before x after.
  induction array as [|last array IH] using rev_ind; intros before x after.
  { by destruct before. }
  rewrite arrayFromSet_snoc.
  destruct (existsb (String.eqb last) (arrayFromSet array)) eqn:Hlast.
  - intros Heq. destruct (IH _ _ _ Heq) as (earlier & later & -> & Hx & Hy).
    exists earlier, (later ++ [last]). by rewrite <- app_assoc.
  - destruct after as [|z after _] using rev_ind.
    + intros [<- <-]%app_inj_tail.
      exists array, []. split; [done|].
      destruct (arrayFromSet_spec array) as (_ & Hsame & _). split; [|done].
      intros Hin%Hsame%existsb_eqb_elem. congruence.
    + rewrite app_comm_cons, app_assoc. intros [Heq <-]%app_inj_tail.
      destruct (IH _ _ _ Heq) as (earlier & later & -> & Hx & Hy).
      exists earlier, (later ++ [last]). by rewrite <- app_assoc.
Qed.

(** X27.  [getAllTickers] returns every ticker of the lookup result once,
    in the order of its first occurrence: the tickers listed before a
    ticker are those that occur before its first occurrence. *)
Theorem all_tickers_without_duplicates (lookupResult : ISINLookupResult) :
  let tickers := map tl_ticker (il_tickers lookupResult) in
  NoDup (getAllTickers lookupResult)
  /\ (forall t, t ∈ getAllTickers lookupResult <-> t ∈ tickers)
  /\ getAllTickers lookupResult `sublist_of` tickers
  /\ (forall before t after,
        getAllTickers lookupResult = before ++ t :: after ->
        exists earlier later,
          tickers = earlier ++ t :: later
          /\ (t ∉ earlier)
          /\ forall u, u ∈ before <-> u ∈ earlier).
Proof.
  cbv zeta. unfold getAllTickers.
  destruct (il_tickers lookupResult) as [|first rest] eqn:Ht.
  { split; [constructor|]. split; [done|]. split; [done|].
    intros before t after Heq. by destruct before. }
  destruct (arrayFromSet_spec (map tl_ticker (first :: rest)))
    as (Hnodup & Hsame & Hsub).
  split; [done|]. split; [done|]. split; [done|].
  intros before t after. apply arrayFromSet_order.
Qed.

(** A ticker that is listed twice keeps the place of its first listing. *)
Lemma all_tickers_without_duplicates_witness :
  getAllTickers fundListings = ["VWRL.AS"; "VWRL.L"; "VT"]%string
  /\ exists earlier later,
       map tl_ticker (il_tickers fundListings)
       = earlier ++ "VT"%string :: later
       /\ ("VT"%string ∉ earlier)
       /\ forall u, u ∈ ["VWRL.AS"; "VWRL.L"]%string <-> u ∈ earlier.
Proof.
  split; [vm_compute; reflexivity|].
  apply (proj2 (proj2 (proj2 (all_tickers_without_duplicates fundListings)))
           ["VWRL.AS"; "VWRL.L"]%string "VT"%string []).
  vm_compute. reflexivity.
Defined.

(** ** Writing the asset types back *)

Lemma inferAssetType_nonEmpty (h : Holding) :
  nonEmpty (inferAssetType h) = true.
Proof.
  unfold inferAssetType.
  repeat (match goal with
          | |- context [if ?b then _ else _] => destruct b
          end); done.
Qed.

Section WriteBack.
Variable JSON_parse : string -> option (list string).

Lemma unmatched_suggestedAssetType (holdings : list Holding)
    (targets : list TargetAllocation) :
  Forall (fun u => nonEmpty (u_suggestedAssetType u) = true)
    (unmatched (matchHoldingsToTargets JSON_parse holdings targets)).
Proof.
  unfold matchHoldingsToTargets. rewrite unmatched_fold. cbn [unmatched app].
  apply Forall_forall. intros u Hu.
  apply list_elem_of_omap in Hu as (h & _ & Hu). unfold unmatchedOf in Hu.
  destruct (findMatch _ h); [done|]. injection Hu as <-.
  apply inferAssetType_nonEmpty.
Qed.

(** X28.  [updateHoldingsWithTargetTypes] counts every holding once, as
    updated or as unmatched, and runs one UPDATE statement for each of them:
    an unmatched holding always has a suggested asset type to write. *)
Theorem every_holding_is_written_back (targets : list TargetAllocation)
    (holdings : list Holding) (accountId : Z) (statementDate : string) :
  let outcome :=
    updateHoldingsWithTargetTypes JSON_parse targets holdings accountId
      statementDate in
  (o_updated outcome + o_unmatched outcome = length holdings)%nat
  /\ length (o_statements outcome) = length holdings.
Proof.
  cbv zeta. unfold updateHoldingsWithTargetTypes.
  cbn [o_updated o_unmatched o_statements].
  pose proof (match_result_lengths JSON_parse holdings targets) as Hlen.
  cbv zeta in Hlen. split; [exact Hlen|].
  rewrite length_app, length_map.
  pose proof (unmatched_suggestedAssetType holdings targets) as Hsug.
  assert (forall us : list UnmatchedHolding,
            Forall (fun u => nonEmpty (u_suggestedAssetType u) = true) us ->
            length
              (omap (fun u =>
                       if nonEmpty (u_suggestedAssetType u)
                       then Some (SetType (u_suggestedAssetType u) accountId
                                    (h_symbol (u_holding u)) statementDate)
                       else None) us)
            = length us) as Homap.
  { intros us Hus. induction Hus as [|u us Hu _ IH]; [done|].
    cbn [omap list_omap]. rewrite Hu. cbn [length]. by rewrite IH. }
  rewrite (Homap _ Hsug). exact Hlen.
Qed.
End WriteBack.

(** ** The allocations of a snapshot *)

Lemma allocationAdd_sum (key : string) (v : Q) (m : AllocationsByType) :
  allocationHas key m = true ->
  (sumOf (allocationValues (allocationAdd key v m))
   == sumOf (allocationValues m) + v)%Q.
Proof.
  unfold allocationHas, allocationValues.
  induction m as [|[k d] m IH]; [done|].
  cbn [existsb allocationAdd fst]. destruct (String.eqb k key); cbn [orb].
  - intros _. cbn [map sumOf snd d_value]. lra.
  - intros H. cbn [map sumOf snd]. rewrite (IH H). lra.
Qed.

Lemma allocationValues_snoc (m : AllocationsByType) (key : string)
    (d : AllocationData) :
  (sumOf (allocationValues (m ++ [(key, d)]))
   == sumOf (allocationValues m) + d_value d)%Q.
Proof.
  unfold allocationValues. induction m as [|kd m IH]; cbn [app map sumOf snd].
  - lra.
  - rewrite IH. lra.
Qed.

Lemma allocationHas_snoc (m : AllocationsByType) (key : string)
    (d : AllocationData) :
  allocationHas key (m ++ [(key, d)]) = true.
Proof.
  unfold allocationHas. rewrite existsb_app. cbn [existsb fst].
  by rewrite String.eqb_refl, orb_true_r.
Qed.

Lemma allocationStep_sum (m : AllocationsByType) (holding : Holding) :
  (sumOf (allocationValues (allocationStep m holding))
   == sumOf (allocationValues m) + h_value_usd holding)%Q.
Proof.
  unfold allocationStep.
  destruct (allocationHas _ m) eqn:Hhas.
  - by apply allocationAdd_sum.
  - rewrite allocationAdd_sum by apply allocationHas_snoc.
    rewrite allocationValues_snoc. cbn [d_value]. lra.
Qed.

Lemma allocations_fold_sum (holdings : list Holding) (m : AllocationsByType)
    (total : Q) :
  (sumOf (allocationValues (fold_left allocationStep holdings m))
   - fold_left (fun sum h => sum + h_value_usd h) holdings total
   == sumOf (allocationValues m) - total)%Q.
Proof.
  revert m total. induction holdings as [|h holdings IH]; intros m total.
  - cbn [fold_left]. lra.
  - cbn [fold_left]. rewrite IH, allocationStep_sum. lra.
Qed.

Lemma percentages_sum (total : Q) (values : list Q) :
  ~ (total == 0)%Q ->
  (sumOf (map (fun v => v / total * 100) values)
   == sumOf values / total * 100)%Q.
Proof.
  intros Hne. induction values as [|v values IH]; cbn [map sumOf].
  - field. exact Hne.
  - rewrite IH. field. exact Hne.
Qed.



(** ** Validation of imported targets *)

Lemma filter_all {A} (p : A -> bool) (l : list A) :
  Forall (fun x => p x = true) l -> List.filter p l = l.
Proof.
  induction 1 as [|x l Hx _ IH]; [done|]. cbn [List.filter].
  by rewrite Hx, IH.
Qed.

Lemma filter_split_length {A} (p : A -> bool) (l : list A) :
  (length (List.filter (fun x => negb (p x)) l) + length (List.filter p l)
   = length l)%nat.
Proof.
  induction l as [|x l IH]; [done|]. cbn [List.filter].
  destruct (p x); cbn [negb length]; lia.
Qed.

(** X30.  Validation never turns a target down: whatever the lookup service
    answers, every result is valid and without errors, so that [allValid]
    holds and the number of valid targets is the number of targets; each
    target is counted either as complete or as needing auto-detection. *)
Theorem validation_never_rejects
    (lookupNameFromTicker lookupNameFromISIN : string -> NameAnswer)
    (targets : list TargetToValidate) :
  let validation :=
    validateTargets lookupNameFromTicker lookupNameFromISIN targets in
  tv_allValid validation = true
  /\ Forall (fun r => r_isValid r.2 = true /\ r_errors r.2 = [])
       (tv_results validation)
  /\ sm_valid (tv_summary validation) = length targets
  /\ sm_total (tv_summary validation) = length targets
  /\ (sm_complete (tv_summary validation)
      + sm_needsAutoDetect (tv_summary validation) = length targets)%nat.
Proof.
  cbv zeta. unfold validateTargets.
  cbn [tv_allValid tv_results tv_summary sm_valid sm_total sm_complete
       sm_needsAutoDetect].
  set (results := map _ targets).
  assert (Forall (fun r : TargetToValidate * ValidationResult =>
                    r_isValid r.2 = true) results) as Hvalid.
  { apply Forall_forall. intros r Hr. unfold results in Hr.
    apply list_elem_of_fmap in Hr as (t & -> & _). done. }
  split; [|split; [|split; [|split]]].
  - apply forallb_forall. intros r Hr. rewrite Forall_forall in Hvalid.
    apply Hvalid. by apply list_elem_of_In.
  - apply Forall_forall. intros r Hr. unfold results in Hr.
    apply list_elem_of_fmap in Hr as (t & -> & _). done.
  - rewrite (filter_all _ _ Hvalid). unfold results. by rewrite length_map.
  - done.
  - rewrite filter_split_length. unfold results. by rewrite length_map.
Qed.

